(** * Order checkout and receipt retrieval of the point-of-sale backend

    A shallow embedding of routes of the backend's [index.js]:

    - [router.post('/processOrder')]: the checkout transaction;
    - [router.get('/receipts/:receipt_id')]: fetch of one receipt;
    - [router.put] and [router.delete] on ['/receipts/:receipt_id'];
    - the menu routes [addItem], [editItem] and [removeItem];

    and of the shopping cart of the frontend.

    The relational store is modelled by its tables (lists of rows in
    insertion order), its two serial sequences and one database session
    with PostgreSQL's transaction commands.  Every [pool.query] call of a
    handler is a step of a small state-and-exception monad; an oracle
    decides which calls are rejected by the database. *)

From Stdlib Require Import ZArith String List Bool Lia Permutation.
Import ListNotations.
Local Open Scope Z_scope.

(** ** Request payload *)

(** [orderItem.quantity]: absent, [null], or an integer number. *)
Inductive jsnum : Type :=
| JUndefined
| JNull
| JNumber (z : Z).

(** One element of [req.body.orderList].  A text field is [None] when the
    property is absent or [null] ([pg] sends both as SQL NULL).  The
    handler only ever indexes [entrees]: [oi_entrees] is [None] when the
    property is absent or [null], the two values whose indexing throws, and
    otherwise lists what [entrees[0]], [entrees[1]], ... give (see
    [indices]).  Prices are numbers the handler only stores, never computes
    with. *)
Record orderItem : Type := {
  oi_type : option string;
  oi_name : option string;
  oi_size : option string;
  oi_price : Z;
  oi_quantity : jsnum;
  oi_entrees : option (list (option string));
  oi_side : option string
}.

(** A JSON value in the place of [entrees] or [meats] (an array of texts
    and [null]s, for the arrays). *)
Inductive jsvalue : Type :=
| VUndefined
| VNull
| VBoolean (b : bool)
| VNumber (z : Z)
| VString (s : string)
| VArray (l : list (option string)).

(** What [v[0]], [v[1]], ... give: [None] when indexing throws, else the
    list of the values at the indices that have one.  An array gives its
    elements, a string its characters (one-character strings, for ASCII
    text), a boolean or a number nothing. *)
Definition indices (v : jsvalue) : option (list (option string)) :=
  match v with
  | VUndefined | VNull => None
  | VBoolean _ | VNumber _ => Some []
  | VString s =>
      Some (map (fun c => Some (String c EmptyString)) (list_ascii_of_string s))
  | VArray l => Some l
  end.

(** ** Tables *)

Record receipt_row : Type := {
  r_receipt_id : Z;
  r_totalamount : Z
}.

Record line_item_row : Type := {
  li_line_item_id : Z;
  li_receipt_id : Z;
  li_price : Z
}.

Record meal_item_row : Type := {
  mi_line_item_id : Z;
  mi_size : option string;
  mi_price : Z;
  mi_meat1 : option string;
  mi_meat2 : option string;
  mi_meat3 : option string;
  mi_side : option string
}.

Record drink_item_row : Type := {
  di_line_item_id : Z;
  di_name : option string;
  di_price : Z;
  di_size : option string
}.

Record appetizer_item_row : Type := {
  ai_line_item_id : Z;
  ai_name : option string;
  ai_price : Z
}.

Record menu_row : Type := {
  m_menu_id : Z;
  m_name : option string
}.

Record recipe_ingredient_row : Type := {
  ri_recipe_id : Z;
  ri_ingredient_id : Z
}.

Record ingredient_row : Type := {
  i_ingredient_id : Z;
  i_inventory_id : Z;
  i_quantity : Z
}.

Record inventory_row : Type := {
  inv_inventory_id : Z;
  inv_quantity : Z
}.

(** The columns the two routes read or write; the timestamp and status
    columns of [receipt] are filled by the database and left out. *)
Record tables : Type := {
  receipt : list receipt_row;
  line_item : list line_item_row;
  meal_item : list meal_item_row;
  drink_item : list drink_item_row;
  appetizer_item : list appetizer_item_row;
  menu : list menu_row;
  recipe_ingredient : list recipe_ingredient_row;
  ingredient : list ingredient_row;
  inventory : list inventory_row
}.

(** The serial columns [receipt.receipt_id] and [line_item.line_item_id].
    A sequence is not transactional: a rollback does not give numbers back. *)
Record sequences : Type := {
  receipt_id_seq : Z;
  line_item_id_seq : Z
}.

Definition set_receipt (t : tables) (v : list receipt_row) : tables :=
  {| receipt := v; line_item := line_item t; meal_item := meal_item t;
     drink_item := drink_item t; appetizer_item := appetizer_item t;
     menu := menu t; recipe_ingredient := recipe_ingredient t;
     ingredient := ingredient t; inventory := inventory t |}.

Definition set_line_item (t : tables) (v : list line_item_row) : tables :=
  {| receipt := receipt t; line_item := v; meal_item := meal_item t;
     drink_item := drink_item t; appetizer_item := appetizer_item t;
     menu := menu t; recipe_ingredient := recipe_ingredient t;
     ingredient := ingredient t; inventory := inventory t |}.

Definition set_meal_item (t : tables) (v : list meal_item_row) : tables :=
  {| receipt := receipt t; line_item := line_item t; meal_item := v;
     drink_item := drink_item t; appetizer_item := appetizer_item t;
     menu := menu t; recipe_ingredient := recipe_ingredient t;
     ingredient := ingredient t; inventory := inventory t |}.

Definition set_drink_item (t : tables) (v : list drink_item_row) : tables :=
  {| receipt := receipt t; line_item := line_item t; meal_item := meal_item t;
     drink_item := v; appetizer_item := appetizer_item t;
     menu := menu t; recipe_ingredient := recipe_ingredient t;
     ingredient := ingredient t; inventory := inventory t |}.

Definition set_appetizer_item (t : tables) (v : list appetizer_item_row) : tables :=
  {| receipt := receipt t; line_item := line_item t; meal_item := meal_item t;
     drink_item := drink_item t; appetizer_item := v;
     menu := menu t; recipe_ingredient := recipe_ingredient t;
     ingredient := ingredient t; inventory := inventory t |}.

Definition set_inventory (t : tables) (v : list inventory_row) : tables :=
  {| receipt := receipt t; line_item := line_item t; meal_item := meal_item t;
     drink_item := drink_item t; appetizer_item := appetizer_item t;
     menu := menu t; recipe_ingredient := recipe_ingredient t;
     ingredient := ingredient t; inventory := v |}.

(** ** SQL statements of the two routes

    A statement maps the visible tables and the sequences to its result
    rows, the new tables and the new sequences. *)

Definition statement (A : Type) : Type :=
  tables -> sequences -> A * tables * sequences.

(** SQL comparison of two nullable texts: NULL equals nothing. *)
Definition sql_eq (a b : option string) : bool :=
  match a, b with
  | Some x, Some y => String.eqb x y
  | _, _ => false
  end.

(** [a IN (params)]. *)
Definition sql_in (a : option string) (params : list (option string)) : bool :=
  existsb (sql_eq a) params.

(** [INSERT INTO receipt (date, totalamount, order_time)
     VALUES (CURRENT_TIMESTAMP, $1, CURRENT_TIME) RETURNING receipt_id] *)
Definition INSERT_receipt (totalamount : Z) : statement Z :=
  fun t sq =>
    let id := receipt_id_seq sq in
    (id,
     set_receipt t (receipt t ++ [{| r_receipt_id := id; r_totalamount := totalamount |}]),
     {| receipt_id_seq := id + 1; line_item_id_seq := line_item_id_seq sq |}).

(** [INSERT INTO line_item (receipt_id, price) VALUES ($1, $2)
     RETURNING line_item_id] *)
Definition INSERT_line_item (receipt_id price : Z) : statement Z :=
  fun t sq =>
    let id := line_item_id_seq sq in
    (id,
     set_line_item t (line_item t ++
       [{| li_line_item_id := id; li_receipt_id := receipt_id; li_price := price |}]),
     {| receipt_id_seq := receipt_id_seq sq; line_item_id_seq := id + 1 |}).

(** [INSERT INTO meal_item (line_item_id, size, price, meat1, meat2, meat3, side)
     VALUES ($1, ..., $7)] *)
Definition INSERT_meal_item (row : meal_item_row) : statement unit :=
  fun t sq => (tt, set_meal_item t (meal_item t ++ [row]), sq).

(** [INSERT INTO drink_item (line_item_id, name, price, size)
     VALUES ($1, $2, $3, $4)] *)
Definition INSERT_drink_item (row : drink_item_row) : statement unit :=
  fun t sq => (tt, set_drink_item t (drink_item t ++ [row]), sq).

(** [INSERT INTO appetizer_item (line_item_id, name, price)
     VALUES ($1, $2, $3)] *)
Definition INSERT_appetizer_item (row : appetizer_item_row) : statement unit :=
  fun t sq => (tt, set_appetizer_item t (appetizer_item t ++ [row]), sq).

(** [SELECT inv.inventory_id, i.quantity
     FROM menu m
     JOIN recipe_ingredient ri ON m.menu_id = ri.recipe_id
     JOIN ingredient i ON ri.ingredient_id = i.ingredient_id
     JOIN inventory inv ON i.inventory_id = inv.inventory_id
     WHERE <condition on m.name>]
    as a nested-loop join; a result row is (inventory_id, quantity). *)
Definition ingredient_join (where_name : option string -> bool) (t : tables)
  : list (Z * Z) :=
  flat_map (fun m =>
    if where_name (m_name m) then
      flat_map (fun ri =>
        if m_menu_id m =? ri_recipe_id ri then
          flat_map (fun i =>
            if ri_ingredient_id ri =? i_ingredient_id i then
              flat_map (fun inv =>
                if i_inventory_id i =? inv_inventory_id inv
                then [(inv_inventory_id inv, i_quantity i)]
                else [])
                (inventory t)
            else [])
            (ingredient t)
        else [])
        (recipe_ingredient t)
    else [])
    (menu t).

(** [... WHERE m.name IN ($1, $2, $3, $4)] *)
Definition SELECT_ingredients_IN (params : list (option string))
  : statement (list (Z * Z)) :=
  fun t sq => (ingredient_join (fun n => sql_in n params) t, t, sq).

(** [... WHERE m.name = $1] *)
Definition SELECT_ingredients_EQ (param : option string)
  : statement (list (Z * Z)) :=
  fun t sq => (ingredient_join (fun n => sql_eq n param) t, t, sq).

(** [UPDATE inventory SET quantity = quantity - $1 WHERE inventory_id = $2] *)
Definition UPDATE_inventory (amount inventory_id : Z) : statement unit :=
  fun t sq =>
    (tt,
     set_inventory t
       (map (fun inv =>
               if inv_inventory_id inv =? inventory_id
               then {| inv_inventory_id := inv_inventory_id inv;
                       inv_quantity := inv_quantity inv - amount |}
               else inv)
            (inventory t)),
     sq).

(** [SELECT receipt_id, date, totalamount, status FROM receipt
     WHERE receipt_id = $1] *)
Definition SELECT_receipt (receipt_id : Z) : statement (list receipt_row) :=
  fun t sq =>
    (filter (fun r => r_receipt_id r =? receipt_id) (receipt t), t, sq).

(** [SELECT li.line_item_id, li.price FROM line_item li
     WHERE li.receipt_id = $1] *)
Definition SELECT_line_items (receipt_id : Z) : statement (list line_item_row) :=
  fun t sq =>
    (filter (fun li => li_receipt_id li =? receipt_id) (line_item t), t, sq).

(** [SELECT mi.size, mi.meat1, mi.meat2, mi.meat3, mi.side FROM meal_item mi
     WHERE mi.line_item_id = $1] *)
Definition SELECT_meal_item (line_item_id : Z) : statement (list meal_item_row) :=
  fun t sq =>
    (filter (fun mi => mi_line_item_id mi =? line_item_id) (meal_item t), t, sq).

(** [SELECT ai.name FROM appetizer_item ai WHERE ai.line_item_id = $1] *)
Definition SELECT_appetizer_item (line_item_id : Z)
  : statement (list appetizer_item_row) :=
  fun t sq =>
    (filter (fun ai => ai_line_item_id ai =? line_item_id) (appetizer_item t), t, sq).

(** [SELECT di.name, di.size FROM drink_item di WHERE di.line_item_id = $1] *)
Definition SELECT_drink_item (line_item_id : Z) : statement (list drink_item_row) :=
  fun t sq =>
    (filter (fun di => di_line_item_id di =? line_item_id) (drink_item t), t, sq).

(** ** The database session behind [pool]

    [committed] is what every session sees; [txn] is the working copy of the
    transaction opened by [BEGIN], if any.  [clock] counts the [pool.query]
    calls made so far.  The handlers await each call before the next, and
    the model runs one request at a time, so all calls of a request reach
    the same session. *)
Record server : Type := {
  committed : tables;
  txn : option tables;
  seqs : sequences;
  clock : nat
}.

Definition view (s : server) : tables :=
  match txn s with
  | Some t => t
  | None => committed s
  end.

Inductive outcome (A : Type) : Type :=
| Return (a : A)
| Throw (message : string).
Arguments Return {A} a.
Arguments Throw {A} message.

Definition M (A : Type) : Type := server -> outcome A * server.

Definition ret {A} (a : A) : M A := fun s => (Return a, s).

Definition throw {A} (message : string) : M A := fun s => (Throw message, s).

Definition bind {A B} (m : M A) (f : A -> M B) : M B :=
  fun s =>
    match m s with
    | (Return a, s') => f a s'
    | (Throw e, s') => (Throw e, s')
    end.

Notation "x <- m ;; k" := (bind m (fun x => k))
  (at level 61, m at next level, right associativity).
Notation "m ;;; k" := (bind m (fun _ => k))
  (at level 61, right associativity).

(** [for (const x of l) body] *)
Fixpoint for_of {A} (l : list A) (body : A -> M unit) : M unit :=
  match l with
  | [] => ret tt
  | x :: l' => body x ;;; for_of l' body
  end.

(** [for (let q = 0; q < quantity; q++) body], where [n] is the number of
    integers [q >= 0] below [quantity]. *)
Fixpoint for_q (n : nat) (body : M unit) : M unit :=
  match n with
  | O => ret tt
  | S n' => body ;;; for_q n' body
  end.

(** The database rejects the [k]-th call when the oracle gives a message. *)
Definition oracle : Type := nat -> option string.

Definition no_faults : oracle := fun _ => None.

Definition tick (s : server) : server :=
  {| committed := committed s; txn := txn s; seqs := seqs s;
     clock := S (clock s) |}.

(** [await pool.query(text, params)] for a data statement.  Outside a
    transaction the statement commits on its own. *)
Definition pool_query {A} (fault : oracle) (q : statement A) : M A :=
  fun s =>
    match fault (clock s) with
    | Some message => (Throw message, tick s)
    | None =>
        let '(a, t', sq') := q (view s) (seqs s) in
        (Return a,
         match txn s with
         | Some _ =>
             {| committed := committed s; txn := Some t'; seqs := sq';
                clock := S (clock s) |}
         | None =>
             {| committed := t'; txn := None; seqs := sq';
                clock := S (clock s) |}
         end)
    end.

Inductive tx_command : Type := BEGIN | COMMIT | ROLLBACK.

(** [await pool.query('BEGIN' | 'COMMIT' | 'ROLLBACK')].  Inside a
    transaction a second [BEGIN] only warns; outside one, [COMMIT] and
    [ROLLBACK] only warn. *)
Definition pool_query_tx (fault : oracle) (c : tx_command) : M unit :=
  fun s =>
    match fault (clock s) with
    | Some message => (Throw message, tick s)
    | None =>
        (Return tt,
         match c with
         | BEGIN =>
             {| committed := committed s; txn := Some (view s);
                seqs := seqs s; clock := S (clock s) |}
         | COMMIT =>
             {| committed := view s; txn := None;
                seqs := seqs s; clock := S (clock s) |}
         | ROLLBACK =>
             {| committed := committed s; txn := None;
                seqs := seqs s; clock := S (clock s) |}
         end)
    end.

(** What the client gets: a 200 JSON body, an error body with its status,
    or nothing when the handler's promise rejects. *)
Inductive response (A : Type) : Type :=
| Json (body : A)
| ErrorJson (status : Z) (error : string)
| Unhandled (message : string).
Arguments Json {A} body.
Arguments ErrorJson {A} status error.
Arguments Unhandled {A} message.

(** ** [router.post('/processOrder')] *)

(** [v || null] on a text: the empty string is falsy. *)
Definition or_null (v : option string) : option string :=
  match v with
  | Some s => if String.eqb s "" then None else Some s
  | None => None
  end.

(** [orderItem.entrees[i] || null]; a slot past the end is [undefined]. *)
Definition entree (entrees : list (option string)) (i : nat) : option string :=
  or_null (nth i entrees None).

(** [orderItem.type === label] *)
Definition type_is (orderItem : orderItem) (label : string) : bool :=
  match oi_type orderItem with
  | Some t => String.eqb t label
  | None => false
  end.

(** [orderItem.quantity || 1] *)
Definition quantity_or_1 (q : jsnum) : Z :=
  match q with
  | JNumber z => if z =? 0 then 1 else z
  | JUndefined | JNull => 1
  end.

(** Reading [orderItem.entrees[0]] when [entrees] is absent; when it is
    [null] the message names [null] instead.  An absent and a [null]
    [entrees] are one value here, and the first message stands for both. *)
Definition TypeError : string :=
  "Cannot read properties of undefined (reading '0')".


(** [switch (orderItem.type) { ... }] *)
Definition insert_specific (fault : oracle) (lineItemId : Z) (orderItem : orderItem)
  : M unit :=
  if type_is orderItem "Meal" then
    match oi_entrees orderItem with
    | None => throw TypeError (* [entrees] absent or [null] *)
    | Some entrees =>
        pool_query fault (INSERT_meal_item
          {| mi_line_item_id := lineItemId;
             mi_size := oi_size orderItem;
             mi_price := oi_price orderItem;
             mi_meat1 := entree entrees 0;
             mi_meat2 := entree entrees 1;
             mi_meat3 := entree entrees 2;
             mi_side := oi_side orderItem |})
    end
  else if type_is orderItem "drink" || type_is orderItem "Drink" then
    pool_query fault (INSERT_drink_item
      {| di_line_item_id := lineItemId;
         di_name := oi_name orderItem;
         di_price := oi_price orderItem;
         di_size := Some "Regular"%string |})
  else if type_is orderItem "appetizer" then
    pool_query fault (INSERT_appetizer_item
      {| ai_line_item_id := lineItemId;
         ai_name := oi_name orderItem;
         ai_price := oi_price orderItem |})
  else ret tt.

(** The ingredient query of one order item. *)
Definition select_ingredientList (fault : oracle) (orderItem : orderItem)
  : M (list (Z * Z)) :=
  if type_is orderItem "Meal" then
    match oi_entrees orderItem with
    | None => throw TypeError (* [entrees] absent or [null] *)
    | Some entrees =>
        pool_query fault (SELECT_ingredients_IN
          [entree entrees 0; entree entrees 1; entree entrees 2;
           oi_side orderItem])
    end
  else pool_query fault (SELECT_ingredients_EQ (oi_name orderItem)).

(** Body of [for (const orderItem of orderList)]. *)
Definition process_orderItem (fault : oracle) (receiptId : Z) (orderItem : orderItem)
  : M unit :=
  let quantity := quantity_or_1 (oi_quantity orderItem) in
  for_q (Z.to_nat quantity)
    (lineItemId <- pool_query fault (INSERT_line_item receiptId (oi_price orderItem));;
     insert_specific fault lineItemId orderItem) ;;;
  ingredientList <- select_ingredientList fault orderItem;;
  for_of ingredientList (fun row =>
    let totalQuantityNeeded := snd row * quantity in
    pool_query fault (UPDATE_inventory totalQuantityNeeded (fst row))).

(** The [try] block. *)
Definition processOrder_try (fault : oracle) (orderList : list orderItem)
  (totalPrice : Z) : M Z :=
  pool_query_tx fault BEGIN ;;;
  receiptId <- pool_query fault (INSERT_receipt totalPrice);;
  for_of orderList (process_orderItem fault receiptId) ;;;
  pool_query_tx fault COMMIT ;;;
  ret receiptId.

(** The handler: [try { ... res.json({ result: receiptId, success: true }) }
    catch (error) { await pool.query('ROLLBACK');
                    res.status(500).json({ error: error.message }) }]. *)
Definition processOrder (fault : oracle) (orderList : list orderItem)
  (totalPrice : Z) (s : server) : response Z * server :=
  match processOrder_try fault orderList totalPrice s with
  | (Return receiptId, s') => (Json receiptId, s')
  | (Throw message, s') =>
      match pool_query_tx fault ROLLBACK s' with
      | (Return _, s'') => (ErrorJson 500 message, s'')
      | (Throw message', s'') => (Unhandled message', s'')
      end
  end.

(** ** [router.get('/receipts/:receipt_id')] *)

(** An element of [line_items] in the response. *)
Inductive line_item_json : Type :=
| MealJson (line_item_id : Z) (size : option string) (meats : list string)
    (side : option string) (price : Z)
| AppetizerJson (line_item_id : Z) (name : option string) (price : Z)
| DrinkJson (line_item_id : Z) (name : option string) (size : option string)
    (price : Z)
| UnknownJson (line_item_id : Z) (price : Z).

(** The [type] property of an element. *)
Definition json_type (j : line_item_json) : string :=
  match j with
  | MealJson _ _ _ _ _ => "Meal"
  | AppetizerJson _ _ _ => "Appetizer"
  | DrinkJson _ _ _ _ => "Drink"
  | UnknownJson _ _ => "Unknown"
  end.

Definition json_price (j : line_item_json) : Z :=
  match j with
  | MealJson _ _ _ _ p => p
  | AppetizerJson _ _ p => p
  | DrinkJson _ _ _ p => p
  | UnknownJson _ p => p
  end.

Definition json_line_item_id (j : line_item_json) : Z :=
  match j with
  | MealJson id _ _ _ _ => id
  | AppetizerJson id _ _ => id
  | DrinkJson id _ _ _ => id
  | UnknownJson id _ => id
  end.

(** [[...].filter(Boolean)] on nullable texts. *)
Fixpoint filter_Boolean (l : list (option string)) : list string :=
  match l with
  | [] => []
  | Some s :: l' =>
      if String.eqb s "" then filter_Boolean l' else s :: filter_Boolean l'
  | None :: l' => filter_Boolean l'
  end.

Record receipt_json : Type := {
  rj_receipt_id : Z;
  rj_totalamount : Z;
  rj_line_items : list line_item_json
}.

(** Body of [for (const li of lineItems)]: the value pushed on [items]. *)
Definition item_details (fault : oracle) (li : line_item_row) : M line_item_json :=
  let line_item_id := li_line_item_id li in
  mealItemResult <- pool_query fault (SELECT_meal_item line_item_id);;
  match mealItemResult with
  | mi :: _ =>
      ret (MealJson line_item_id (mi_size mi)
             (filter_Boolean [mi_meat1 mi; mi_meat2 mi; mi_meat3 mi])
             (mi_side mi) (li_price li))
  | [] =>
      appetizerItemResult <- pool_query fault (SELECT_appetizer_item line_item_id);;
      match appetizerItemResult with
      | ai :: _ => ret (AppetizerJson line_item_id (ai_name ai) (li_price li))
      | [] =>
          drinkItemResult <- pool_query fault (SELECT_drink_item line_item_id);;
          match drinkItemResult with
          | di :: _ =>
              ret (DrinkJson line_item_id (di_name di) (di_size di) (li_price li))
          | [] => ret (UnknownJson line_item_id (li_price li))
          end
      end
  end.

(** [for (const li of lineItems) { ... items.push(...) }] *)
Fixpoint for_lineItems (fault : oracle) (lineItems : list line_item_row)
  (items : list line_item_json) : M (list line_item_json) :=
  match lineItems with
  | [] => ret items
  | li :: rest =>
      item <- item_details fault li;;
      for_lineItems fault rest (items ++ [item])
  end.

(** The [try] block; [None] is the early 404 return. *)
Definition get_receipt_try (fault : oracle) (receipt_id : Z)
  : M (option receipt_json) :=
  receiptResult <- pool_query fault (SELECT_receipt receipt_id);;
  match receiptResult with
  | [] => ret None
  | receipt :: _ =>
      lineItems <- pool_query fault (SELECT_line_items receipt_id);;
      items <- for_lineItems fault lineItems [];;
      ret (Some {| rj_receipt_id := r_receipt_id receipt;
                   rj_totalamount := r_totalamount receipt;
                   rj_line_items := items |})
  end.

Definition get_receipt (fault : oracle) (receipt_id : Z) (s : server)
  : response receipt_json * server :=
  match get_receipt_try fault receipt_id s with
  | (Return (Some body), s') => (Json body, s')
  | (Return None, s') => (ErrorJson 404 "Receipt not found", s')
  | (Throw message, s') => (ErrorJson 500 message, s')
  end.

(** ** A small restaurant used in the examples *)

Definition demo_tables : tables :=
  {| receipt := [{| r_receipt_id := 1; r_totalamount := 500 |}];
     line_item := [{| li_line_item_id := 1; li_receipt_id := 1; li_price := 500 |}];
     meal_item := [];
     drink_item := [{| di_line_item_id := 1; di_name := Some "Small Drink"%string;
                       di_price := 500; di_size := Some "Regular"%string |}];
     appetizer_item := [];
     menu := [{| m_menu_id := 1; m_name := Some "Orange Chicken"%string |};
              {| m_menu_id := 2; m_name := Some "Fried Rice"%string |};
              {| m_menu_id := 3; m_name := Some "Medium Drink"%string |};
              {| m_menu_id := 4; m_name := Some "Egg Roll"%string |};
              {| m_menu_id := 5; m_name := None |}];
     recipe_ingredient := [{| ri_recipe_id := 1; ri_ingredient_id := 1 |};
                           {| ri_recipe_id := 2; ri_ingredient_id := 2 |};
                           {| ri_recipe_id := 3; ri_ingredient_id := 3 |};
                           {| ri_recipe_id := 4; ri_ingredient_id := 4 |};
                           {| ri_recipe_id := 5; ri_ingredient_id := 5 |}];
     ingredient := [{| i_ingredient_id := 1; i_inventory_id := 10; i_quantity := 2 |};
                    {| i_ingredient_id := 2; i_inventory_id := 11; i_quantity := 1 |};
                    {| i_ingredient_id := 3; i_inventory_id := 12; i_quantity := 2 |};
                    {| i_ingredient_id := 4; i_inventory_id := 13; i_quantity := 1 |};
                    {| i_ingredient_id := 5; i_inventory_id := 14; i_quantity := 7 |}];
     inventory := [{| inv_inventory_id := 10; inv_quantity := 100 |};
                   {| inv_inventory_id := 11; inv_quantity := 100 |};
                   {| inv_inventory_id := 12; inv_quantity := 100 |};
                   {| inv_inventory_id := 13; inv_quantity := 100 |};
                   {| inv_inventory_id := 14; inv_quantity := 100 |}] |}.

Definition demo_server : server :=
  {| committed := demo_tables; txn := None;
     seqs := {| receipt_id_seq := 2; line_item_id_seq := 2 |};
     clock := 0 |}.

(** The same server after [BEGIN]. *)
Definition demo_open : server :=
  {| committed := demo_tables; txn := Some demo_tables;
     seqs := {| receipt_id_seq := 2; line_item_id_seq := 2 |};
     clock := 1 |}.

Definition demo_drink (type : string) (quantity : jsnum) : orderItem :=
  {| oi_type := Some type; oi_name := Some "Medium Drink"%string;
     oi_size := Some "Large"%string; oi_price := 199; oi_quantity := quantity;
     oi_entrees := None; oi_side := None |}.

(** The side the cart page offers next to a meal. *)
Definition demo_side : orderItem :=
  {| oi_type := Some "Side"%string; oi_name := Some "Side"%string;
     oi_size := None; oi_price := 299; oi_quantity := JNumber 2;
     oi_entrees := Some []; oi_side := Some "White Rice"%string |}.

Definition demo_appetizer (type : string) : orderItem :=
  {| oi_type := Some type; oi_name := Some "Egg Roll"%string;
     oi_size := None; oi_price := 200; oi_quantity := JNumber 1;
     oi_entrees := None; oi_side := None |}.

Definition demo_meal (entrees : list (option string)) : orderItem :=
  {| oi_type := Some "Meal"%string; oi_name := None;
     oi_size := Some "Plate"%string; oi_price := 849; oi_quantity := JNumber 1;
     oi_entrees := Some entrees; oi_side := Some "Fried Rice"%string |}.

(** ** What a run inside a transaction does

    [ids_from start n] are the [n] next values of a serial column. *)
Fixpoint ids_from (start : Z) (n : nat) : list Z :=
  match n with
  | O => []
  | S n' => start :: ids_from (start + 1) n'
  end.

(** An order item can be processed unless it is a meal whose [entrees] is
    absent or [null]. *)
Definition well_formed (orderItem : orderItem) : bool :=
  if type_is orderItem "Meal" then
    match oi_entrees orderItem with
    | Some _ => true
    | None => false
    end
  else true.

Definition line_item_of (receiptId : Z) (orderItem : orderItem) (id : Z)
  : line_item_row :=
  {| li_line_item_id := id; li_receipt_id := receiptId;
     li_price := oi_price orderItem |}.

Definition meal_rows (orderItem : orderItem) (id : Z) : list meal_item_row :=
  if type_is orderItem "Meal" then
    match oi_entrees orderItem with
    | Some entrees =>
        [{| mi_line_item_id := id;
            mi_size := oi_size orderItem;
            mi_price := oi_price orderItem;
            mi_meat1 := entree entrees 0;
            mi_meat2 := entree entrees 1;
            mi_meat3 := entree entrees 2;
            mi_side := oi_side orderItem |}]
    | None => []
    end
  else [].

Definition drink_rows (orderItem : orderItem) (id : Z) : list drink_item_row :=
  if type_is orderItem "Meal" then []
  else if type_is orderItem "drink" || type_is orderItem "Drink" then
    [{| di_line_item_id := id;
        di_name := oi_name orderItem;
        di_price := oi_price orderItem;
        di_size := Some "Regular"%string |}]
  else [].

Definition appetizer_rows (orderItem : orderItem) (id : Z)
  : list appetizer_item_row :=
  if type_is orderItem "Meal" then []
  else if type_is orderItem "drink" || type_is orderItem "Drink" then []
  else if type_is orderItem "appetizer" then
    [{| ai_line_item_id := id;
        ai_name := oi_name orderItem;
        ai_price := oi_price orderItem |}]
  else [].

(** Tables after the line items with the given ids were inserted. *)
Definition with_line_items (receiptId : Z) (orderItem : orderItem)
  (ids : list Z) (t : tables) : tables :=
  {| receipt := receipt t;
     line_item := line_item t ++ map (line_item_of receiptId orderItem) ids;
     meal_item := meal_item t ++ flat_map (meal_rows orderItem) ids;
     drink_item := drink_item t ++ flat_map (drink_rows orderItem) ids;
     appetizer_item := appetizer_item t ++ flat_map (appetizer_rows orderItem) ids;
     menu := menu t;
     recipe_ingredient := recipe_ingredient t;
     ingredient := ingredient t;
     inventory := inventory t |}.

(** Rows of the ingredient query of an order item. *)
Definition ingredientList_of (orderItem : orderItem) (t : tables) : list (Z * Z) :=
  if type_is orderItem "Meal" then
    match oi_entrees orderItem with
    | Some entrees =>
        ingredient_join
          (fun n => sql_in n [entree entrees 0; entree entrees 1;
                              entree entrees 2; oi_side orderItem]) t
    | None => []
    end
  else ingredient_join (fun n => sql_eq n (oi_name orderItem)) t.

(** One [UPDATE inventory] on the inventory rows. *)
Definition decrement (amount inventory_id : Z) (rows : list inventory_row)
  : list inventory_row :=
  map (fun inv =>
         if inv_inventory_id inv =? inventory_id
         then {| inv_inventory_id := inv_inventory_id inv;
                 inv_quantity := inv_quantity inv - amount |}
         else inv)
      rows.

(** The updates of [for (const row of ingredientList.rows)], in order. *)
Definition with_decrements (ingredientList : list (Z * Z)) (quantity : Z)
  (t : tables) : tables :=
  fold_left (fun t row => set_inventory t
                            (decrement (snd row * quantity) (fst row) (inventory t)))
            ingredientList t.

(** Tables and sequences after one order item was processed. *)
Definition item_processed (receiptId : Z) (orderItem : orderItem)
  (t : tables) (sq : sequences) : tables * sequences :=
  let quantity := quantity_or_1 (oi_quantity orderItem) in
  let n := Z.to_nat quantity in
  let t1 := with_line_items receiptId orderItem
              (ids_from (line_item_id_seq sq) n) t in
  (with_decrements (ingredientList_of orderItem t1) quantity t1,
   {| receipt_id_seq := receipt_id_seq sq;
      line_item_id_seq := line_item_id_seq sq + Z.of_nat n |}).

(** Tables and sequences after the whole order list was processed. *)
Fixpoint order_processed (receiptId : Z) (orderList : list orderItem)
  (t : tables) (sq : sequences) : tables * sequences :=
  match orderList with
  | [] => (t, sq)
  | orderItem :: rest =>
      let '(t', sq') := item_processed receiptId orderItem t sq in
      order_processed receiptId rest t' sq'
  end.

(** Tables and sequences of a checkout that reached [COMMIT]. *)
Definition checked_out (orderList : list orderItem) (totalPrice : Z)
  (t : tables) (sq : sequences) : tables * sequences :=
  let '(receiptId, t1, sq1) := INSERT_receipt totalPrice t sq in
  order_processed receiptId orderList t1 sq1.

(** No call numbered in [a, b) is rejected. *)
Definition quiet (fault : oracle) (a b : nat) : Prop :=
  forall k, (a <= k < b)%nat -> fault k = None.

(** No call numbered [a] or later is rejected. *)
Definition quiet_from (fault : oracle) (a : nat) : Prop :=
  forall k, (a <= k)%nat -> fault k = None.

(** [run_in_txn fault m c t sq ok a t' sq']: started inside a transaction
    with working copy [t] over committed tables [c], the computation [m]
    either returns [a] with working copy [t'] (and then [ok] holds and no
    call was rejected), or throws; in both cases the committed tables are
    untouched and the transaction stays open.  A throw without any
    rejected call means [ok] fails. *)
Definition run_in_txn {A} (fault : oracle) (m : M A) (c t : tables)
  (sq : sequences) (ok : bool) (a : A) (t' : tables) (sq' : sequences) : Prop :=
  forall s, committed s = c -> txn s = Some t -> seqs s = sq ->
    match m s with
    | (Return x, s') =>
        x = a /\ committed s' = c /\ txn s' = Some t' /\ seqs s' = sq' /\
        ok = true /\ (clock s <= clock s')%nat /\
        quiet fault (clock s) (clock s')
    | (Throw _, s') =>
        committed s' = c /\ txn s' <> None /\ (clock s <= clock s')%nat /\
        (quiet_from fault (clock s) -> ok = false)
    end.

(** Units of one inventory item that one sale of the order item needs: the
    sum of [i.quantity] over the rows of the ingredient query for it. *)
Definition required (ingredientList : list (Z * Z)) (inventory_id : Z) : Z :=
  fold_right (fun row acc =>
                if fst row =? inventory_id then snd row + acc else acc)
             0 ingredientList.

(** The same order item with another [quantity] property. *)
Definition with_quantity (item : orderItem) (q : jsnum) : orderItem :=
  {| oi_type := oi_type item; oi_name := oi_name item;
     oi_size := oi_size item; oi_price := oi_price item;
     oi_quantity := q; oi_entrees := oi_entrees item;
     oi_side := oi_side item |}.


(** The types for which the [switch] has a case. *)
Definition recognized (orderItem : orderItem) : bool :=
  type_is orderItem "Meal" || type_is orderItem "drink" ||
  type_is orderItem "Drink" || type_is orderItem "appetizer".

(** Number of variant rows inserted together with one line item. *)
Definition inserted_variants (orderItem : orderItem) (id : Z) : nat :=
  (length (meal_rows orderItem id) + length (drink_rows orderItem id) +
   length (appetizer_rows orderItem id))%nat.

(** Number of rows of the three variant tables keyed by a line item id. *)
Definition variant_rows (t : tables) (id : Z) : nat :=
  (length (filter (fun mi => Z.eqb (mi_line_item_id mi) id) (meal_item t)) +
   length (filter (fun di => Z.eqb (di_line_item_id di) id) (drink_item t)) +
   length (filter (fun ai => Z.eqb (ai_line_item_id ai) id) (appetizer_item t)))%nat.

Definition has_meal_item (t : tables) (id : Z) : bool :=
  existsb (fun mi => mi_line_item_id mi =? id) (meal_item t).

Definition has_appetizer_item (t : tables) (id : Z) : bool :=
  existsb (fun ai => ai_line_item_id ai =? id) (appetizer_item t).

Definition has_drink_item (t : tables) (id : Z) : bool :=
  existsb (fun di => di_line_item_id di =? id) (drink_item t).

(** The element [item_details] pushes when no call is rejected. *)
Definition item_json (t : tables) (li : line_item_row) : line_item_json :=
  let line_item_id := li_line_item_id li in
  match filter (fun mi => mi_line_item_id mi =? line_item_id) (meal_item t) with
  | mi :: _ =>
      MealJson line_item_id (mi_size mi)
        (filter_Boolean [mi_meat1 mi; mi_meat2 mi; mi_meat3 mi])
        (mi_side mi) (li_price li)
  | [] =>
      match filter (fun ai => ai_line_item_id ai =? line_item_id)
                   (appetizer_item t) with
      | ai :: _ => AppetizerJson line_item_id (ai_name ai) (li_price li)
      | [] =>
          match filter (fun di => di_line_item_id di =? line_item_id)
                       (drink_item t) with
          | di :: _ =>
              DrinkJson line_item_id (di_name di) (di_size di) (li_price li)
          | [] => UnknownJson line_item_id (li_price li)
          end
      end
  end.

(** The line item ids of an order list, each with its order item: every
    order item takes as many consecutive ids as its quantity. *)
Fixpoint expand (orderList : list orderItem) (start : Z)
  : list (Z * orderItem) :=
  match orderList with
  | [] => []
  | orderItem :: rest =>
      let n := Z.to_nat (quantity_or_1 (oi_quantity orderItem)) in
      map (fun id => (id, orderItem)) (ids_from start n)
      ++ expand rest (start + Z.of_nat n)
  end.

(** What fetch-by-id shows for one line item of an order item. *)
Definition expected_json (orderItem : orderItem) (id : Z) : line_item_json :=
  if type_is orderItem "Meal" then
    MealJson id (oi_size orderItem)
      (filter_Boolean
         (firstn 3 (match oi_entrees orderItem with
                    | Some entrees => entrees
                    | None => []
                    end)))
      (oi_side orderItem) (oi_price orderItem)
  else if type_is orderItem "drink" || type_is orderItem "Drink" then
    DrinkJson id (oi_name orderItem) (Some "Regular"%string) (oi_price orderItem)
  else if type_is orderItem "appetizer" then
    AppetizerJson id (oi_name orderItem) (oi_price orderItem)
  else UnknownJson id (oi_price orderItem).

Definition expected_items (orderList : list orderItem) (start : Z)
  : list line_item_json :=
  map (fun p => expected_json (snd p) (fst p)) (expand orderList start).

(** Serial ids already in the tables are below the sequences, and a line
    item refers to an existing receipt. *)
Definition fresh (t : tables) (sq : sequences) : bool :=
  forallb (fun r => r_receipt_id r <? receipt_id_seq sq) (receipt t) &&
  forallb (fun li => li_receipt_id li <? receipt_id_seq sq) (line_item t) &&
  forallb (fun mi => mi_line_item_id mi <? line_item_id_seq sq) (meal_item t) &&
  forallb (fun di => di_line_item_id di <? line_item_id_seq sq) (drink_item t) &&
  forallb (fun ai => ai_line_item_id ai <? line_item_id_seq sq)
          (appetizer_item t).

(** ** [router.delete("/receipts/:receipt_id")] and
       [router.put("/receipts/:receipt_id")]

    [line_item_id = ANY($1::int[])] *)
Definition ANY (id : Z) (ids : list Z) : bool := existsb (Z.eqb id) ids.

(** [DELETE FROM meal_item WHERE line_item_id = ANY($1::int[])] *)
Definition DELETE_meal_item_ANY (ids : list Z) : statement unit :=
  fun t sq =>
    (tt,
     set_meal_item t
       (filter (fun mi => negb (ANY (mi_line_item_id mi) ids)) (meal_item t)),
     sq).

(** [DELETE FROM drink_item WHERE line_item_id = ANY($1::int[])] *)
Definition DELETE_drink_item_ANY (ids : list Z) : statement unit :=
  fun t sq =>
    (tt,
     set_drink_item t
       (filter (fun di => negb (ANY (di_line_item_id di) ids)) (drink_item t)),
     sq).

(** [DELETE FROM appetizer_item WHERE line_item_id = ANY($1::int[])] *)
Definition DELETE_appetizer_item_ANY (ids : list Z) : statement unit :=
  fun t sq =>
    (tt,
     set_appetizer_item t
       (filter (fun ai => negb (ANY (ai_line_item_id ai) ids))
               (appetizer_item t)),
     sq).

(** [DELETE FROM line_item WHERE receipt_id = $1] *)
Definition DELETE_line_item (receipt_id : Z) : statement unit :=
  fun t sq =>
    (tt,
     set_line_item t
       (filter (fun li => negb (li_receipt_id li =? receipt_id)) (line_item t)),
     sq).

(** [DELETE FROM receipt WHERE receipt_id = $1] *)
Definition DELETE_receipt (receipt_id : Z) : statement unit :=
  fun t sq =>
    (tt,
     set_receipt t
       (filter (fun r => negb (r_receipt_id r =? receipt_id)) (receipt t)),
     sq).

(** [UPDATE receipt SET status = $1 WHERE receipt_id = $2]: it writes the
    status column only, which the tables leave out. *)
Definition UPDATE_receipt_status (status : option string) (receipt_id : Z)
  : statement unit :=
  fun t sq => (tt, t, sq).

(** The statements of the delete route between [BEGIN] and [COMMIT]. *)
Definition delete_receipt_statements (fault : oracle) (receipt_id : Z) : M unit :=
  lineItemIdsResult <- pool_query fault (SELECT_line_items receipt_id);;
  let lineItemIds := map li_line_item_id lineItemIdsResult in
  match lineItemIds with
  | [] => ret tt
  | _ :: _ =>
      pool_query fault (DELETE_meal_item_ANY lineItemIds) ;;;
      pool_query fault (DELETE_drink_item_ANY lineItemIds) ;;;
      pool_query fault (DELETE_appetizer_item_ANY lineItemIds)
  end ;;;
  pool_query fault (DELETE_line_item receipt_id) ;;;
  pool_query fault (DELETE_receipt receipt_id).

(** The delete handler: the body of a 200 answer is its message. *)
Definition delete_receipt (fault : oracle) (receipt_id : Z) (s : server)
  : response string * server :=
  match (pool_query_tx fault BEGIN ;;;
         delete_receipt_statements fault receipt_id ;;;
         pool_query_tx fault COMMIT) s with
  | (Return _, s') => (Json "Receipt deleted successfully!"%string, s')
  | (Throw message, s') =>
      match pool_query_tx fault ROLLBACK s' with
      | (Return _, s'') => (ErrorJson 500 message, s'')
      | (Throw message', s'') => (Unhandled message', s'')
      end
  end.

(** One element of [req.body.line_items] of the update route; [in_meats]
    is [None] when the property is absent or [null] and otherwise lists
    what [meats[0]], [meats[1]], ... give, as [oi_entrees] does. *)
Record line_item_input : Type := {
  in_type : option string;
  in_name : option string;
  in_size : option string;
  in_price : Z;
  in_meats : option (list (option string));
  in_side : option string
}.

(** [item.size || 'Regular'] *)
Definition size_or_Regular (size : option string) : option string :=
  match or_null size with
  | Some s => Some s
  | None => Some "Regular"%string
  end.

(** [switch (item.type) { ... }] of the update route. *)
Definition put_insert_specific (fault : oracle) (line_item_id : Z)
  (item : line_item_input) : M unit :=
  match in_type item with
  | Some type =>
      if String.eqb type "Meal" then
        match in_meats item with
        | None => throw TypeError (* [meats] absent or [null] *)
        | Some meats =>
            pool_query fault (INSERT_meal_item
              {| mi_line_item_id := line_item_id;
                 mi_size := in_size item;
                 mi_price := in_price item;
                 mi_meat1 := entree meats 0;
                 mi_meat2 := entree meats 1;
                 mi_meat3 := entree meats 2;
                 mi_side := in_side item |})
        end
      else if String.eqb type "Drink" then
        pool_query fault (INSERT_drink_item
          {| di_line_item_id := line_item_id;
             di_name := in_name item;
             di_price := in_price item;
             di_size := size_or_Regular (in_size item) |})
      else if String.eqb type "Appetizer" then
        pool_query fault (INSERT_appetizer_item
          {| ai_line_item_id := line_item_id;
             ai_name := in_name item;
             ai_price := in_price item |})
      else ret tt
  | None => ret tt
  end.

(** The branch [if (Array.isArray(line_items)) { ... }]. *)
Definition put_replace_line_items (fault : oracle) (receipt_id : Z)
  (line_items : list line_item_input) : M unit :=
  lineItemIdsResult <- pool_query fault (SELECT_line_items receipt_id);;
  let lineItemIds := map li_line_item_id lineItemIdsResult in
  pool_query fault (DELETE_meal_item_ANY lineItemIds) ;;;
  pool_query fault (DELETE_drink_item_ANY lineItemIds) ;;;
  pool_query fault (DELETE_appetizer_item_ANY lineItemIds) ;;;
  pool_query fault (DELETE_line_item receipt_id) ;;;
  for_of line_items (fun item =>
    line_item_id <- pool_query fault
                      (INSERT_line_item receipt_id (in_price item));;
    put_insert_specific fault line_item_id item).

(** The statements of the update route between [BEGIN] and [COMMIT];
    [line_items] is [None] when the property is not an array. *)
Definition put_receipt_statements (fault : oracle) (receipt_id : Z)
  (status : option string) (line_items : option (list line_item_input))
  : M unit :=
  pool_query fault (UPDATE_receipt_status status receipt_id) ;;;
  match line_items with
  | Some items => put_replace_line_items fault receipt_id items
  | None => ret tt
  end.

(** The update handler. *)
Definition put_receipt (fault : oracle) (receipt_id : Z)
  (status : option string) (line_items : option (list line_item_input))
  (s : server) : response string * server :=
  match (pool_query_tx fault BEGIN ;;;
         put_receipt_statements fault receipt_id status line_items ;;;
         pool_query_tx fault COMMIT) s with
  | (Return _, s') => (Json "Receipt updated successfully!"%string, s')
  | (Throw message, s') =>
      match pool_query_tx fault ROLLBACK s' with
      | (Return _, s'') => (ErrorJson 500 message, s'')
      | (Throw message', s'') => (Unhandled message', s'')
      end
  end.

(** The tables without a receipt, its line items and their variant rows. *)
Definition receipt_deleted (receipt_id : Z) (t : tables) : tables :=
  let ids := map li_line_item_id
               (filter (fun li => li_receipt_id li =? receipt_id) (line_item t)) in
  {| receipt := filter (fun r => negb (r_receipt_id r =? receipt_id)) (receipt t);
     line_item :=
       filter (fun li => negb (li_receipt_id li =? receipt_id)) (line_item t);
     meal_item :=
       filter (fun mi => negb (ANY (mi_line_item_id mi) ids)) (meal_item t);
     drink_item :=
       filter (fun di => negb (ANY (di_line_item_id di) ids)) (drink_item t);
     appetizer_item :=
       filter (fun ai => negb (ANY (ai_line_item_id ai) ids)) (appetizer_item t);
     menu := menu t;
     recipe_ingredient := recipe_ingredient t;
     ingredient := ingredient t;
     inventory := inventory t |}.

(** An input item can be inserted unless it is a meal whose [meats] is
    absent or [null]. *)
Definition input_well_formed (item : line_item_input) : bool :=
  match in_type item with
  | Some type =>
      if String.eqb type "Meal" then
        match in_meats item with
        | Some _ => true
        | None => false
        end
      else true
  | None => true
  end.

Definition input_line_item (receipt_id : Z) (item : line_item_input) (id : Z)
  : line_item_row :=
  {| li_line_item_id := id; li_receipt_id := receipt_id;
     li_price := in_price item |}.

Definition input_meal_rows (item : line_item_input) (id : Z)
  : list meal_item_row :=
  match in_type item, in_meats item with
  | Some type, Some meats =>
      if String.eqb type "Meal" then
        [{| mi_line_item_id := id;
            mi_size := in_size item;
            mi_price := in_price item;
            mi_meat1 := entree meats 0;
            mi_meat2 := entree meats 1;
            mi_meat3 := entree meats 2;
            mi_side := in_side item |}]
      else []
  | _, _ => []
  end.

Definition input_drink_rows (item : line_item_input) (id : Z)
  : list drink_item_row :=
  match in_type item with
  | Some type =>
      if String.eqb type "Meal" then []
      else if String.eqb type "Drink" then
        [{| di_line_item_id := id;
            di_name := in_name item;
            di_price := in_price item;
            di_size := size_or_Regular (in_size item) |}]
      else []
  | None => []
  end.

Definition input_appetizer_rows (item : line_item_input) (id : Z)
  : list appetizer_item_row :=
  match in_type item with
  | Some type =>
      if String.eqb type "Meal" then []
      else if String.eqb type "Drink" then []
      else if String.eqb type "Appetizer" then
        [{| ai_line_item_id := id;
            ai_name := in_name item;
            ai_price := in_price item |}]
      else []
  | None => []
  end.

(** The input items with the line item ids they get, in order. *)
Definition numbered {X} (items : list X) (start : Z) : list (Z * X) :=
  combine (ids_from start (length items)) items.

(** The tables after the input items were inserted for a receipt. *)
Definition with_inputs (receipt_id : Z) (items : list (Z * line_item_input))
  (t : tables) : tables :=
  {| receipt := receipt t;
     line_item := line_item t ++
       map (fun p => input_line_item receipt_id (snd p) (fst p)) items;
     meal_item := meal_item t ++
       flat_map (fun p => input_meal_rows (snd p) (fst p)) items;
     drink_item := drink_item t ++
       flat_map (fun p => input_drink_rows (snd p) (fst p)) items;
     appetizer_item := appetizer_item t ++
       flat_map (fun p => input_appetizer_rows (snd p) (fst p)) items;
     menu := menu t;
     recipe_ingredient := recipe_ingredient t;
     ingredient := ingredient t;
     inventory := inventory t |}.

(** The tables after the update route replaced the line items of a
    receipt: only the receipt row itself stays. *)
Definition line_items_replaced (receipt_id : Z) (items : list line_item_input)
  (t : tables) (sq : sequences) : tables :=
  let t1 := receipt_deleted receipt_id t in
  with_inputs receipt_id (numbered items (line_item_id_seq sq))
    (set_receipt t1 (receipt t)).

(** What fetch-by-id shows for an input item of the update route. *)
Definition expected_input_json (item : line_item_input) (id : Z)
  : line_item_json :=
  match in_type item with
  | Some type =>
      if String.eqb type "Meal" then
        MealJson id (in_size item)
          (filter_Boolean
             (firstn 3 (match in_meats item with
                        | Some meats => meats
                        | None => []
                        end)))
          (in_side item) (in_price item)
      else if String.eqb type "Drink" then
        DrinkJson id (in_name item) (size_or_Regular (in_size item))
          (in_price item)
      else if String.eqb type "Appetizer" then
        AppetizerJson id (in_name item) (in_price item)
      else UnknownJson id (in_price item)
  | None => UnknownJson id (in_price item)
  end.

(** A fetched line item as the object a client sends back to the update
    route. *)
Definition json_input (j : line_item_json) : line_item_input :=
  match j with
  | MealJson _ size meats side price =>
      {| in_type := Some "Meal"%string; in_name := None; in_size := size;
         in_price := price; in_meats := Some (map Some meats);
         in_side := side |}
  | AppetizerJson _ name price =>
      {| in_type := Some "Appetizer"%string; in_name := name; in_size := None;
         in_price := price; in_meats := None; in_side := None |}
  | DrinkJson _ name size price =>
      {| in_type := Some "Drink"%string; in_name := name; in_size := size;
         in_price := price; in_meats := None; in_side := None |}
  | UnknownJson _ price =>
      {| in_type := Some "Unknown"%string; in_name := None; in_size := None;
         in_price := price; in_meats := None; in_side := None |}
  end.

(** A fetched line item under another id, a missing drink size read as
    "Regular". *)
Definition renumbered (j : line_item_json) (id : Z) : line_item_json :=
  match j with
  | MealJson _ size meats side price => MealJson id size meats side price
  | AppetizerJson _ name price => AppetizerJson id name price
  | DrinkJson _ name size price => DrinkJson id name (size_or_Regular size) price
  | UnknownJson _ price => UnknownJson id price
  end.

(** Two sessions with the same database: the same committed tables, open
    transaction and sequences; only the clock may differ. *)
Definition same_database (s s' : server) : Prop :=
  committed s' = committed s /\ txn s' = txn s /\ seqs s' = seqs s.

(** Units of one inventory item that a whole order list needs: for every
    order item, what one sale needs times its quantity. *)
Definition order_required (orderList : list orderItem) (t : tables)
  (inventory_id : Z) : Z :=
  fold_right (fun orderItem acc =>
                required (ingredientList_of orderItem t) inventory_id
                * quantity_or_1 (oi_quantity orderItem) + acc)
             0 orderList.

(** Sequences only move forward. *)
Definition seqs_le (sq sq' : sequences) : Prop :=
  receipt_id_seq sq <= receipt_id_seq sq' /\
  line_item_id_seq sq <= line_item_id_seq sq'.

(** ** The shopping cart of the kiosk ([ShoppingCartContext] and the
       checkout of [ShoppingCartPage])

    A cart line.  [ci_price] is [None] when [Number(item.price)] is NaN; an
    entree or side slot is [None] when it is [null] or [undefined]; the
    lists are [None] when the property is absent. *)
Record cartItem : Type := {
  ci_id : Z;
  ci_name : option string;
  ci_price : option Z;
  ci_type : option string;
  ci_entrees : option (list (option string));
  ci_sides : option (list (option string));
  ci_quantity : jsnum
}.

(** The second argument of [addItemToCart]; a field is [None] when the
    object has no such key. *)
Record details : Type := {
  d_entrees : option (list (option string));
  d_sides : option (list (option string))
}.

(** The state of the provider: [cartItems] and [nextId]. *)
Definition cart : Type := (list cartItem * Z)%type.

Definition initial_cart : cart := ([], 1).

Definition name_eq_dec (a b : option string) : {a = b} + {a <> b}.
Proof. decide equality. apply string_dec. Defined.

(** [JSON.stringify(a) === JSON.stringify(b)] on arrays of names. *)
Definition stringify_eq_dec (a b : option (list (option string)))
  : {a = b} + {a <> b}.
Proof. decide equality. apply list_eq_dec. apply name_eq_dec. Defined.

(** The predicate of [cartItems.findIndex(...)]. *)
Definition same_product (item cartItem : cartItem) : bool :=
  (if name_eq_dec (ci_name cartItem) (ci_name item) then true else false) &&
  (if stringify_eq_dec (ci_entrees cartItem) (ci_entrees item)
   then true else false) &&
  (if stringify_eq_dec (ci_sides cartItem) (ci_sides item) then true else false).

(** [array.findIndex(p)]; [None] stands for -1. *)
Fixpoint findIndex {A} (p : A -> bool) (l : list A) : option nat :=
  match l with
  | [] => None
  | x :: l' =>
      if p x then Some O
      else match findIndex p l' with
           | Some i => Some (S i)
           | None => None
           end
  end.

(** A copy of the array with [f] applied at one index. *)
Fixpoint update_at {A} (i : nat) (f : A -> A) (l : list A) : list A :=
  match l, i with
  | [], _ => []
  | x :: l', O => f x :: l'
  | x :: l', S i' => x :: update_at i' f l'
  end.

Definition set_quantity (item : cartItem) (q : Z) : cartItem :=
  {| ci_id := ci_id item; ci_name := ci_name item; ci_price := ci_price item;
     ci_type := ci_type item; ci_entrees := ci_entrees item;
     ci_sides := ci_sides item; ci_quantity := JNumber q |}.

(** [{ ...item, id: nextId, ...details, quantity: 1 }] *)
Definition new_cart_item (item : cartItem) (nextId : Z) (d : details)
  : cartItem :=
  {| ci_id := nextId; ci_name := ci_name item; ci_price := ci_price item;
     ci_type := ci_type item;
     ci_entrees := match d_entrees d with
                   | Some e => Some e
                   | None => ci_entrees item
                   end;
     ci_sides := match d_sides d with
                 | Some e => Some e
                 | None => ci_sides item
                 end;
     ci_quantity := JNumber 1 |}.

Definition addItemToCart (item : cartItem) (d : details) (c : cart) : cart :=
  let '(cartItems, nextId) := c in
  match findIndex (same_product item) cartItems with
  | Some existingItemIndex =>
      (update_at existingItemIndex
         (fun old => set_quantity old (quantity_or_1 (ci_quantity old) + 1))
         cartItems,
       nextId)
  | None => (cartItems ++ [new_cart_item item nextId d], nextId + 1)
  end.

Definition removeItemFromCart (itemId : Z) (c : cart) : cart :=
  let '(cartItems, nextId) := c in
  (filter (fun item => negb (ci_id item =? itemId)) cartItems, nextId).

(** [array.filter(Boolean)] on lines that may have become [null]. *)
Fixpoint filter_lines (l : list (option cartItem)) : list cartItem :=
  match l with
  | [] => []
  | Some item :: l' => item :: filter_lines l'
  | None :: l' => filter_lines l'
  end.

Definition updateItemQuantity (itemId quantityChange : Z) (c : cart) : cart :=
  let '(cartItems, nextId) := c in
  (filter_lines
     (map (fun item =>
             if ci_id item =? itemId then
               let newQuantity :=
                 quantity_or_1 (ci_quantity item) + quantityChange in
               if 0 <? newQuantity
               then Some (set_quantity item newQuantity)
               else None
             else Some item)
          cartItems),
   nextId).

Definition clearCart (c : cart) : cart := ([], 1).

(** One element of [checkoutDetails] in [handleCheckout]: the order item
    the cart page sends for a cart line. *)
Definition checkoutDetail (item : cartItem) : orderItem :=
  {| oi_type := ci_type item;
     oi_name := ci_name item;
     oi_size := None;
     oi_price := match ci_price item with Some p => p | None => 0 end;
     oi_quantity := JNumber (quantity_or_1 (ci_quantity item));
     oi_entrees :=
       Some (match ci_entrees item with
             | Some entrees =>
                 filter (fun entree =>
                           if name_eq_dec entree (Some "N/A"%string)
                           then false else true)
                        entrees
             | None => []
             end);
     oi_side :=
       match ci_sides item with
       | Some (side :: _) => side
       | Some [] | None => Some "White Rice"%string
       end |}.

(** The cart lines have distinct ids below [nextId] and quantities that
    are numbers from 1 on. *)
Definition cart_ok (c : cart) : Prop :=
  NoDup (map ci_id (fst c)) /\
  forall item, In item (fst c) ->
    ci_id item < snd c /\
    exists n, ci_quantity item = JNumber n /\ 1 <= n.

(** What [findIndex] compares: name, entrees and sides. *)
Definition product (item : cartItem)
  : option string * option (list (option string))
    * option (list (option string)) :=
  (ci_name item, ci_entrees item, ci_sides item).

(** No two cart lines are the same product. *)
Definition distinct_products (cartItems : list cartItem) : Prop :=
  NoDup (map product cartItems).

Definition no_details : details := {| d_entrees := None; d_sides := None |}.

(** The units in the cart. *)
Definition units (cartItems : list cartItem) : Z :=
  fold_right (fun item acc => quantity_or_1 (ci_quantity item) + acc) 0 cartItems.

Definition demo_cart_meal : cartItem :=
  {| ci_id := 0; ci_name := Some "Plate"%string; ci_price := Some 849;
     ci_type := Some "Meal"%string;
     ci_entrees := Some [Some "Orange Chicken"%string; Some "N/A"%string; None];
     ci_sides := Some [Some "Fried Rice"%string];
     ci_quantity := JUndefined |}.

Definition demo_cart_drink : cartItem :=
  {| ci_id := 0; ci_name := Some "Medium Drink"%string; ci_price := Some 199;
     ci_type := Some "Drink"%string; ci_entrees := None; ci_sides := None;
     ci_quantity := JUndefined |}.

(** ** [runQuery] and the menu routes *)

(** The object [runQuery] resolves to: [{ success: true, rows, rowCount }]
    or [{ success: false, error }]. *)
Inductive query_result (A : Type) : Type :=
| Success (rows : A)
| Failure (error : string).
Arguments Success {A} rows.
Arguments Failure {A} error.

(** [runQuery(queryText, queryParams)]: it catches what [pool.query]
    throws. *)
Definition runQuery {A} (fault : oracle) (q : statement A) (s : server)
  : query_result A * server :=
  match pool_query fault q s with
  | (Return rows, s') => (Success rows, s')
  | (Throw message, s') => (Failure message, s')
  end.

Definition set_menu (t : tables) (v : list menu_row) : tables :=
  {| receipt := receipt t; line_item := line_item t; meal_item := meal_item t;
     drink_item := drink_item t; appetizer_item := appetizer_item t;
     menu := v; recipe_ingredient := recipe_ingredient t;
     ingredient := ingredient t; inventory := inventory t |}.

Definition set_recipe_ingredient (t : tables) (v : list recipe_ingredient_row)
  : tables :=
  {| receipt := receipt t; line_item := line_item t; meal_item := meal_item t;
     drink_item := drink_item t; appetizer_item := appetizer_item t;
     menu := menu t; recipe_ingredient := v;
     ingredient := ingredient t; inventory := inventory t |}.

(** [SELECT MAX(menu_id) FROM menu]: the [max] of the single result row,
    NULL on an empty table. *)
Definition SELECT_MAX_menu_id : statement (option Z) :=
  fun t sq =>
    (match menu t with
     | [] => None
     | m :: rest => Some (fold_left Z.max (map m_menu_id rest) (m_menu_id m))
     end, t, sq).

(** [INSERT INTO menu (menu_id, name, item_type, price, calories)
     VALUES ($1, $2, $3, $4, $5)], on the columns the tables keep. *)
Definition INSERT_menu (menu_id : Z) (name : option string) : statement unit :=
  fun t sq =>
    (tt, set_menu t (menu t ++ [{| m_menu_id := menu_id; m_name := name |}]), sq).

(** [UPDATE menu SET name = $1, item_type = $2, price = $3, calories = $4
     WHERE menu_id = $5].  PostgreSQL writes the new version of an updated
    row behind the rows of the table, so that a SELECT without ORDER BY
    gives the updated rows last; SQL leaves that order open, and nothing
    stated of this route depends on the place of a row. *)
Definition UPDATE_menu (name : option string) (menu_id : Z) : statement unit :=
  fun t sq =>
    (tt,
     set_menu t
       (filter (fun m => negb (m_menu_id m =? menu_id)) (menu t)
        ++ map (fun m => {| m_menu_id := m_menu_id m; m_name := name |})
               (filter (fun m => m_menu_id m =? menu_id) (menu t))),
     sq).

(** [DELETE FROM recipe_ingredient WHERE recipe_id = $1] *)
Definition DELETE_recipe_ingredient (recipe_id : Z) : statement unit :=
  fun t sq =>
    (tt,
     set_recipe_ingredient t
       (filter (fun ri => negb (ri_recipe_id ri =? recipe_id))
               (recipe_ingredient t)),
     sq).

(** [DELETE FROM menu WHERE menu_id = $1] *)
Definition DELETE_menu (menu_id : Z) : statement unit :=
  fun t sq =>
    (tt,
     set_menu t (filter (fun m => negb (m_menu_id m =? menu_id)) (menu t)),
     sq).

(** [router.post("/addItem")].  [null + 1] is 1; when the first query
    fails its result has no [rows] and the handler's promise rejects. *)
Definition addItem (fault : oracle) (name : option string) (s : server)
  : response string * server :=
  match runQuery fault SELECT_MAX_menu_id s with
  | (Failure _, s1) => (Unhandled TypeError, s1)
  | (Success max, s1) =>
      let menu_id := match max with Some m => m + 1 | None => 1 end in
      match runQuery fault (INSERT_menu menu_id name) s1 with
      | (Success _, s2) => (Json "Menu item added successfully!"%string, s2)
      | (Failure _, s2) => (ErrorJson 500 "Failed to add menu item", s2)
      end
  end.

(** [router.post("/editItem")] *)
Definition editItem (fault : oracle) (menu_id : Z) (name : option string)
  (s : server) : response string * server :=
  match runQuery fault (UPDATE_menu name menu_id) s with
  | (Success _, s1) => (Json "Menu item updated successfully!"%string, s1)
  | (Failure _, s1) => (ErrorJson 500 "Failed to update menu item", s1)
  end.

(** [router.post("/removeItem")]: both deletes run, whatever the first
    one gave. *)
Definition removeItem (fault : oracle) (menu_id : Z) (s : server)
  : response string * server :=
  let '(recipeResult, s1) :=
    runQuery fault (DELETE_recipe_ingredient menu_id) s in
  let '(menuResult, s2) := runQuery fault (DELETE_menu menu_id) s1 in
  match recipeResult, menuResult with
  | Success _, Success _ =>
      (Json "Menu item and associated recipe ingredients removed successfully!"%string,
       s2)
  | _, _ =>
      (ErrorJson 500
         "Failed to remove menu item or associated recipe ingredients.", s2)
  end.

(** The condition an order item puts on [m.name] when its ingredients are
    selected. *)
Definition where_name (orderItem : orderItem) (n : option string) : bool :=
  if type_is orderItem "Meal" then
    match oi_entrees orderItem with
    | Some entrees =>
        sql_in n [entree entrees 0; entree entrees 1; entree entrees 2;
                  oi_side orderItem]
    | None => false
    end
  else sql_eq n (oi_name orderItem).

(** A menu row with its name replaced. *)
Definition renamed (name : option string) (menu_id : Z) (m : menu_row)
  : menu_row :=
  if m_menu_id m =? menu_id
  then {| m_menu_id := m_menu_id m; m_name := name |}
  else m.

(** An oracle that rejects the second call only. *)
Definition second_call_rejected : oracle :=
  fun k => if Nat.eqb k 1 then Some "connection terminated"%string else None.




(** ** Recipe quantities, read off the recipe tables *)





(** The keys drawn from the sequences are in order: [fresh], every line
    item id below the line item sequence, and no two receipts and no two
    line items with the same id. *)
Definition keys_ok (t : tables) (sq : sequences) : Prop :=
  fresh t sq = true /\
  forallb (fun li => li_line_item_id li <? line_item_id_seq sq) (line_item t)
  = true /\
  NoDup (map r_receipt_id (receipt t)) /\
  NoDup (map li_line_item_id (line_item t)).

(** * Properties *)

Section RunInTxn.

Variable fault : oracle.

Lemma run_ret {A} (a : A) c t sq :
  run_in_txn fault (ret a) c t sq true a t sq.
Proof.
  intros s Hc Ht Hs. cbn. repeat split; auto.
  intros k Hk. lia.
Qed.

Lemma run_throw {A} (a : A) message c t sq :
  run_in_txn fault (throw message) c t sq false a t sq.
Proof.
  intros s Hc Ht Hs. cbn. repeat split; auto. congruence.
Qed.

Lemma run_pool_query {A} (q : statement A) c t sq :
  run_in_txn fault (pool_query fault q) c t sq true
    (fst (fst (q t sq))) (snd (fst (q t sq))) (snd (q t sq)).
Proof.
  intros s Hc Ht Hs. unfold pool_query, view.
  destruct (fault (clock s)) as [message|] eqn:Hf.
  - cbn. rewrite Ht. repeat split; auto; try congruence.
    intros Hq. rewrite (Hq (clock s)) in Hf by lia. discriminate.
  - rewrite Ht, Hs. destruct (q t sq) as [[a t'] sq'] eqn:Hq. cbn.
    repeat split; auto.
    intros k Hk. assert (k = clock s) by lia. subst k. exact Hf.
Qed.

Lemma run_bind {A B} (m : M A) (f : A -> M B) c t sq ok1 a1 t1 sq1 ok2 b t2 sq2 :
  run_in_txn fault m c t sq ok1 a1 t1 sq1 ->
  run_in_txn fault (f a1) c t1 sq1 ok2 b t2 sq2 ->
  run_in_txn fault (bind m f) c t sq (ok1 && ok2) b t2 sq2.
Proof.
  intros Hm Hf s Hc Ht Hs. unfold bind.
  specialize (Hm s Hc Ht Hs).
  destruct (m s) as [[x|e] s1].
  - destruct Hm as (-> & Hc1 & Ht1 & Hs1 & -> & Hle & Hq).
    specialize (Hf s1 Hc1 Ht1 Hs1).
    destruct (f a1 s1) as [[y|e] s2].
    + destruct Hf as (-> & Hc2 & Ht2 & Hs2 & -> & Hle2 & Hq2).
      repeat split; auto; try lia.
      intros k Hk. destruct (Nat.lt_ge_cases k (clock s1)).
      * apply Hq. lia.
      * apply Hq2. lia.
    + destruct Hf as (Hc2 & Ht2 & Hle2 & Hok).
      repeat split; auto; try lia.
      intros Hfrom. cbn. apply Hok. intros k Hk. apply Hfrom. lia.
  - destruct Hm as (Hc1 & Ht1 & Hle & Hok).
    repeat split; auto.
    intros Hfrom. rewrite (Hok Hfrom). reflexivity.
Qed.

(** The description of the result only matters when the run can return. *)
Lemma run_equal {A} (m : M A) c t sq ok a t' sq' ok2 a2 t2 sq2 :
  run_in_txn fault m c t sq ok a t' sq' ->
  ok = ok2 ->
  (ok = true -> a = a2 /\ t' = t2 /\ sq' = sq2) ->
  run_in_txn fault m c t sq ok2 a2 t2 sq2.
Proof.
  intros Hm <- Heq s Hc Ht Hs. specialize (Hm s Hc Ht Hs).
  destruct (m s) as [[x|e] s1]; auto.
  destruct Hm as (-> & Hc1 & Ht1 & Hs1 & Hok & Hle & Hq).
  destruct (Heq Hok) as (<- & <- & <-). repeat split; auto.
Qed.

End RunInTxn.

Section CheckoutRuns.

Variable fault : oracle.

Lemma ids_from_length start n : length (ids_from start n) = n.
Proof.
  revert start. induction n as [|n IH]; intros start; cbn; auto.
Qed.

Lemma ids_from_In start n id :
  In id (ids_from start n) <-> start <= id < start + Z.of_nat n.
Proof.
  revert start. induction n as [|n IH]; intros start; cbn [ids_from In].
  - split; [tauto | lia].
  - rewrite IH. lia.
Qed.

Lemma with_line_items_nil receiptId orderItem t :
  with_line_items receiptId orderItem [] t = t.
Proof.
  destruct t. unfold with_line_items. cbn. rewrite !app_nil_r. reflexivity.
Qed.

Lemma with_line_items_cons receiptId orderItem id ids t :
  with_line_items receiptId orderItem ids
    (with_line_items receiptId orderItem [id] t)
  = with_line_items receiptId orderItem (id :: ids) t.
Proof.
  destruct t. unfold with_line_items. cbn.
  rewrite !app_nil_r, <- !app_assoc. reflexivity.
Qed.

Lemma run_insert_specific lineItemId orderItem c t sq :
  run_in_txn fault (insert_specific fault lineItemId orderItem) c t sq
    (well_formed orderItem) tt
    {| receipt := receipt t;
       line_item := line_item t;
       meal_item := meal_item t ++ meal_rows orderItem lineItemId;
       drink_item := drink_item t ++ drink_rows orderItem lineItemId;
       appetizer_item := appetizer_item t ++ appetizer_rows orderItem lineItemId;
       menu := menu t;
       recipe_ingredient := recipe_ingredient t;
       ingredient := ingredient t;
       inventory := inventory t |}
    sq.
Proof.
  unfold insert_specific, well_formed, meal_rows, drink_rows, appetizer_rows.
  destruct (type_is orderItem "Meal").
  - destruct (oi_entrees orderItem) as [entrees|].
    + eapply run_equal; [apply run_pool_query | reflexivity |].
      intros _. destruct t. cbn. rewrite !app_nil_r. auto.
    + eapply run_equal; [apply run_throw with (a := tt) | reflexivity |].
      discriminate.
  - destruct (type_is orderItem "drink" || type_is orderItem "Drink").
    + eapply run_equal; [apply run_pool_query | reflexivity |].
      intros _. destruct t. cbn. rewrite !app_nil_r. auto.
    + destruct (type_is orderItem "appetizer").
      * eapply run_equal; [apply run_pool_query | reflexivity |].
        intros _. destruct t. cbn. rewrite !app_nil_r. auto.
      * eapply run_equal; [apply run_ret | reflexivity |].
        intros _. destruct t. cbn. rewrite !app_nil_r. auto.
Qed.

Lemma run_line_item_iteration receiptId orderItem c t sq :
  run_in_txn fault
    (lineItemId <- pool_query fault
                     (INSERT_line_item receiptId (oi_price orderItem));;
     insert_specific fault lineItemId orderItem)
    c t sq (well_formed orderItem) tt
    (with_line_items receiptId orderItem [line_item_id_seq sq] t)
    {| receipt_id_seq := receipt_id_seq sq;
       line_item_id_seq := line_item_id_seq sq + 1 |}.
Proof.
  eapply run_equal.
  - eapply run_bind; [apply run_pool_query | apply run_insert_specific].
  - reflexivity.
  - intros _. destruct t. unfold with_line_items. cbn.
    rewrite !app_nil_r. auto.
Qed.

Lemma run_for_q n receiptId orderItem c t sq :
  run_in_txn fault
    (for_q n
       (lineItemId <- pool_query fault
                        (INSERT_line_item receiptId (oi_price orderItem));;
        insert_specific fault lineItemId orderItem))
    c t sq
    (match n with O => true | S _ => well_formed orderItem end) tt
    (with_line_items receiptId orderItem (ids_from (line_item_id_seq sq) n) t)
    {| receipt_id_seq := receipt_id_seq sq;
       line_item_id_seq := line_item_id_seq sq + Z.of_nat n |}.
Proof.
  revert t sq. induction n as [|n IH]; intros t sq.
  - cbn [for_q ids_from]. eapply run_equal; [apply run_ret | reflexivity |].
    intros _. rewrite with_line_items_nil. destruct sq; cbn.
    rewrite Z.add_0_r. auto.
  - cbn [for_q ids_from]. eapply run_equal.
    + eapply run_bind; [apply run_line_item_iteration | apply IH].
    + destruct n, (well_formed orderItem); reflexivity.
    + intros _. rewrite with_line_items_cons. cbn [receipt_id_seq line_item_id_seq].
      repeat split. f_equal. lia.
Qed.

Lemma run_select_ingredientList orderItem c t sq :
  run_in_txn fault (select_ingredientList fault orderItem) c t sq
    (well_formed orderItem) (ingredientList_of orderItem t) t sq.
Proof.
  unfold select_ingredientList, well_formed, ingredientList_of.
  destruct (type_is orderItem "Meal").
  - destruct (oi_entrees orderItem) as [entrees|].
    + apply run_pool_query.
    + apply run_throw.
  - apply run_pool_query.
Qed.

Lemma run_updates ingredientList quantity c t sq :
  run_in_txn fault
    (for_of ingredientList (fun row =>
       let totalQuantityNeeded := snd row * quantity in
       pool_query fault (UPDATE_inventory totalQuantityNeeded (fst row))))
    c t sq true tt (with_decrements ingredientList quantity t) sq.
Proof.
  revert t. induction ingredientList as [|row rows IH]; intros t.
  - cbn. apply run_ret.
  - cbn [for_of]. eapply run_equal.
    + eapply run_bind; [apply run_pool_query | apply IH].
    + reflexivity.
    + intros _. cbn. auto.
Qed.

Lemma run_process_orderItem receiptId orderItem c t sq :
  run_in_txn fault (process_orderItem fault receiptId orderItem) c t sq
    (well_formed orderItem) tt
    (fst (item_processed receiptId orderItem t sq))
    (snd (item_processed receiptId orderItem t sq)).
Proof.
  unfold process_orderItem, item_processed. eapply run_equal.
  - eapply run_bind; [apply run_for_q |].
    eapply run_bind; [apply run_select_ingredientList | apply run_updates].
  - destruct (Z.to_nat _), (well_formed orderItem); reflexivity.
  - intros _. cbn. auto.
Qed.

Lemma run_for_of_orderList receiptId orderList c t sq :
  run_in_txn fault (for_of orderList (process_orderItem fault receiptId)) c t sq
    (forallb well_formed orderList) tt
    (fst (order_processed receiptId orderList t sq))
    (snd (order_processed receiptId orderList t sq)).
Proof.
  revert t sq. induction orderList as [|orderItem rest IH]; intros t sq.
  - cbn. apply run_ret.
  - cbn [for_of order_processed forallb].
    destruct (item_processed receiptId orderItem t sq) as [t1 sq1] eqn:Hitem.
    eapply run_equal.
    + eapply run_bind; [apply run_process_orderItem | apply IH].
    + reflexivity.
    + intros _. rewrite Hitem. cbn. auto.
Qed.

End CheckoutRuns.

(** Every way the checkout handler can end, for any oracle. *)
Lemma processOrder_cases fault orderList totalPrice s :
  txn s = None ->
  match processOrder fault orderList totalPrice s with
  | (Json receiptId, s') =>
      receiptId = receipt_id_seq (seqs s) /\
      committed s' = fst (checked_out orderList totalPrice (committed s) (seqs s)) /\
      seqs s' = snd (checked_out orderList totalPrice (committed s) (seqs s)) /\
      txn s' = None /\
      forallb well_formed orderList = true /\
      quiet fault (clock s) (clock s')
  | (ErrorJson status _, s') =>
      status = 500 /\ committed s' = committed s /\ txn s' = None /\
      (quiet_from fault (clock s) -> forallb well_formed orderList = false)
  | (Unhandled _, s') =>
      committed s' = committed s /\ fault (Nat.pred (clock s')) <> None /\
      ~ quiet_from fault (clock s)
  end.
Proof.
  intros Hnone. unfold processOrder, processOrder_try.
  unfold bind at 1. unfold pool_query_tx at 1.
  destruct (fault (clock s)) as [message|] eqn:Hbegin.
  { (* BEGIN rejected *)
    unfold pool_query_tx. cbn [tick clock].
    destruct (fault (S (clock s))) as [message'|] eqn:Hrb; cbn.
    - split; [auto|]. split; [cbn; congruence|]. intros Hq. rewrite Hq in Hbegin by lia. discriminate.
    - repeat split; auto. intros Hq. rewrite Hq in Hbegin by lia. discriminate. }
  unfold view. rewrite Hnone.
  set (s0 := {| committed := committed s; txn := Some (committed s);
                seqs := seqs s; clock := S (clock s) |}).
  unfold bind at 1.
  pose proof (run_pool_query fault (INSERT_receipt totalPrice)
                (committed s) (committed s) (seqs s) s0 eq_refl eq_refl eq_refl)
    as Hins.
  destruct (pool_query fault (INSERT_receipt totalPrice) s0) as [[receiptId|e] s1].
  2:{ (* INSERT INTO receipt rejected *)
    destruct Hins as (Hc1 & Ht1 & Hle1 & Hok1).
    unfold pool_query_tx.
    destruct (fault (clock s1)) as [message'|] eqn:Hrb; cbn.
    - split; [auto|]. split; [cbn; congruence|]. intros Hq. rewrite Hq in Hrb; [discriminate|].
      cbn in Hle1. lia.
    - repeat split; auto. intros Hq. exfalso.
      assert (true = false); [|discriminate].
      apply Hok1. intros k Hk. apply Hq. cbn in Hk. lia. }
  destruct Hins as (-> & Hc1 & Ht1 & Hs1 & _ & Hle1 & Hq1).
  cbn [INSERT_receipt fst snd] in *.
  unfold bind at 1.
  pose proof (run_for_of_orderList fault (receipt_id_seq (seqs s)) orderList
                _ _ _ s1 Hc1 Ht1 Hs1) as Hloop.
  destruct (for_of orderList _ s1) as [[[]|e] s2].
  2:{ (* an order item failed *)
    destruct Hloop as (Hc2 & Ht2 & Hle2 & Hok2).
    unfold pool_query_tx.
    destruct (fault (clock s2)) as [message'|] eqn:Hrb; cbn.
    - split; [auto|]. split; [cbn; congruence|]. intros Hq. rewrite Hq in Hrb; [discriminate|].
      cbn in Hle1. lia.
    - repeat split; auto. intros Hq.
      apply Hok2. intros k Hk. apply Hq. cbn in Hle1. lia. }
  destruct Hloop as (_ & Hc2 & Ht2 & Hs2 & Hwf & Hle2 & Hq2).
  unfold bind at 1. unfold pool_query_tx at 1.
  destruct (fault (clock s2)) as [message|] eqn:Hcommit.
  { (* COMMIT rejected *)
    unfold pool_query_tx. cbn [tick clock committed txn].
    destruct (fault (S (clock s2))) as [message'|] eqn:Hrb; cbn.
    - split; [auto|]. split; [cbn; congruence|]. intros Hq. rewrite Hq in Hcommit; [discriminate|].
      cbn in Hle1. lia.
    - repeat split; auto. intros Hq. rewrite Hq in Hcommit; [discriminate|].
      cbn in Hle1. lia. }
  cbn. unfold view. rewrite Ht2. unfold checked_out. cbn.
  repeat split; auto.
  intros k Hk. cbn in Hle1, Hq1.
  destruct (Nat.eq_dec k (clock s)) as [->|Hne]; [exact Hbegin|].
  destruct (Nat.lt_ge_cases k (clock s1)); [apply Hq1; cbn; lia|].
  destruct (Nat.lt_ge_cases k (clock s2)); [apply Hq2; lia|].
  assert (k = clock s2) by (cbn in Hk; lia). subst k. exact Hcommit.
Qed.

(** ** One order item inside the transaction *)

Lemma with_decrements_tables ingredientList quantity t :
  receipt (with_decrements ingredientList quantity t) = receipt t /\
  line_item (with_decrements ingredientList quantity t) = line_item t /\
  meal_item (with_decrements ingredientList quantity t) = meal_item t /\
  drink_item (with_decrements ingredientList quantity t) = drink_item t /\
  appetizer_item (with_decrements ingredientList quantity t) = appetizer_item t.
Proof.
  unfold with_decrements. revert t.
  induction ingredientList as [|row rows IH]; intros t; cbn [fold_left].
  - auto.
  - destruct (IH (set_inventory t
                    (decrement (snd row * quantity) (fst row) (inventory t))))
      as (H1 & H2 & H3 & H4 & H5).
    rewrite H1, H2, H3, H4, H5. cbn. auto.
Qed.

Lemma with_decrements_inventory ingredientList quantity t :
  inventory (with_decrements ingredientList quantity t)
  = fold_left (fun rows row => decrement (snd row * quantity) (fst row) rows)
              ingredientList (inventory t).
Proof.
  unfold with_decrements. revert t.
  induction ingredientList as [|row rows IH]; intros t; cbn [fold_left].
  - reflexivity.
  - rewrite IH. reflexivity.
Qed.

Lemma required_cons row rest inventory_id :
  required (row :: rest) inventory_id
  = if fst row =? inventory_id
    then snd row + required rest inventory_id
    else required rest inventory_id.
Proof. reflexivity. Qed.

(** The updates of one order item, summed per inventory item. *)
Lemma decrements_required ingredientList quantity rows :
  fold_left (fun rows row => decrement (snd row * quantity) (fst row) rows)
            ingredientList rows
  = map (fun inv =>
           {| inv_inventory_id := inv_inventory_id inv;
              inv_quantity := inv_quantity inv
                - required ingredientList (inv_inventory_id inv) * quantity |})
        rows.
Proof.
  revert rows. induction ingredientList as [|row rest IH]; intros rows.
  - cbn [fold_left required fold_right].
    rewrite <- (map_id rows) at 1. apply map_ext.
    intros [id qty]. cbn. f_equal. lia.
  - cbn [fold_left]. rewrite IH. unfold decrement. rewrite map_map.
    apply map_ext. intros [id qty]. rewrite required_cons.
    cbn [inv_inventory_id inv_quantity].
    rewrite (Z.eqb_sym (fst row) id).
    destruct (id =? fst row); cbn [inv_inventory_id inv_quantity];
      f_equal; lia.
Qed.

Lemma flat_map_singleton {A B} (f : A -> B) (l : list A) :
  flat_map (fun x => [f x]) l = map f l.
Proof.
  induction l as [|x l IH]; cbn; [reflexivity | now rewrite IH].
Qed.

Lemma flat_map_empty {A B} (l : list A) :
  flat_map (fun _ => @nil B) l = [].
Proof.
  induction l as [|x l IH]; cbn; auto.
Qed.

Lemma ingredient_join_ext p p' t :
  (forall n, p n = p' n) -> ingredient_join p t = ingredient_join p' t.
Proof.
  intros Hp. unfold ingredient_join. apply flat_map_ext.
  intros m. rewrite Hp. reflexivity.
Qed.

(** The tables an order item leaves behind when its processing returns. *)
Lemma process_orderItem_tables fault receiptId orderItem s t s' :
  txn s = Some t ->
  process_orderItem fault receiptId orderItem s = (Return tt, s') ->
  exists t',
    txn s' = Some t' /\ committed s' = committed s /\
    well_formed orderItem = true /\
    receipt t' = receipt t /\
    line_item t' = line_item t ++
      map (line_item_of receiptId orderItem)
          (ids_from (line_item_id_seq (seqs s))
                    (Z.to_nat (quantity_or_1 (oi_quantity orderItem)))) /\
    meal_item t' = meal_item t ++
      flat_map (meal_rows orderItem)
          (ids_from (line_item_id_seq (seqs s))
                    (Z.to_nat (quantity_or_1 (oi_quantity orderItem)))) /\
    drink_item t' = drink_item t ++
      flat_map (drink_rows orderItem)
          (ids_from (line_item_id_seq (seqs s))
                    (Z.to_nat (quantity_or_1 (oi_quantity orderItem)))) /\
    appetizer_item t' = appetizer_item t ++
      flat_map (appetizer_rows orderItem)
          (ids_from (line_item_id_seq (seqs s))
                    (Z.to_nat (quantity_or_1 (oi_quantity orderItem)))) /\
    inventory t' =
      map (fun inv =>
             {| inv_inventory_id := inv_inventory_id inv;
                inv_quantity := inv_quantity inv
                  - required (ingredientList_of orderItem t) (inv_inventory_id inv)
                    * quantity_or_1 (oi_quantity orderItem) |})
          (inventory t).
Proof.
  intros Ht Hrun.
  pose proof (run_process_orderItem fault receiptId orderItem
                (committed s) t (seqs s) s eq_refl Ht eq_refl) as H.
  rewrite Hrun in H. destruct H as (_ & Hc & Ht' & _ & Hwf & _ & _).
  eexists. split; [exact Ht'|]. split; [exact Hc|]. split; [exact Hwf|].
  unfold item_processed. cbn [fst].
  destruct (with_decrements_tables
              (ingredientList_of orderItem
                 (with_line_items receiptId orderItem
                    (ids_from (line_item_id_seq (seqs s))
                       (Z.to_nat (quantity_or_1 (oi_quantity orderItem)))) t))
              (quantity_or_1 (oi_quantity orderItem))
              (with_line_items receiptId orderItem
                 (ids_from (line_item_id_seq (seqs s))
                    (Z.to_nat (quantity_or_1 (oi_quantity orderItem)))) t))
    as (H1 & H2 & H3 & H4 & H5).
  rewrite H1, H2, H3, H4, H5, with_decrements_inventory, decrements_required.
  cbn. repeat split; reflexivity.
Qed.

Lemma process_orderItem_progress fault receiptId orderItem s t :
  txn s = Some t ->
  quiet_from fault (clock s) ->
  well_formed orderItem = true ->
  exists s', process_orderItem fault receiptId orderItem s = (Return tt, s').
Proof.
  intros Ht Hq Hwf.
  pose proof (run_process_orderItem fault receiptId orderItem
                (committed s) t (seqs s) s eq_refl Ht eq_refl) as H.
  destruct (process_orderItem fault receiptId orderItem s) as [[[]|e] s'].
  - eauto.
  - destruct H as (_ & _ & _ & Hok). rewrite (Hok Hq) in Hwf. discriminate.
Qed.

Lemma quiet_from_no_faults a : quiet_from no_faults a.
Proof. intros k _. reflexivity. Qed.

(** ** Quantity expansion *)

(** C2 (as amended).  For an order item whose type has a case in the
    [switch] (Meal with an [entrees] array, Drink, drink, appetizer) and
    whose quantity is a positive integer [n], processing the item inside
    the transaction inserts exactly [n] line items, with consecutive fresh
    ids, the receipt id and the item's unit price, and with each of them
    exactly one variant row keyed by its id; a Drink item gets [n] drink
    rows with the item's name and price. Without rejected calls the
    processing returns. *)
Theorem C2_quantity_expansion fault receiptId orderItem n s t :
  txn s = Some t ->
  oi_quantity orderItem = JNumber n ->
  0 < n ->
  recognized orderItem = true ->
  well_formed orderItem = true ->
  Z.of_nat (length (ids_from (line_item_id_seq (seqs s)) (Z.to_nat n))) = n /\
  (forall id, inserted_variants orderItem id = 1%nat) /\
  (quiet_from fault (clock s) ->
   exists s', process_orderItem fault receiptId orderItem s = (Return tt, s')) /\
  (forall s',
     process_orderItem fault receiptId orderItem s = (Return tt, s') ->
     exists t',
       txn s' = Some t' /\
       line_item t' = line_item t ++
         map (line_item_of receiptId orderItem)
             (ids_from (line_item_id_seq (seqs s)) (Z.to_nat n)) /\
       meal_item t' = meal_item t ++
         flat_map (meal_rows orderItem)
             (ids_from (line_item_id_seq (seqs s)) (Z.to_nat n)) /\
       drink_item t' = drink_item t ++
         flat_map (drink_rows orderItem)
             (ids_from (line_item_id_seq (seqs s)) (Z.to_nat n)) /\
       appetizer_item t' = appetizer_item t ++
         flat_map (appetizer_rows orderItem)
             (ids_from (line_item_id_seq (seqs s)) (Z.to_nat n)) /\
       (oi_type orderItem = Some "Drink"%string ->
        drink_item t' = drink_item t ++
          map (fun id => {| di_line_item_id := id;
                            di_name := oi_name orderItem;
                            di_price := oi_price orderItem;
                            di_size := Some "Regular"%string |})
              (ids_from (line_item_id_seq (seqs s)) (Z.to_nat n)))).
Proof.
  intros Ht Hq Hn Hrec Hwf.
  assert (Hqty : quantity_or_1 (oi_quantity orderItem) = n).
  { rewrite Hq. cbn. destruct (Z.eqb_spec n 0); [lia | reflexivity]. }
  split; [rewrite ids_from_length; lia|].
  split.
  { intros id. revert Hrec Hwf.
    unfold recognized, well_formed, inserted_variants, meal_rows, drink_rows,
      appetizer_rows.
    destruct (type_is orderItem "Meal"), (type_is orderItem "drink"),
      (type_is orderItem "Drink"), (type_is orderItem "appetizer"),
      (oi_entrees orderItem); cbn; intros; congruence. }
  split.
  { intros Hquiet. eapply process_orderItem_progress; eauto. }
  intros s' Hrun.
  destruct (process_orderItem_tables _ _ _ _ _ _ Ht Hrun)
    as (t' & Ht' & _ & _ & _ & Hli & Hmi & Hdi & Hai & _).
  rewrite Hqty in *.
  exists t'. repeat split; auto.
  intros Htype. rewrite Hdi. f_equal.
  unfold drink_rows, type_is. rewrite Htype. cbn.
  apply flat_map_singleton.
Qed.

(** Three medium drinks on receipt 2: three line items and three drink
    rows, each with the price 199. *)
Lemma C2_quantity_expansion_witness :
  exists t',
    txn (snd (process_orderItem no_faults 2 (demo_drink "Drink" (JNumber 3))
                demo_open)) = Some t' /\
    line_item t' = line_item demo_tables ++
      map (line_item_of 2 (demo_drink "Drink" (JNumber 3))) (ids_from 2 3) /\
    meal_item t' = meal_item demo_tables ++
      flat_map (meal_rows (demo_drink "Drink" (JNumber 3))) (ids_from 2 3) /\
    drink_item t' = drink_item demo_tables ++
      flat_map (drink_rows (demo_drink "Drink" (JNumber 3))) (ids_from 2 3) /\
    appetizer_item t' = appetizer_item demo_tables ++
      flat_map (appetizer_rows (demo_drink "Drink" (JNumber 3))) (ids_from 2 3) /\
    (oi_type (demo_drink "Drink" (JNumber 3)) = Some "Drink"%string ->
     drink_item t' = drink_item demo_tables ++
       map (fun id => {| di_line_item_id := id;
                         di_name := Some "Medium Drink"%string;
                         di_price := 199;
                         di_size := Some "Regular"%string |})
           (ids_from 2 3)).
Proof.
  assert (Hrun : process_orderItem no_faults 2 (demo_drink "Drink" (JNumber 3))
                   demo_open
                 = (Return tt,
                    snd (process_orderItem no_faults 2
                           (demo_drink "Drink" (JNumber 3)) demo_open)))
    by (vm_compute; reflexivity).
  assert (Hrec : recognized (demo_drink "Drink" (JNumber 3)) = true)
    by (vm_compute; reflexivity).
  assert (Hwf : well_formed (demo_drink "Drink" (JNumber 3)) = true)
    by (vm_compute; reflexivity).
  assert (Hpos : 0 < 3) by lia.
  exact (proj2 (proj2 (proj2
           (C2_quantity_expansion no_faults 2 (demo_drink "Drink" (JNumber 3)) 3
              demo_open demo_tables eq_refl eq_refl Hpos Hrec Hwf)))
           _ Hrun).
Defined.

(** C2 as stated fails: an order item of type "Side" (the cart page adds
    one) with quantity 2 is accepted, gets two line items, and no row in
    any variant table; the same happens for the type "Appetizer". *)
Lemma C2_counterexample :
  (fst (processOrder no_faults [demo_side] 598 demo_server) = Json 2 /\
   line_item (committed (snd (processOrder no_faults [demo_side] 598 demo_server)))
   = line_item demo_tables ++ map (line_item_of 2 demo_side) [2; 3] /\
   variant_rows
     (committed (snd (processOrder no_faults [demo_side] 598 demo_server))) 2
   = 0%nat /\
   variant_rows
     (committed (snd (processOrder no_faults [demo_side] 598 demo_server))) 3
   = 0%nat) /\
  (fst (processOrder no_faults
          [with_quantity (demo_appetizer "Appetizer") (JNumber 2)] 400
          demo_server) = Json 2 /\
   variant_rows
     (committed (snd (processOrder no_faults
                        [with_quantity (demo_appetizer "Appetizer") (JNumber 2)]
                        400 demo_server))) 2
   = 0%nat /\
   variant_rows
     (committed (snd (processOrder no_faults
                        [with_quantity (demo_appetizer "Appetizer") (JNumber 2)]
                        400 demo_server))) 3
   = 0%nat).
Proof.
  vm_compute. repeat split; reflexivity.
Qed.

(** ** Inventory decrement *)














Lemma flat_map_all_nil {A B} (f : A -> list B) l :
  (forall x, In x l -> f x = []) -> flat_map f l = [].
Proof.
  intros H. induction l as [|x l IH]; [reflexivity|]. cbn [flat_map].
  rewrite (H x (or_introl eq_refl)), IH; [reflexivity|].
  intros y Hy. apply H. right. exact Hy.
Qed.

Lemma ingredient_join_without_recipe p t :
  (forall m ri, In m (menu t) -> p (m_name m) = true ->
                In ri (recipe_ingredient t) ->
                m_menu_id m <> ri_recipe_id ri) ->
  ingredient_join p t = [].
Proof.
  intros H. unfold ingredient_join. apply flat_map_all_nil. intros m Hm.
  destruct (p (m_name m)) eqn:Hp; [|reflexivity].
  apply flat_map_all_nil. intros ri Hri.
  destruct (Z.eqb_spec (m_menu_id m) (ri_recipe_id ri)) as [E|E]; [|reflexivity].
  destruct (H m ri Hm Hp Hri E).
Qed.

Lemma ingredientList_of_where_name orderItem t :
  ingredientList_of orderItem t = ingredient_join (where_name orderItem) t.
Proof.
  unfold ingredientList_of, where_name.
  destruct (type_is orderItem "Meal"); [|reflexivity].
  destruct (oi_entrees orderItem); [reflexivity|].
  symmetry. apply ingredient_join_without_recipe.
  intros m ri _ Hp. discriminate.
Qed.



Example three_drinks_take_six_units :
  map (fun inv =>
         {| inv_inventory_id := inv_inventory_id inv;
            inv_quantity := inv_quantity inv
              - required (ingredientList_of (demo_drink "Drink" (JNumber 3))
                            demo_tables)
                         (inv_inventory_id inv)
                * quantity_or_1 (oi_quantity (demo_drink "Drink" (JNumber 3))) |})
      (inventory demo_tables)
  = [{| inv_inventory_id := 10; inv_quantity := 100 |};
     {| inv_inventory_id := 11; inv_quantity := 100 |};
     {| inv_inventory_id := 12; inv_quantity := 94 |};
     {| inv_inventory_id := 13; inv_quantity := 100 |};
     {| inv_inventory_id := 14; inv_quantity := 100 |}].
Proof. vm_compute. reflexivity. Qed.

(** ** Variant rows *)

(** C4 (as amended).  For an order item whose type is "appetizer", the
    lowercase label of the [switch], processing inserts with every new line
    item exactly one appetizer row keyed by the new line item id, with the
    item's name and price, and no meal or drink row. *)
Theorem C4_appetizer_rows fault receiptId orderItem s t :
  txn s = Some t ->
  oi_type orderItem = Some "appetizer"%string ->
  (quiet_from fault (clock s) ->
   exists s', process_orderItem fault receiptId orderItem s = (Return tt, s')) /\
  (forall s',
     process_orderItem fault receiptId orderItem s = (Return tt, s') ->
     exists t',
       txn s' = Some t' /\
       line_item t' = line_item t ++
         map (line_item_of receiptId orderItem)
             (ids_from (line_item_id_seq (seqs s))
                (Z.to_nat (quantity_or_1 (oi_quantity orderItem)))) /\
       appetizer_item t' = appetizer_item t ++
         map (fun id => {| ai_line_item_id := id;
                           ai_name := oi_name orderItem;
                           ai_price := oi_price orderItem |})
             (ids_from (line_item_id_seq (seqs s))
                (Z.to_nat (quantity_or_1 (oi_quantity orderItem)))) /\
       meal_item t' = meal_item t /\
       drink_item t' = drink_item t).
Proof.
  intros Ht Htype. split.
  - intros Hq. eapply process_orderItem_progress; eauto.
    unfold well_formed, type_is. rewrite Htype. reflexivity.
  - intros s' Hrun.
    destruct (process_orderItem_tables _ _ _ _ _ _ Ht Hrun)
      as (t' & Ht' & _ & _ & _ & Hli & Hmi & Hdi & Hai & _).
    exists t'. split; [assumption|]. split; [assumption|].
    rewrite Hmi, Hdi, Hai.
    unfold meal_rows, drink_rows, appetizer_rows, type_is. rewrite Htype. cbn.
    rewrite flat_map_singleton, !flat_map_empty, !app_nil_r. auto.
Qed.

Lemma C4_appetizer_rows_witness :
  exists t',
    txn (snd (process_orderItem no_faults 2 (demo_appetizer "appetizer")
                demo_open)) = Some t' /\
    line_item t' = line_item demo_tables ++
      map (line_item_of 2 (demo_appetizer "appetizer"))
          (ids_from 2 (Z.to_nat (quantity_or_1
                                    (oi_quantity (demo_appetizer "appetizer"))))) /\
    appetizer_item t' = appetizer_item demo_tables ++
      map (fun id => {| ai_line_item_id := id;
                        ai_name := oi_name (demo_appetizer "appetizer");
                        ai_price := oi_price (demo_appetizer "appetizer") |})
          (ids_from 2 (Z.to_nat (quantity_or_1
                                    (oi_quantity (demo_appetizer "appetizer"))))) /\
    meal_item t' = meal_item demo_tables /\
    drink_item t' = drink_item demo_tables.
Proof.
  assert (Hrun : process_orderItem no_faults 2 (demo_appetizer "appetizer")
                   demo_open
                 = (Return tt,
                    snd (process_orderItem no_faults 2
                           (demo_appetizer "appetizer") demo_open)))
    by (vm_compute; reflexivity).
  exact (proj2
           (C4_appetizer_rows no_faults 2 (demo_appetizer "appetizer")
              demo_open demo_tables eq_refl eq_refl)
           _ Hrun).
Defined.

(** C4 as stated fails: an order item of type "Appetizer" is accepted, gets
    line item 2, and the appetizer table has no row for it. *)
Lemma C4_counterexample :
  fst (processOrder no_faults [demo_appetizer "Appetizer"] 200 demo_server)
  = Json 2 /\
  line_item (committed (snd (processOrder no_faults [demo_appetizer "Appetizer"]
                               200 demo_server)))
  = line_item demo_tables ++ [line_item_of 2 (demo_appetizer "Appetizer") 2] /\
  appetizer_item (committed (snd (processOrder no_faults
                                    [demo_appetizer "Appetizer"] 200
                                    demo_server)))
  = [] /\
  variant_rows (committed (snd (processOrder no_faults
                                  [demo_appetizer "Appetizer"] 200 demo_server)))
               2
  = 0%nat.
Proof.
  vm_compute. repeat split; reflexivity.
Qed.

(** C5 (as amended).  For an order item of type "Drink" or "drink", every
    drink row inserted by the processing stores the item's name, the item's
    unit price and the size label "Regular". *)
Theorem C5_drink_rows fault receiptId orderItem s t :
  txn s = Some t ->
  oi_type orderItem = Some "Drink"%string \/
  oi_type orderItem = Some "drink"%string ->
  (quiet_from fault (clock s) ->
   exists s', process_orderItem fault receiptId orderItem s = (Return tt, s')) /\
  (forall s',
     process_orderItem fault receiptId orderItem s = (Return tt, s') ->
     exists t',
       txn s' = Some t' /\
       drink_item t' = drink_item t ++
         map (fun id => {| di_line_item_id := id;
                           di_name := oi_name orderItem;
                           di_price := oi_price orderItem;
                           di_size := Some "Regular"%string |})
             (ids_from (line_item_id_seq (seqs s))
                (Z.to_nat (quantity_or_1 (oi_quantity orderItem))))).
Proof.
  intros Ht Htype. split.
  - intros Hq. eapply process_orderItem_progress; eauto.
    unfold well_formed, type_is. destruct Htype as [-> | ->]; reflexivity.
  - intros s' Hrun.
    destruct (process_orderItem_tables _ _ _ _ _ _ Ht Hrun)
      as (t' & Ht' & _ & _ & _ & _ & _ & Hdi & _ & _).
    exists t'. split; [assumption|].
    rewrite Hdi. unfold drink_rows, type_is.
    destruct Htype as [-> | ->]; cbn; rewrite flat_map_singleton; reflexivity.
Qed.

Lemma C5_drink_rows_witness :
  exists t',
    txn (snd (process_orderItem no_faults 2 (demo_drink "drink" (JNumber 2))
                demo_open)) = Some t' /\
    drink_item t' = drink_item demo_tables ++
      map (fun id => {| di_line_item_id := id;
                        di_name := oi_name (demo_drink "drink" (JNumber 2));
                        di_price := oi_price (demo_drink "drink" (JNumber 2));
                        di_size := Some "Regular"%string |})
          (ids_from 2 (Z.to_nat (quantity_or_1
                         (oi_quantity (demo_drink "drink" (JNumber 2)))))).
Proof.
  assert (Hrun : process_orderItem no_faults 2 (demo_drink "drink" (JNumber 2))
                   demo_open
                 = (Return tt,
                    snd (process_orderItem no_faults 2
                           (demo_drink "drink" (JNumber 2)) demo_open)))
    by (vm_compute; reflexivity).
  exact (proj2
           (C5_drink_rows no_faults 2 (demo_drink "drink" (JNumber 2))
              demo_open demo_tables eq_refl (or_intror eq_refl))
           _ Hrun).
Defined.

(** C5 as stated fails: a Drink submitted with size "Large" is stored with
    size "Regular". *)
Lemma C5_counterexample :
  oi_size (demo_drink "Drink" (JNumber 1)) = Some "Large"%string /\
  drink_item (committed (snd (processOrder no_faults
                                [demo_drink "Drink" (JNumber 1)] 199
                                demo_server)))
  = drink_item demo_tables ++
    [{| di_line_item_id := 2; di_name := Some "Medium Drink"%string;
        di_price := 199; di_size := Some "Regular"%string |}] /\
  Some "Regular"%string <> oi_size (demo_drink "Drink" (JNumber 1)).
Proof.
  vm_compute. repeat split; try reflexivity. discriminate.
Qed.

(** ** Null entrees and falsy quantities *)

Lemma sql_in_nulls_side n side :
  sql_in n [entree [None; None; None] 0; entree [None; None; None] 1;
            entree [None; None; None] 2; side]
  = sql_eq n side.
Proof.
  unfold sql_in. cbn. destruct n as [x|]; cbn; [|reflexivity].
  apply orb_false_r.
Qed.

(** C9.  For a Meal whose entrees are [[null, null, null]] the ingredient
    query is, call for call, the query for the side alone: a NULL parameter
    matches no menu name, not even a NULL one.  When the processing returns,
    the inventory has lost only what the rows of the side's recipe ask. *)
Theorem C9_null_entrees fault receiptId orderItem s t :
  txn s = Some t ->
  type_is orderItem "Meal" = true ->
  oi_entrees orderItem = Some [None; None; None] ->
  select_ingredientList fault orderItem s
  = pool_query fault (SELECT_ingredients_EQ (oi_side orderItem)) s /\
  sql_eq None (oi_side orderItem) = false /\
  (quiet_from fault (clock s) ->
   exists s', process_orderItem fault receiptId orderItem s = (Return tt, s')) /\
  (forall s',
     process_orderItem fault receiptId orderItem s = (Return tt, s') ->
     exists t',
       txn s' = Some t' /\
       inventory t' =
         map (fun inv =>
                {| inv_inventory_id := inv_inventory_id inv;
                   inv_quantity := inv_quantity inv
                     - required
                         (ingredient_join
                            (fun n => sql_eq n (oi_side orderItem)) t)
                         (inv_inventory_id inv)
                       * quantity_or_1 (oi_quantity orderItem) |})
             (inventory t)).
Proof.
  intros Ht Hmeal Hentrees. split; [|split; [|split]].
  - unfold select_ingredientList. rewrite Hmeal, Hentrees.
    unfold pool_query, SELECT_ingredients_IN, SELECT_ingredients_EQ.
    rewrite (ingredient_join_ext _ _ (view s)
               (fun n => sql_in_nulls_side n (oi_side orderItem))).
    reflexivity.
  - reflexivity.
  - intros Hq. eapply process_orderItem_progress; eauto.
    unfold well_formed. rewrite Hmeal, Hentrees. reflexivity.
  - intros s' Hrun.
    destruct (process_orderItem_tables _ _ _ _ _ _ Ht Hrun)
      as (t' & Ht' & _ & _ & _ & _ & _ & _ & _ & Hinv).
    exists t'. split; [assumption|].
    rewrite Hinv. unfold ingredientList_of. rewrite Hmeal, Hentrees.
    rewrite (ingredient_join_ext _ _ t
               (fun n => sql_in_nulls_side n (oi_side orderItem))).
    reflexivity.
Qed.

(** A meal without entrees and with Fried Rice takes one unit of inventory
    item 11; item 14, used by the menu row without a name, stays. *)
Lemma C9_null_entrees_witness :
  exists t',
    txn (snd (process_orderItem no_faults 2 (demo_meal [None; None; None])
                demo_open)) = Some t' /\
    inventory t' =
      map (fun inv =>
             {| inv_inventory_id := inv_inventory_id inv;
                inv_quantity := inv_quantity inv
                  - required
                      (ingredient_join
                         (fun n => sql_eq n (oi_side (demo_meal [None; None; None])))
                         demo_tables)
                      (inv_inventory_id inv)
                    * quantity_or_1 (oi_quantity (demo_meal [None; None; None])) |})
          (inventory demo_tables).
Proof.
  assert (Hrun : process_orderItem no_faults 2 (demo_meal [None; None; None])
                   demo_open
                 = (Return tt,
                    snd (process_orderItem no_faults 2
                           (demo_meal [None; None; None]) demo_open)))
    by (vm_compute; reflexivity).
  exact (proj2 (proj2 (proj2
           (C9_null_entrees no_faults 2 (demo_meal [None; None; None])
              demo_open demo_tables eq_refl eq_refl eq_refl)))
           _ Hrun).
Defined.

Example meal_without_entrees_takes_the_side_only :
  map (fun inv =>
         {| inv_inventory_id := inv_inventory_id inv;
            inv_quantity := inv_quantity inv
              - required
                  (ingredient_join
                     (fun n => sql_eq n (oi_side (demo_meal [None; None; None])))
                     demo_tables)
                  (inv_inventory_id inv)
                * quantity_or_1 (oi_quantity (demo_meal [None; None; None])) |})
      (inventory demo_tables)
  = [{| inv_inventory_id := 10; inv_quantity := 100 |};
     {| inv_inventory_id := 11; inv_quantity := 99 |};
     {| inv_inventory_id := 12; inv_quantity := 100 |};
     {| inv_inventory_id := 13; inv_quantity := 100 |};
     {| inv_inventory_id := 14; inv_quantity := 100 |}].
Proof. vm_compute. reflexivity. Qed.




Example quantity_zero_is_one_drink :
  let s' := snd (process_orderItem no_faults 2 (demo_drink "Drink" (JNumber 0))
                   demo_open) in
  line_item (view s') =
    line_item demo_tables ++
    [{| li_line_item_id := 2; li_receipt_id := 2; li_price := 199 |}] /\
  drink_item (view s') =
    drink_item demo_tables ++
    [{| di_line_item_id := 2; di_name := Some "Medium Drink"%string;
        di_price := 199; di_size := Some "Regular"%string |}] /\
  inventory (view s') =
    [{| inv_inventory_id := 10; inv_quantity := 100 |};
     {| inv_inventory_id := 11; inv_quantity := 100 |};
     {| inv_inventory_id := 12; inv_quantity := 98 |};
     {| inv_inventory_id := 13; inv_quantity := 100 |};
     {| inv_inventory_id := 14; inv_quantity := 100 |}].
Proof. vm_compute. repeat split; reflexivity. Qed.

(** ** The whole order list *)

Lemma flat_map_map {A B C} (g : A -> B) (f : B -> list C) (l : list A) :
  flat_map f (map g l) = flat_map (fun x => f (g x)) l.
Proof.
  induction l as [|x l IH]; cbn; [reflexivity | now rewrite IH].
Qed.

(** The tables after the loop over the order list: rows are appended in
    cart order, one group per line item id. *)
Lemma order_processed_tables receiptId orderList t sq :
  receipt (fst (order_processed receiptId orderList t sq)) = receipt t /\
  line_item (fst (order_processed receiptId orderList t sq)) =
    line_item t ++
    map (fun p => line_item_of receiptId (snd p) (fst p))
        (expand orderList (line_item_id_seq sq)) /\
  meal_item (fst (order_processed receiptId orderList t sq)) =
    meal_item t ++
    flat_map (fun p => meal_rows (snd p) (fst p))
             (expand orderList (line_item_id_seq sq)) /\
  drink_item (fst (order_processed receiptId orderList t sq)) =
    drink_item t ++
    flat_map (fun p => drink_rows (snd p) (fst p))
             (expand orderList (line_item_id_seq sq)) /\
  appetizer_item (fst (order_processed receiptId orderList t sq)) =
    appetizer_item t ++
    flat_map (fun p => appetizer_rows (snd p) (fst p))
             (expand orderList (line_item_id_seq sq)).
Proof.
  revert t sq. induction orderList as [|orderItem rest IH]; intros t sq.
  - cbn. rewrite !app_nil_r. auto.
  - cbn [order_processed expand].
    destruct (item_processed receiptId orderItem t sq) as [t1 sq1] eqn:Hitem.
    unfold item_processed in Hitem. injection Hitem as Ht1 Hsq1.
    destruct (IH t1 sq1) as (I1 & I2 & I3 & I4 & I5).
    rewrite I1, I2, I3, I4, I5. subst t1 sq1.
    match goal with
    | |- context [with_decrements ?r ?q ?t2] =>
        destruct (with_decrements_tables r q t2) as (H1 & H2 & H3 & H4 & H5)
    end.
    rewrite H1, H2, H3, H4, H5. cbn [line_item_id_seq].
    unfold with_line_items.
    cbn [receipt line_item meal_item drink_item appetizer_item].
    rewrite map_app, !flat_map_app, map_map, !flat_map_map, <- !app_assoc.
    cbn [fst snd]. auto.
Qed.

(** ** Atomicity of the checkout *)

Section Reports.

Variable fault : oracle.
















End Reports.





Example rejected_insert_rolls_back :
  processOrder (fun k => if Nat.eqb k 3 then Some "deadlock detected"%string
                         else None)
    [demo_drink "Drink" (JNumber 3)] 597 demo_server
  = (ErrorJson 500 "deadlock detected",
     {| committed := demo_tables; txn := None;
        seqs := {| receipt_id_seq := 3; line_item_id_seq := 3 |};
        clock := 5 |}).
Proof. vm_compute. reflexivity. Qed.

(** ** The stored total *)

(** C7.  A checkout that answers 200 has appended one receipt row whose
    total is the submitted [totalPrice], whatever the prices of the order
    items; the answer carries that row's id.  Without rejected calls a
    checkout of well-formed items answers 200. *)
Theorem C7_receipt_total fault orderList totalPrice s :
  txn s = None ->
  (quiet_from fault (clock s) -> forallb well_formed orderList = true ->
   exists s',
     processOrder fault orderList totalPrice s
     = (Json (receipt_id_seq (seqs s)), s')) /\
  (forall receiptId s',
     processOrder fault orderList totalPrice s = (Json receiptId, s') ->
     receiptId = receipt_id_seq (seqs s) /\
     receipt (committed s') =
       receipt (committed s) ++
       [{| r_receipt_id := receiptId; r_totalamount := totalPrice |}]).
Proof.
  intros Hnone. pose proof (processOrder_cases fault orderList totalPrice s Hnone) as H.
  split.
  - intros Hq Hwf.
    destruct (processOrder fault orderList totalPrice s) as [[receiptId|status e|e] s'].
    + destruct H as (-> & _). eauto.
    + destruct H as (_ & _ & _ & Hok). rewrite (Hok Hq) in Hwf. discriminate.
    + destruct H as (_ & _ & Hnq). contradiction.
  - intros receiptId s' Hrun. rewrite Hrun in H.
    destruct H as (-> & Hc & _). split; [reflexivity|].
    rewrite Hc. unfold checked_out. cbn [INSERT_receipt].
    match goal with
    | |- context [order_processed ?r orderList ?t2 ?sq2] =>
        destruct (order_processed_tables r orderList t2 sq2) as (I1 & _)
    end.
    rewrite I1. reflexivity.
Qed.

(** Three drinks at 199 submitted with a total of 1: the receipt says 1. *)
Lemma C7_receipt_total_witness :
  2 = receipt_id_seq (seqs demo_server) /\
  receipt (committed (snd (processOrder no_faults [demo_drink "Drink" (JNumber 3)]
                             1 demo_server))) =
    receipt (committed demo_server) ++
    [{| r_receipt_id := 2; r_totalamount := 1 |}].
Proof.
  assert (Hrun : processOrder no_faults [demo_drink "Drink" (JNumber 3)] 1
                   demo_server
                 = (Json 2,
                    snd (processOrder no_faults [demo_drink "Drink" (JNumber 3)]
                           1 demo_server)))
    by (vm_compute; reflexivity).
  exact (proj2
           (C7_receipt_total no_faults [demo_drink "Drink" (JNumber 3)] 1
              demo_server eq_refl)
           _ _ Hrun).
Defined.

(** ** Fetch by id *)

(** A query that only reads leaves the session as it was and advances the
    clock. *)
Lemma pool_query_read fault {A} (rows : tables -> A) s :
  pool_query fault (fun t sq => (rows t, t, sq)) s
  = match fault (clock s) with
    | Some message => (Throw message, tick s)
    | None => (Return (rows (view s)), tick s)
    end.
Proof.
  unfold pool_query, view, tick.
  destruct (fault (clock s)); [reflexivity|].
  destruct s as [c [t|] sq k]; reflexivity.
Qed.

Lemma filter_nil_existsb {A} (f : A -> bool) (l : list A) :
  filter f l = [] -> existsb f l = false.
Proof.
  induction l as [|x l IH]; cbn; [reflexivity|].
  destruct (f x); [discriminate | exact IH].
Qed.

Lemma filter_cons_existsb {A} (f : A -> bool) (l : list A) x r :
  filter f l = x :: r -> existsb f l = true.
Proof.
  induction l as [|y l IH]; cbn; [discriminate|].
  destruct (f y); [reflexivity | exact IH].
Qed.

(** The discriminator follows the order of the three checks. *)
Lemma item_json_type t li :
  json_type (item_json t li)
  = (if has_meal_item t (li_line_item_id li) then "Meal"
     else if has_appetizer_item t (li_line_item_id li) then "Appetizer"
     else if has_drink_item t (li_line_item_id li) then "Drink"
     else "Unknown")%string /\
  json_line_item_id (item_json t li) = li_line_item_id li /\
  json_price (item_json t li) = li_price li.
Proof.
  unfold item_json, has_meal_item, has_appetizer_item, has_drink_item.
  destruct (filter _ (meal_item t)) as [|mi ?] eqn:Hm.
  - rewrite (filter_nil_existsb _ _ Hm).
    destruct (filter _ (appetizer_item t)) as [|ai ?] eqn:Ha.
    + rewrite (filter_nil_existsb _ _ Ha).
      destruct (filter _ (drink_item t)) as [|di ?] eqn:Hd.
      * rewrite (filter_nil_existsb _ _ Hd). auto.
      * rewrite (filter_cons_existsb _ _ _ _ Hd). auto.
    + rewrite (filter_cons_existsb _ _ _ _ Ha). auto.
  - rewrite (filter_cons_existsb _ _ _ _ Hm). auto.
Qed.

(** Every way the loop body of the fetch can end. *)
Lemma item_details_cases fault li s :
  match item_details fault li s with
  | (Return j, s') =>
      j = item_json (view s) li /\
      committed s' = committed s /\ txn s' = txn s /\ seqs s' = seqs s /\
      clock s' =
        (clock s +
         (if has_meal_item (view s) (li_line_item_id li) then 1
          else if has_appetizer_item (view s) (li_line_item_id li) then 2
          else 3))%nat
  | (Throw _, s') => ~ quiet_from fault (clock s)
  end.
Proof.
  unfold item_details, item_json, has_meal_item, has_appetizer_item, bind.
  unfold SELECT_meal_item, SELECT_appetizer_item, SELECT_drink_item.
  rewrite pool_query_read.
  destruct (fault (clock s)) eqn:F1.
  { intros Hq. rewrite Hq in F1 by lia. discriminate. }
  destruct (filter _ (meal_item (view s))) as [|mi ?] eqn:Hm.
  2:{ rewrite (filter_cons_existsb _ _ _ _ Hm).
      unfold ret, tick. cbn [committed txn seqs clock].
      repeat (split; [reflexivity|]). lia. }
  rewrite (filter_nil_existsb _ _ Hm).
  rewrite pool_query_read.
  change (view (tick s)) with (view s).
  change (clock (tick s)) with (S (clock s)).
  destruct (fault (S (clock s))) eqn:F2.
  { intros Hq. rewrite Hq in F2 by lia. discriminate. }
  destruct (filter _ (appetizer_item (view s))) as [|ai ?] eqn:Ha.
  2:{ rewrite (filter_cons_existsb _ _ _ _ Ha).
      unfold ret, tick. cbn [committed txn seqs clock].
      repeat (split; [reflexivity|]). lia. }
  rewrite (filter_nil_existsb _ _ Ha).
  rewrite pool_query_read.
  change (view (tick (tick s))) with (view s).
  change (clock (tick (tick s))) with (S (S (clock s))).
  destruct (fault (S (S (clock s)))) eqn:F3.
  { intros Hq. rewrite Hq in F3 by lia. discriminate. }
  destruct (filter _ (drink_item (view s))) as [|di ?] eqn:Hd;
    unfold ret, tick; cbn [committed txn seqs clock];
    repeat (split; [reflexivity|]); lia.
Qed.

(** C8.  For a line item of a fetched receipt the loop body asks the meal
    table, then the appetizer table, then the drink table for a row keyed
    by the line item id, stops at the first table that has one and reports
    that table's variant; without any row it reports "Unknown".  When no
    call is rejected it returns; the number of calls made tells where it
    stopped.  A line item present in exactly one table is reported with
    that table's variant. *)
Theorem C8_first_match_wins fault li s :
  (exists s', item_details no_faults li s
              = (Return (item_json (view s) li), s')) /\
  (forall j s',
     item_details fault li s = (Return j, s') ->
     j = item_json (view s) li /\
     clock s' =
       (clock s +
        (if has_meal_item (view s) (li_line_item_id li) then 1
         else if has_appetizer_item (view s) (li_line_item_id li) then 2
         else 3))%nat) /\
  json_type (item_json (view s) li)
  = (if has_meal_item (view s) (li_line_item_id li) then "Meal"
     else if has_appetizer_item (view s) (li_line_item_id li) then "Appetizer"
     else if has_drink_item (view s) (li_line_item_id li) then "Drink"
     else "Unknown")%string /\
  (has_meal_item (view s) (li_line_item_id li) = true ->
   has_appetizer_item (view s) (li_line_item_id li) = false ->
   has_drink_item (view s) (li_line_item_id li) = false ->
   json_type (item_json (view s) li) = "Meal"%string) /\
  (has_meal_item (view s) (li_line_item_id li) = false ->
   has_appetizer_item (view s) (li_line_item_id li) = true ->
   has_drink_item (view s) (li_line_item_id li) = false ->
   json_type (item_json (view s) li) = "Appetizer"%string) /\
  (has_meal_item (view s) (li_line_item_id li) = false ->
   has_appetizer_item (view s) (li_line_item_id li) = false ->
   has_drink_item (view s) (li_line_item_id li) = true ->
   json_type (item_json (view s) li) = "Drink"%string).
Proof.
  destruct (item_json_type (view s) li) as (Htype & _ & _).
  split; [|split; [|split; [|split; [|split]]]].
  - pose proof (item_details_cases no_faults li s) as H.
    destruct (item_details no_faults li s) as [[j|e] s'].
    + destruct H as (-> & _). eauto.
    + exfalso. apply H. apply quiet_from_no_faults.
  - intros j s' Hrun. pose proof (item_details_cases fault li s) as H.
    rewrite Hrun in H. destruct H as (-> & _ & _ & _ & Hclock). auto.
  - exact Htype.
  - intros H1 H2 H3. rewrite Htype, H1. reflexivity.
  - intros H1 H2 H3. rewrite Htype, H1, H2. reflexivity.
  - intros H1 H2 H3. rewrite Htype, H1, H2, H3. reflexivity.
Qed.

(** ** Checkout, then fetch *)

Lemma for_lineItems_quiet lineItems items s :
  exists s',
    for_lineItems no_faults lineItems items s
    = (Return (items ++ map (item_json (view s)) lineItems), s') /\
    view s' = view s.
Proof.
  revert items s. induction lineItems as [|li rest IH]; intros items s.
  - exists s. cbn. rewrite app_nil_r. split; reflexivity.
  - cbn [for_lineItems map]. unfold bind.
    pose proof (item_details_cases no_faults li s) as H.
    destruct (item_details no_faults li s) as [[j|e] s1].
    + destruct H as (-> & Hc & Ht & _).
      assert (Hview : view s1 = view s) by (unfold view; rewrite Hc, Ht; reflexivity).
      destruct (IH (items ++ [item_json (view s) li]) s1) as (s' & Hrun & Hv).
      exists s'. rewrite Hrun, Hview, <- app_assoc. split; [reflexivity|].
      congruence.
    + exfalso. apply H. apply quiet_from_no_faults.
Qed.

(** The fetch handler when no call is rejected. *)
Lemma get_receipt_quiet receipt_id s :
  exists s',
    get_receipt no_faults receipt_id s
    = (match filter (fun r => r_receipt_id r =? receipt_id) (receipt (view s)) with
       | [] => ErrorJson 404 "Receipt not found"
       | r :: _ =>
           Json {| rj_receipt_id := r_receipt_id r;
                   rj_totalamount := r_totalamount r;
                   rj_line_items :=
                     map (item_json (view s))
                         (filter (fun li => li_receipt_id li =? receipt_id)
                                 (line_item (view s))) |}
       end, s').
Proof.
  unfold get_receipt, get_receipt_try, bind.
  unfold SELECT_receipt, SELECT_line_items.
  rewrite pool_query_read. cbn [no_faults].
  destruct (filter _ (receipt (view s))) as [|r ?].
  - cbn. eauto.
  - rewrite pool_query_read. cbn [no_faults].
    change (view (tick s)) with (view s).
    destruct (for_lineItems_quiet
                (filter (fun li => li_receipt_id li =? receipt_id)
                        (line_item (view s)))
                [] (tick (tick s))) as (s' & Hrun & _).
    rewrite Hrun. cbn. eauto.
Qed.

Lemma filter_key_below {A} (key : A -> Z) bound id (l : list A) :
  forallb (fun x => key x <? bound) l = true ->
  bound <= id ->
  filter (fun x => key x =? id) l = [].
Proof.
  intros Hall Hle. induction l as [|x l IH]; cbn in *; [reflexivity|].
  apply andb_true_iff in Hall. destruct Hall as [Hx Hl].
  apply Z.ltb_lt in Hx.
  destruct (Z.eqb_spec (key x) id); [lia | auto].
Qed.

Lemma filter_key_other {A} (key : A -> Z) id (l : list A) :
  (forall x, In x l -> key x <> id) ->
  filter (fun x => key x =? id) l = [].
Proof.
  intros Hall. induction l as [|x l IH]; cbn; [reflexivity|].
  destruct (Z.eqb_spec (key x) id) as [Heq|Hne].
  - exfalso. apply (Hall x); [left; reflexivity | exact Heq].
  - apply IH. intros y Hy. apply Hall. right. exact Hy.
Qed.

Lemma filter_key_same {A} (key : A -> Z) id (l : list A) :
  (forall x, In x l -> key x = id) ->
  filter (fun x => key x =? id) l = l.
Proof.
  intros Hall. induction l as [|x l IH]; cbn; [reflexivity|].
  rewrite (Hall x (or_introl eq_refl)), Z.eqb_refl. f_equal.
  apply IH. intros y Hy. apply Hall. right. exact Hy.
Qed.

(** Looking up the rows of one line item among the rows inserted for an
    order list. *)
Lemma filter_flat_map_key {R} (key : R -> Z) (f : orderItem -> Z -> list R)
  (xs : list (Z * orderItem)) id e :
  (forall e' i r, In r (f e' i) -> key r = i) ->
  NoDup (map fst xs) ->
  In (id, e) xs ->
  filter (fun r => key r =? id) (flat_map (fun p => f (snd p) (fst p)) xs)
  = f e id.
Proof.
  intros Hkey. induction xs as [|[i0 e0] xs IH]; intros Hnd Hin.
  - destruct Hin.
  - cbn [flat_map fst snd map] in *. rewrite filter_app.
    inversion Hnd as [|? ? Hnotin Hnd']; subst.
    destruct Hin as [Heq|Hin].
    + injection Heq as -> ->.
      rewrite filter_key_same by (intros r Hr; eapply Hkey; eauto).
      rewrite filter_key_other; [apply app_nil_r|].
      intros r Hr Heq. apply in_flat_map in Hr.
      destruct Hr as ([i1 e1] & Hin1 & Hr). cbn in Hr.
      apply Hkey in Hr. apply Hnotin.
      apply in_map_iff. exists (i1, e1). split; [cbn; congruence | exact Hin1].
    + assert (Hne : i0 <> id).
      { intros ->. apply Hnotin. apply in_map_iff. exists (id, e). auto. }
      rewrite filter_key_other
        by (intros r Hr Heq; apply Hkey in Hr; congruence).
      cbn. apply IH; assumption.
Qed.

Lemma ids_from_app start n m :
  ids_from start (n + m)
  = ids_from start n ++ ids_from (start + Z.of_nat n) m.
Proof.
  revert start. induction n as [|n IH]; intros start.
  - cbn. rewrite Z.add_0_r. reflexivity.
  - cbn [ids_from Nat.add app]. rewrite IH. do 3 f_equal. lia.
Qed.

Lemma NoDup_ids_from start n : NoDup (ids_from start n).
Proof.
  revert start. induction n as [|n IH]; intros start; cbn; constructor.
  - rewrite ids_from_In. lia.
  - apply IH.
Qed.

Lemma expand_fst orderList start :
  map fst (expand orderList start)
  = ids_from start (length (expand orderList start)).
Proof.
  revert start. induction orderList as [|e rest IH]; intros start.
  - reflexivity.
  - cbn [expand]. rewrite map_app, map_map, length_app, length_map.
    cbn [fst]. rewrite map_id, IH, ids_from_app, ids_from_length. reflexivity.
Qed.

Lemma expand_In orderList start id e :
  In (id, e) (expand orderList start) -> In e orderList /\ start <= id.
Proof.
  revert start. induction orderList as [|e0 rest IH]; intros start Hin.
  - destruct Hin.
  - cbn [expand] in Hin. apply in_app_or in Hin. destruct Hin as [Hin|Hin].
    + apply in_map_iff in Hin. destruct Hin as (i & Heq & Hi).
      injection Heq as -> ->. apply ids_from_In in Hi.
      split; [left; reflexivity | lia].
    + apply IH in Hin. destruct Hin as [Hin Hle].
      split; [right; exact Hin | lia].
Qed.

Lemma filter_Boolean_entrees entrees :
  filter_Boolean [entree entrees 0; entree entrees 1; entree entrees 2]
  = filter_Boolean (firstn 3 entrees).
Proof.
  unfold entree, or_null.
  destruct entrees as [|[a|] [|[b|] [|[c|] rest]]]; cbn;
    repeat match goal with
           | |- context [String.eqb ?x ""] =>
               destruct (String.eqb x "") eqn:?; cbn
           end;
    try reflexivity; congruence.
Qed.

Lemma meal_rows_key e i r : In r (meal_rows e i) -> mi_line_item_id r = i.
Proof.
  unfold meal_rows. destruct (type_is e "Meal"); [|intros []].
  destruct (oi_entrees e); [|intros []].
  intros [<-|[]]. reflexivity.
Qed.

Lemma drink_rows_key e i r : In r (drink_rows e i) -> di_line_item_id r = i.
Proof.
  unfold drink_rows. destruct (type_is e "Meal"); [intros []|].
  destruct (type_is e "drink" || type_is e "Drink"); [|intros []].
  intros [<-|[]]. reflexivity.
Qed.

Lemma appetizer_rows_key e i r :
  In r (appetizer_rows e i) -> ai_line_item_id r = i.
Proof.
  unfold appetizer_rows. destruct (type_is e "Meal"); [intros []|].
  destruct (type_is e "drink" || type_is e "Drink"); [intros []|].
  destruct (type_is e "appetizer"); [|intros []].
  intros [<-|[]]. reflexivity.
Qed.

(** What the fetch shows for one line item of a well-formed order item,
    once the rows of the three variant tables keyed by its id are known. *)
Lemma item_json_expected t receiptId e id :
  well_formed e = true ->
  filter (fun mi => mi_line_item_id mi =? id) (meal_item t) = meal_rows e id ->
  filter (fun ai => ai_line_item_id ai =? id) (appetizer_item t)
  = appetizer_rows e id ->
  filter (fun di => di_line_item_id di =? id) (drink_item t) = drink_rows e id ->
  item_json t (line_item_of receiptId e id) = expected_json e id.
Proof.
  intros Hwf Hm Ha Hd. unfold item_json.
  cbn [line_item_of li_line_item_id li_price]. rewrite Hm, Ha, Hd.
  revert Hwf.
  unfold well_formed, meal_rows, appetizer_rows, drink_rows, expected_json.
  destruct (type_is e "Meal").
  - destruct (oi_entrees e) as [entrees|]; [|discriminate].
    intros _. cbn [mi_size mi_meat1 mi_meat2 mi_meat3 mi_side].
    rewrite filter_Boolean_entrees. reflexivity.
  - intros _.
    destruct (type_is e "drink" || type_is e "Drink"); [reflexivity|].
    destruct (type_is e "appetizer"); reflexivity.
Qed.

(** C6 (as amended).  Let a checkout of order items of type Meal, Drink,
    drink or appetizer answer 200 with a receipt id, on tables whose serial
    ids are below the sequences.  Fetching that id right after, with no
    call rejected, answers the receipt with the submitted total and, in
    cart order, one line item per line item id of each order item: a Meal
    with the item's size, side and price and, as meats, the non-empty names
    among its first three entrees; a Drink with the item's name and price
    and the size "Regular"; an Appetizer with the item's name and price. *)
Theorem C6_round_trip fault orderList totalPrice s receiptId s1 :
  txn s = None ->
  fresh (committed s) (seqs s) = true ->
  forallb recognized orderList = true ->
  processOrder fault orderList totalPrice s = (Json receiptId, s1) ->
  exists s2,
    get_receipt no_faults receiptId s1
    = (Json {| rj_receipt_id := receiptId;
               rj_totalamount := totalPrice;
               rj_line_items :=
                 expected_items orderList (line_item_id_seq (seqs s)) |},
       s2).
Proof.
  intros Hnone Hfresh _ Hrun.
  pose proof (processOrder_cases fault orderList totalPrice s Hnone) as H.
  rewrite Hrun in H. destruct H as (-> & Hc & _ & Ht1 & Hwf & _).
  destruct (get_receipt_quiet (receipt_id_seq (seqs s)) s1) as (s2 & Hget).
  exists s2. rewrite Hget. clear Hget Hrun.
  assert (Hview : view s1 = committed s1)
    by (unfold view; rewrite Ht1; reflexivity).
  rewrite Hview, Hc. clear Hview Hc Ht1.
  unfold fresh in Hfresh. rewrite !andb_true_iff in Hfresh.
  destruct Hfresh as ((((Fr & Fli) & Fmi) & Fdi) & Fai).
  unfold checked_out. cbn [INSERT_receipt].
  match goal with
  | |- context [order_processed ?r orderList ?t2 ?sq2] =>
      destruct (order_processed_tables r orderList t2 sq2)
        as (I1 & I2 & I3 & I4 & I5);
      set (t' := fst (order_processed r orderList t2 sq2)) in *
  end.
  cbn [set_receipt receipt line_item meal_item drink_item appetizer_item
       line_item_id_seq] in I1, I2, I3, I4, I5.
  rewrite I1, I2, !filter_app.
  rewrite (filter_key_below r_receipt_id _ _ _ Fr (Z.le_refl _)).
  rewrite (filter_key_below li_receipt_id _ _ _ Fli (Z.le_refl _)).
  cbn [filter r_receipt_id app]. rewrite Z.eqb_refl.
  cbn [r_receipt_id r_totalamount]. do 3 f_equal.
  rewrite (filter_key_same li_receipt_id).
  2:{ intros li Hli. apply in_map_iff in Hli.
      destruct Hli as (p & <- & _). reflexivity. }
  unfold expected_items. rewrite map_map. apply map_ext_in.
  intros [id e] Hin. cbn [fst snd].
  destruct (expand_In _ _ _ _ Hin) as [He Hle].
  assert (Hnd : NoDup (map fst (expand orderList (line_item_id_seq (seqs s))))).
  { rewrite expand_fst. apply NoDup_ids_from. }
  apply item_json_expected.
  - rewrite forallb_forall in Hwf. apply Hwf. exact He.
  - rewrite I3, filter_app, (filter_key_below mi_line_item_id _ _ _ Fmi Hle).
    apply (filter_flat_map_key mi_line_item_id meal_rows);
      [exact meal_rows_key | exact Hnd | exact Hin].
  - rewrite I5, filter_app, (filter_key_below ai_line_item_id _ _ _ Fai Hle).
    apply (filter_flat_map_key ai_line_item_id appetizer_rows);
      [exact appetizer_rows_key | exact Hnd | exact Hin].
  - rewrite I4, filter_app, (filter_key_below di_line_item_id _ _ _ Fdi Hle).
    apply (filter_flat_map_key di_line_item_id drink_rows);
      [exact drink_rows_key | exact Hnd | exact Hin].
Qed.

(** A meal, two drinks and an appetizer, checked out and fetched. *)
Lemma C6_round_trip_witness :
  exists s2,
    get_receipt no_faults 2
      (snd (processOrder no_faults
              [demo_meal [Some "Orange Chicken"%string; None; None];
               demo_drink "drink" (JNumber 2);
               demo_appetizer "appetizer"] 1447 demo_server))
    = (Json {| rj_receipt_id := 2;
               rj_totalamount := 1447;
               rj_line_items :=
                 expected_items
                   [demo_meal [Some "Orange Chicken"%string; None; None];
                    demo_drink "drink" (JNumber 2);
                    demo_appetizer "appetizer"]
                   (line_item_id_seq (seqs demo_server)) |},
       s2).
Proof.
  assert (Hrun : processOrder no_faults
                   [demo_meal [Some "Orange Chicken"%string; None; None];
                    demo_drink "drink" (JNumber 2);
                    demo_appetizer "appetizer"] 1447 demo_server
                 = (Json 2,
                    snd (processOrder no_faults
                           [demo_meal [Some "Orange Chicken"%string; None; None];
                            demo_drink "drink" (JNumber 2);
                            demo_appetizer "appetizer"] 1447 demo_server)))
    by (vm_compute; reflexivity).
  assert (Hfresh : fresh (committed demo_server) (seqs demo_server) = true)
    by (vm_compute; reflexivity).
  assert (Hrec : forallb recognized
                   [demo_meal [Some "Orange Chicken"%string; None; None];
                    demo_drink "drink" (JNumber 2);
                    demo_appetizer "appetizer"] = true)
    by (vm_compute; reflexivity).
  exact (C6_round_trip no_faults _ 1447 demo_server 2 _ eq_refl Hfresh Hrec Hrun).
Defined.

Example round_trip_line_items :
  expected_items
    [demo_meal [Some "Orange Chicken"%string; None; None];
     demo_drink "drink" (JNumber 2);
     demo_appetizer "appetizer"] 2
  = [MealJson 2 (Some "Plate"%string) ["Orange Chicken"%string]
       (Some "Fried Rice"%string) 849;
     DrinkJson 3 (Some "Medium Drink"%string) (Some "Regular"%string) 199;
     DrinkJson 4 (Some "Medium Drink"%string) (Some "Regular"%string) 199;
     AppetizerJson 5 (Some "Egg Roll"%string) 200].
Proof. vm_compute. reflexivity. Qed.

(** C6 as stated fails: the cart page's side is accepted by the checkout,
    and the fetch shows it as "Unknown", without its name. *)
Lemma C6_counterexample :
  fst (processOrder no_faults [demo_side] 598 demo_server) = Json 2 /\
  fst (get_receipt no_faults 2
         (snd (processOrder no_faults [demo_side] 598 demo_server)))
  = Json {| rj_receipt_id := 2; rj_totalamount := 598;
            rj_line_items := [UnknownJson 2 299; UnknownJson 3 299] |} /\
  oi_type demo_side = Some "Side"%string /\
  json_type (UnknownJson 2 299) = "Unknown"%string.
Proof.
  vm_compute. repeat split; reflexivity.
Qed.

(** ** Transactions of the delete and update routes *)

(** Every way a handler of the shape
    [try { BEGIN; statements; COMMIT; res.json(...) }
     catch (error) { ROLLBACK; res.status(500).json(...) }]
    can end, for any oracle. *)
Lemma transaction_cases {B} fault (statements : M unit) (body : B) s ok t' sq' :
  txn s = None ->
  run_in_txn fault statements (committed s) (committed s) (seqs s) ok tt t' sq' ->
  match
    match (pool_query_tx fault BEGIN ;;; statements ;;;
           pool_query_tx fault COMMIT) s with
    | (Return _, s') => (Json body, s')
    | (Throw message, s') =>
        match pool_query_tx fault ROLLBACK s' with
        | (Return _, s'') => (ErrorJson 500 message, s'')
        | (Throw message', s'') => (Unhandled message', s'')
        end
    end
  with
  | (Json _, s') =>
      committed s' = t' /\ seqs s' = sq' /\ txn s' = None /\ ok = true /\
      quiet fault (clock s) (clock s')
  | (ErrorJson status _, s') =>
      status = 500 /\ committed s' = committed s /\ txn s' = None /\
      (quiet_from fault (clock s) -> ok = false)
  | (Unhandled _, s') =>
      committed s' = committed s /\ fault (Nat.pred (clock s')) <> None /\
      ~ quiet_from fault (clock s)
  end.
Proof.
  intros Hnone Hrun.
  unfold bind at 1. unfold pool_query_tx at 1.
  destruct (fault (clock s)) as [message|] eqn:Hbegin.
  { unfold pool_query_tx. cbn [tick clock].
    destruct (fault (S (clock s))) as [message'|] eqn:Hrb; cbn.
    - split; [auto|]. split; [congruence|].
      intros Hq. rewrite Hq in Hbegin by lia. discriminate.
    - repeat split; auto. intros Hq. rewrite Hq in Hbegin by lia. discriminate. }
  unfold view. rewrite Hnone.
  set (s0 := {| committed := committed s; txn := Some (committed s);
                seqs := seqs s; clock := S (clock s) |}).
  unfold bind at 1.
  specialize (Hrun s0 eq_refl eq_refl eq_refl).
  destruct (statements s0) as [[[]|e] s1].
  2:{ destruct Hrun as (Hc1 & Ht1 & Hle1 & Hok1).
      unfold pool_query_tx.
      destruct (fault (clock s1)) as [message'|] eqn:Hrb; cbn.
      - split; [auto|]. split; [congruence|].
        intros Hq. rewrite Hq in Hrb; [discriminate|]. cbn in Hle1. lia.
      - repeat split; auto. intros Hq.
        apply Hok1. intros k Hk. apply Hq. cbn in Hk. lia. }
  destruct Hrun as (_ & Hc1 & Ht1 & Hs1 & Hok & Hle1 & Hq1).
  unfold pool_query_tx at 1.
  destruct (fault (clock s1)) as [message|] eqn:Hcommit.
  { unfold pool_query_tx. cbn [tick clock committed txn].
    destruct (fault (S (clock s1))) as [message'|] eqn:Hrb; cbn.
    - split; [auto|]. split; [congruence|].
      intros Hq. rewrite Hq in Hcommit; [discriminate|]. cbn in Hle1. lia.
    - repeat split; auto. intros Hq.
      rewrite Hq in Hcommit; [discriminate|]. cbn in Hle1. lia. }
  cbn. unfold view. rewrite Ht1. repeat split; auto.
  intros k Hk. cbn in Hle1, Hq1.
  destruct (Nat.eq_dec k (clock s)) as [->|Hne]; [exact Hbegin|].
  destruct (Nat.lt_ge_cases k (clock s1)); [apply Hq1; cbn; lia|].
  assert (k = clock s1) by (cbn in Hk; lia). subst k. exact Hcommit.
Qed.

(** A data statement when the visible tables are known. *)
Lemma run_statement fault {A} (q : statement A) c t sq a t' sq' :
  q t sq = (a, t', sq') ->
  run_in_txn fault (pool_query fault q) c t sq true a t' sq'.
Proof.
  intros Hq. pose proof (run_pool_query fault q c t sq) as H.
  rewrite Hq in H. exact H.
Qed.

Lemma filter_always {A} (l : list A) : filter (fun _ => true) l = l.
Proof.
  induction l as [|x l IH]; cbn; [reflexivity | now rewrite IH].
Qed.

(** The three variant deletes, which the delete route skips when the
    receipt has no line item. *)
Lemma run_delete_variants fault ids c t sq :
  run_in_txn fault
    (match ids with
     | [] => ret tt
     | _ :: _ =>
         pool_query fault (DELETE_meal_item_ANY ids) ;;;
         pool_query fault (DELETE_drink_item_ANY ids) ;;;
         pool_query fault (DELETE_appetizer_item_ANY ids)
     end)
    c t sq true tt
    {| receipt := receipt t;
       line_item := line_item t;
       meal_item :=
         filter (fun mi => negb (ANY (mi_line_item_id mi) ids)) (meal_item t);
       drink_item :=
         filter (fun di => negb (ANY (di_line_item_id di) ids)) (drink_item t);
       appetizer_item :=
         filter (fun ai => negb (ANY (ai_line_item_id ai) ids))
                (appetizer_item t);
       menu := menu t;
       recipe_ingredient := recipe_ingredient t;
       ingredient := ingredient t;
       inventory := inventory t |}
    sq.
Proof.
  destruct ids as [|id ids].
  - eapply run_equal; [apply run_ret | reflexivity |].
    intros _. destruct t. cbn. rewrite !filter_always. auto.
  - eapply run_equal.
    + eapply run_bind; [apply run_pool_query|].
      eapply run_bind; apply run_pool_query.
    + reflexivity.
    + intros _. destruct t. cbn. auto.
Qed.

Lemma run_delete_receipt_statements fault receipt_id c t sq :
  run_in_txn fault (delete_receipt_statements fault receipt_id) c t sq
    true tt (receipt_deleted receipt_id t) sq.
Proof.
  unfold delete_receipt_statements.
  eapply run_equal.
  - eapply run_bind; [apply run_pool_query|].
    eapply run_bind; [apply run_delete_variants|].
    eapply run_bind; apply run_pool_query.
  - reflexivity.
  - intros _. destruct t. cbn. auto.
Qed.

(** ** Deleting a receipt *)

Lemma delete_receipt_cases fault receipt_id s :
  txn s = None ->
  match delete_receipt fault receipt_id s with
  | (Json _, s') =>
      committed s' = receipt_deleted receipt_id (committed s) /\
      seqs s' = seqs s /\ txn s' = None /\ true = true /\
      quiet fault (clock s) (clock s')
  | (ErrorJson status _, s') =>
      status = 500 /\ committed s' = committed s /\ txn s' = None /\
      (quiet_from fault (clock s) -> true = false)
  | (Unhandled _, s') =>
      committed s' = committed s /\ fault (Nat.pred (clock s')) <> None /\
      ~ quiet_from fault (clock s)
  end.
Proof.
  intros Hnone. unfold delete_receipt.
  apply transaction_cases; [exact Hnone|].
  apply run_delete_receipt_statements.
Qed.

Lemma filter_keeps {A} (f : A -> bool) (l : list A) :
  (forall x, In x l -> f x = true) -> filter f l = l.
Proof.
  intros Hall. induction l as [|x l IH]; cbn; [reflexivity|].
  rewrite (Hall x (or_introl eq_refl)). f_equal.
  apply IH. intros y Hy. apply Hall. right. exact Hy.
Qed.

Lemma filter_drops {A} (f : A -> bool) (l : list A) :
  (forall x, In x l -> f x = false) -> filter f l = [].
Proof.
  intros Hall. induction l as [|x l IH]; cbn; [reflexivity|].
  rewrite (Hall x (or_introl eq_refl)).
  apply IH. intros y Hy. apply Hall. right. exact Hy.
Qed.

Lemma ANY_In id ids : ANY id ids = true <-> In id ids.
Proof.
  unfold ANY. rewrite existsb_exists. split.
  - intros (x & Hx & Heq). apply Z.eqb_eq in Heq. subst. exact Hx.
  - intros Hin. exists id. split; [exact Hin | apply Z.eqb_refl].
Qed.

(** X1.  The delete route is atomic.  Started outside a transaction it
    answers 200 only if no call was rejected, and then the receipt, its
    line items and their variant rows are gone together; if any call is
    rejected the committed tables are exactly those before the request and
    the answer is 500 (no answer when the rollback itself is rejected).
    Without a rejected call it answers 200, also for an id that no receipt
    has. *)
Theorem delete_receipt_atomic fault receipt_id s :
  txn s = None ->
  (quiet_from fault (clock s) ->
   exists message s', delete_receipt fault receipt_id s = (Json message, s')) /\
  match delete_receipt fault receipt_id s with
  | (Json _, s') =>
      committed s' = receipt_deleted receipt_id (committed s) /\
      txn s' = None /\ quiet fault (clock s) (clock s')
  | (ErrorJson status _, s') =>
      status = 500 /\ committed s' = committed s /\ txn s' = None
  | (Unhandled _, s') =>
      committed s' = committed s /\ fault (Nat.pred (clock s')) <> None
  end.
Proof.
  intros Hnone. pose proof (delete_receipt_cases fault receipt_id s Hnone) as H.
  destruct (delete_receipt fault receipt_id s) as [[message|status e|e] s'].
  - destruct H as (Hc & _ & Ht & _ & Hq). split; [eauto | auto].
  - destruct H as (Hs & Hc & Ht & Hok). split; [|auto].
    intros Hq. specialize (Hok Hq). discriminate.
  - destruct H as (Hc & Hf & Hnq). split; [|auto].
    intros Hq. contradiction.
Qed.

(** The third call of the delete of receipt 1 is rejected. *)
Lemma delete_receipt_atomic_witness :
  match delete_receipt (fun k => if Nat.eqb k 3 then Some "connection lost"%string
                                 else None) 1 demo_server with
  | (Json _, s') =>
      committed s' = receipt_deleted 1 (committed demo_server) /\
      txn s' = None /\
      quiet (fun k => if Nat.eqb k 3 then Some "connection lost"%string else None)
            (clock demo_server) (clock s')
  | (ErrorJson status _, s') =>
      status = 500 /\ committed s' = committed demo_server /\ txn s' = None
  | (Unhandled _, s') =>
      committed s' = committed demo_server /\
      (fun k => if Nat.eqb k 3 then Some "connection lost"%string else None)
        (Nat.pred (clock s')) <> None
  end.
Proof.
  exact (proj2 (delete_receipt_atomic
                  (fun k => if Nat.eqb k 3 then Some "connection lost"%string
                            else None) 1 demo_server eq_refl)).
Defined.

Lemma filter_other_key_In {A} (key : A -> Z) id (l : list A) x :
  In x (filter (fun y => negb (key y =? id)) l) <-> In x l /\ key x <> id.
Proof.
  rewrite filter_In, negb_true_iff, Z.eqb_neq. reflexivity.
Qed.

Lemma filter_not_ANY_In {A} (key : A -> Z) ids (l : list A) x :
  In x (filter (fun y => negb (ANY (key y) ids)) l)
  <-> In x l /\ ~ In (key x) ids.
Proof.
  rewrite filter_In, negb_true_iff, <- ANY_In, not_true_iff_false.
  reflexivity.
Qed.

(** X2.  A delete that answers 200 removes exactly the rows of that
    receipt: a receipt row or a line item stays if and only if it belongs
    to another receipt, a variant row stays if and only if its line item
    did not belong to the deleted receipt, and the menu, the recipes and
    the inventory are untouched. *)
Theorem delete_receipt_removes_only_its_rows fault receipt_id s message s' :
  txn s = None ->
  delete_receipt fault receipt_id s = (Json message, s') ->
  (forall r, In r (receipt (committed s')) <->
             In r (receipt (committed s)) /\ r_receipt_id r <> receipt_id) /\
  (forall li, In li (line_item (committed s')) <->
              In li (line_item (committed s)) /\ li_receipt_id li <> receipt_id) /\
  (forall mi, In mi (meal_item (committed s')) <->
              In mi (meal_item (committed s)) /\
              ~ exists li, In li (line_item (committed s)) /\
                           li_receipt_id li = receipt_id /\
                           li_line_item_id li = mi_line_item_id mi) /\
  (forall di, In di (drink_item (committed s')) <->
              In di (drink_item (committed s)) /\
              ~ exists li, In li (line_item (committed s)) /\
                           li_receipt_id li = receipt_id /\
                           li_line_item_id li = di_line_item_id di) /\
  (forall ai, In ai (appetizer_item (committed s')) <->
              In ai (appetizer_item (committed s)) /\
              ~ exists li, In li (line_item (committed s)) /\
                           li_receipt_id li = receipt_id /\
                           li_line_item_id li = ai_line_item_id ai) /\
  inventory (committed s') = inventory (committed s) /\
  menu (committed s') = menu (committed s) /\
  recipe_ingredient (committed s') = recipe_ingredient (committed s) /\
  ingredient (committed s') = ingredient (committed s).
Proof.
  intros Hnone Hrun.
  pose proof (delete_receipt_cases fault receipt_id s Hnone) as H.
  rewrite Hrun in H. destruct H as (Hc & _). rewrite Hc.
  unfold receipt_deleted.
  cbn [receipt line_item meal_item drink_item appetizer_item inventory menu
       recipe_ingredient ingredient].
  assert (Hids : forall id,
            In id (map li_line_item_id
                     (filter (fun li => li_receipt_id li =? receipt_id)
                             (line_item (committed s)))) <->
            exists li, In li (line_item (committed s)) /\
                       li_receipt_id li = receipt_id /\
                       li_line_item_id li = id).
  { intros id. rewrite in_map_iff. split.
    - intros (li & Hid & Hin). apply filter_In in Hin.
      destruct Hin as [Hin Heq]. apply Z.eqb_eq in Heq. eauto.
    - intros (li & Hin & Hr & Hid). exists li. split; [exact Hid|].
      apply filter_In. split; [exact Hin | apply Z.eqb_eq; exact Hr]. }
  split; [intros r; apply (filter_other_key_In r_receipt_id)|].
  split; [intros li; apply (filter_other_key_In li_receipt_id)|].
  split; [intros mi; rewrite (filter_not_ANY_In mi_line_item_id), Hids;
          reflexivity|].
  split; [intros di; rewrite (filter_not_ANY_In di_line_item_id), Hids;
          reflexivity|].
  split; [intros ai; rewrite (filter_not_ANY_In ai_line_item_id), Hids;
          reflexivity|].
  repeat split; reflexivity.
Qed.

Lemma delete_receipt_removes_only_its_rows_witness :
  inventory (committed (snd (delete_receipt no_faults 1 demo_server)))
  = inventory (committed demo_server).
Proof.
  assert (Hrun : delete_receipt no_faults 1 demo_server
                 = (Json "Receipt deleted successfully!"%string,
                    snd (delete_receipt no_faults 1 demo_server)))
    by (vm_compute; reflexivity).
  exact (proj1 (proj2 (proj2 (proj2 (proj2 (proj2
           (delete_receipt_removes_only_its_rows no_faults 1 demo_server
              _ _ eq_refl Hrun))))))).
Defined.

(** X3.  After a delete that answers 200, fetching the same id answers
    404. *)
Theorem delete_then_fetch_not_found fault receipt_id s message s1 :
  txn s = None ->
  delete_receipt fault receipt_id s = (Json message, s1) ->
  exists s2,
    get_receipt no_faults receipt_id s1
    = (ErrorJson 404 "Receipt not found", s2).
Proof.
  intros Hnone Hrun.
  pose proof (delete_receipt_cases fault receipt_id s Hnone) as H.
  rewrite Hrun in H. destruct H as (Hc & _ & Ht & _).
  destruct (get_receipt_quiet receipt_id s1) as (s2 & Hget).
  exists s2. rewrite Hget. unfold view. rewrite Ht, Hc.
  unfold receipt_deleted. cbn [receipt].
  rewrite filter_drops; [reflexivity|].
  intros r Hr. apply filter_other_key_In in Hr. destruct Hr as [_ Hne].
  apply Z.eqb_neq. exact Hne.
Qed.

Lemma delete_then_fetch_not_found_witness :
  exists s2,
    get_receipt no_faults 1 (snd (delete_receipt no_faults 1 demo_server))
    = (ErrorJson 404 "Receipt not found", s2).
Proof.
  assert (Hrun : delete_receipt no_faults 1 demo_server
                 = (Json "Receipt deleted successfully!"%string,
                    snd (delete_receipt no_faults 1 demo_server)))
    by (vm_compute; reflexivity).
  exact (delete_then_fetch_not_found no_faults 1 demo_server _ _ eq_refl Hrun).
Defined.

Lemma receipt_deleted_absent receipt_id t :
  (forall r, In r (receipt t) -> r_receipt_id r <> receipt_id) ->
  (forall li, In li (line_item t) -> li_receipt_id li <> receipt_id) ->
  receipt_deleted receipt_id t = t.
Proof.
  intros Hr Hli. unfold receipt_deleted.
  rewrite (filter_drops (fun li => li_receipt_id li =? receipt_id))
    by (intros li Hin; apply Z.eqb_neq; auto).
  cbn [map]. destruct t. cbn in *.
  rewrite !filter_always.
  rewrite (filter_keeps (fun r => negb (r_receipt_id r =? receipt_id)))
    by (intros r Hin; apply negb_true_iff, Z.eqb_neq; auto).
  rewrite (filter_keeps (fun li => negb (li_receipt_id li =? receipt_id)))
    by (intros li Hin; apply negb_true_iff, Z.eqb_neq; auto).
  reflexivity.
Qed.

(** X4.  Deleting an id that no receipt row and no line item carries is
    not an error: when the route answers 200 the committed tables are
    exactly those before the request. *)
Theorem delete_absent_receipt_changes_nothing fault receipt_id s message s' :
  txn s = None ->
  (forall r, In r (receipt (committed s)) -> r_receipt_id r <> receipt_id) ->
  (forall li, In li (line_item (committed s)) ->
              li_receipt_id li <> receipt_id) ->
  delete_receipt fault receipt_id s = (Json message, s') ->
  message = "Receipt deleted successfully!"%string /\
  committed s' = committed s.
Proof.
  intros Hnone Hr Hli Hrun.
  pose proof (delete_receipt_cases fault receipt_id s Hnone) as H.
  rewrite Hrun in H. destruct H as (Hc & _).
  split.
  - unfold delete_receipt in Hrun.
    destruct ((pool_query_tx fault BEGIN;;;
               delete_receipt_statements fault receipt_id;;;
               pool_query_tx fault COMMIT) s) as [[[]|e] s0].
    + congruence.
    + destruct (pool_query_tx fault ROLLBACK s0) as [[[]|e'] s1]; discriminate.
  - rewrite Hc. apply receipt_deleted_absent; assumption.
Qed.

Lemma delete_absent_receipt_changes_nothing_witness :
  "Receipt deleted successfully!"%string = "Receipt deleted successfully!"%string /\
  committed (snd (delete_receipt no_faults 7 demo_server))
  = committed demo_server.
Proof.
  assert (Hrun : delete_receipt no_faults 7 demo_server
                 = (Json "Receipt deleted successfully!"%string,
                    snd (delete_receipt no_faults 7 demo_server)))
    by (vm_compute; reflexivity).
  assert (Hr : forall r, In r (receipt (committed demo_server)) ->
                         r_receipt_id r <> 7).
  { intros r [<-|[]]. cbn. lia. }
  assert (Hli : forall li, In li (line_item (committed demo_server)) ->
                           li_receipt_id li <> 7).
  { intros li [<-|[]]. cbn. lia. }
  exact (delete_absent_receipt_changes_nothing no_faults 7 demo_server _ _
           eq_refl Hr Hli Hrun).
Defined.

(** ** Checkout, then delete *)

Lemma filter_not_ANY_restore {R} (key : R -> Z)
  (f : orderItem -> Z -> list R) (old : list R) (xs : list (Z * orderItem))
  start :
  forallb (fun r => key r <? start) old = true ->
  (forall i, In i (map fst xs) -> start <= i) ->
  (forall e i r, In r (f e i) -> key r = i) ->
  filter (fun r => negb (ANY (key r) (map fst xs)))
         (old ++ flat_map (fun p => f (snd p) (fst p)) xs)
  = old.
Proof.
  intros Hold Hxs Hkey. rewrite filter_app.
  rewrite filter_keeps.
  - rewrite filter_drops; [apply app_nil_r|].
    intros r Hr. apply negb_false_iff, ANY_In.
    apply in_flat_map in Hr. destruct Hr as ([i e] & Hin & Hr).
    cbn [fst snd] in Hr. apply Hkey in Hr.
    apply in_map_iff. exists (i, e). auto.
  - intros r Hr. apply negb_true_iff, not_true_iff_false.
    rewrite ANY_In. intros Hin. apply Hxs in Hin.
    rewrite forallb_forall in Hold. apply Hold, Z.ltb_lt in Hr. lia.
Qed.

Lemma expand_ids_above orderList start i :
  In i (map fst (expand orderList start)) -> start <= i.
Proof.
  rewrite expand_fst, ids_from_In. lia.
Qed.

(** X5.  Deleting the receipt of a checkout takes back its receipt row,
    its line items and their variant rows, and nothing more: these five
    tables are again as before the checkout, while the inventory stays as
    the checkout left it. *)
Theorem checkout_then_delete_keeps_decrements
  fault fault' orderList totalPrice s receiptId s1 message s2 :
  txn s = None ->
  fresh (committed s) (seqs s) = true ->
  processOrder fault orderList totalPrice s = (Json receiptId, s1) ->
  delete_receipt fault' receiptId s1 = (Json message, s2) ->
  receipt (committed s2) = receipt (committed s) /\
  line_item (committed s2) = line_item (committed s) /\
  meal_item (committed s2) = meal_item (committed s) /\
  drink_item (committed s2) = drink_item (committed s) /\
  appetizer_item (committed s2) = appetizer_item (committed s) /\
  inventory (committed s2) = inventory (committed s1).
Proof.
  intros Hnone Hfresh Hrun Hdel.
  pose proof (processOrder_cases fault orderList totalPrice s Hnone) as H.
  rewrite Hrun in H. destruct H as (-> & Hc & _ & Ht1 & _ & _).
  pose proof (delete_receipt_cases fault' (receipt_id_seq (seqs s)) s1 Ht1) as H.
  rewrite Hdel in H. destruct H as (Hc2 & _).
  rewrite Hc2. clear Hc2 Hdel Hrun.
  unfold fresh in Hfresh. rewrite !andb_true_iff in Hfresh.
  destruct Hfresh as ((((Fr & Fli) & Fmi) & Fdi) & Fai).
  unfold checked_out in Hc. cbn [INSERT_receipt] in Hc.
  match type of Hc with
  | context [order_processed ?r orderList ?t2 ?sq2] =>
      destruct (order_processed_tables r orderList t2 sq2)
        as (I1 & I2 & I3 & I4 & I5)
  end.
  rewrite <- Hc in I1, I2, I3, I4, I5.
  cbn [set_receipt receipt line_item meal_item drink_item appetizer_item
       line_item_id_seq] in I1, I2, I3, I4, I5.
  unfold receipt_deleted.
  cbn [receipt line_item meal_item drink_item appetizer_item inventory].
  assert (Hids :
    map li_line_item_id
        (filter (fun li => li_receipt_id li =? receipt_id_seq (seqs s))
                (line_item (committed s1)))
    = map fst (expand orderList (line_item_id_seq (seqs s)))).
  { rewrite I2, filter_app.
    rewrite (filter_key_below li_receipt_id _ _ _ Fli (Z.le_refl _)).
    rewrite (filter_key_same li_receipt_id).
    - cbn [app]. rewrite map_map. reflexivity.
    - intros li Hli. apply in_map_iff in Hli.
      destruct Hli as (p & <- & _). reflexivity. }
  rewrite Hids, I1, I2, I3, I4, I5.
  repeat split.
  - rewrite filter_app. cbn [filter r_receipt_id]. rewrite Z.eqb_refl.
    cbn [negb]. rewrite app_nil_r. apply filter_keeps.
    intros r Hr. rewrite forallb_forall in Fr.
    apply Fr, Z.ltb_lt in Hr. apply negb_true_iff, Z.eqb_neq. lia.
  - rewrite filter_app, filter_keeps.
    + rewrite filter_drops; [apply app_nil_r|].
      intros li Hli. apply in_map_iff in Hli. destruct Hli as (p & <- & _).
      cbn. rewrite Z.eqb_refl. reflexivity.
    + intros li Hli. rewrite forallb_forall in Fli.
      apply Fli, Z.ltb_lt in Hli. apply negb_true_iff, Z.eqb_neq. lia.
  - apply (filter_not_ANY_restore mi_line_item_id meal_rows _ _
             (line_item_id_seq (seqs s)));
      [exact Fmi | apply expand_ids_above | exact meal_rows_key].
  - apply (filter_not_ANY_restore di_line_item_id drink_rows _ _
             (line_item_id_seq (seqs s)));
      [exact Fdi | apply expand_ids_above | exact drink_rows_key].
  - apply (filter_not_ANY_restore ai_line_item_id appetizer_rows _ _
             (line_item_id_seq (seqs s)));
      [exact Fai | apply expand_ids_above | exact appetizer_rows_key].
Qed.

(** Three drinks are checked out and the receipt is deleted: inventory
    item 12 stays at 94. *)
Lemma checkout_then_delete_keeps_decrements_witness :
  receipt (committed (snd (delete_receipt no_faults 2
             (snd (processOrder no_faults [demo_drink "Drink" (JNumber 3)] 597
                     demo_server)))))
  = receipt (committed demo_server) /\
  inventory (committed (snd (delete_receipt no_faults 2
               (snd (processOrder no_faults [demo_drink "Drink" (JNumber 3)] 597
                       demo_server)))))
  = inventory (committed (snd (processOrder no_faults
                                 [demo_drink "Drink" (JNumber 3)] 597
                                 demo_server))).
Proof.
  assert (Hrun : processOrder no_faults [demo_drink "Drink" (JNumber 3)] 597
                   demo_server
                 = (Json 2,
                    snd (processOrder no_faults [demo_drink "Drink" (JNumber 3)]
                           597 demo_server)))
    by (vm_compute; reflexivity).
  assert (Hdel : delete_receipt no_faults 2
                   (snd (processOrder no_faults [demo_drink "Drink" (JNumber 3)]
                           597 demo_server))
                 = (Json "Receipt deleted successfully!"%string,
                    snd (delete_receipt no_faults 2
                           (snd (processOrder no_faults
                                   [demo_drink "Drink" (JNumber 3)] 597
                                   demo_server)))))
    by (vm_compute; reflexivity).
  assert (Hfresh : fresh (committed demo_server) (seqs demo_server) = true)
    by (vm_compute; reflexivity).
  pose proof (checkout_then_delete_keeps_decrements no_faults no_faults _ 597
                demo_server 2 _ _ _ eq_refl Hfresh Hrun Hdel) as H.
  exact (conj (proj1 H) (proj2 (proj2 (proj2 (proj2 (proj2 H)))))).
Defined.

(** ** Replacing the line items of a receipt *)

Lemma run_put_insert_specific fault line_item_id item c t sq :
  run_in_txn fault (put_insert_specific fault line_item_id item) c t sq
    (input_well_formed item) tt
    {| receipt := receipt t;
       line_item := line_item t;
       meal_item := meal_item t ++ input_meal_rows item line_item_id;
       drink_item := drink_item t ++ input_drink_rows item line_item_id;
       appetizer_item :=
         appetizer_item t ++ input_appetizer_rows item line_item_id;
       menu := menu t;
       recipe_ingredient := recipe_ingredient t;
       ingredient := ingredient t;
       inventory := inventory t |}
    sq.
Proof.
  unfold put_insert_specific, input_well_formed, input_meal_rows,
    input_drink_rows, input_appetizer_rows.
  destruct (in_type item) as [type|].
  - destruct (String.eqb type "Meal").
    + destruct (in_meats item) as [meats|].
      * eapply run_equal; [apply run_pool_query | reflexivity |].
        intros _. destruct t. cbn. rewrite !app_nil_r. auto.
      * eapply run_equal; [apply run_throw with (a := tt) | reflexivity |].
        discriminate.
    + destruct (String.eqb type "Drink").
      * eapply run_equal; [apply run_pool_query | reflexivity |].
        intros _. destruct t, (in_meats item); cbn; rewrite !app_nil_r; auto.
      * destruct (String.eqb type "Appetizer").
        -- eapply run_equal; [apply run_pool_query | reflexivity |].
           intros _. destruct t, (in_meats item); cbn; rewrite !app_nil_r; auto.
        -- eapply run_equal; [apply run_ret | reflexivity |].
           intros _. destruct t, (in_meats item); cbn; rewrite !app_nil_r; auto.
  - eapply run_equal; [apply run_ret | reflexivity |].
    intros _. destruct t. cbn. rewrite !app_nil_r. auto.
Qed.

Lemma with_inputs_nil receipt_id t : with_inputs receipt_id [] t = t.
Proof.
  destruct t. unfold with_inputs. cbn. rewrite !app_nil_r. reflexivity.
Qed.

Lemma with_inputs_cons receipt_id p items t :
  with_inputs receipt_id items (with_inputs receipt_id [p] t)
  = with_inputs receipt_id (p :: items) t.
Proof.
  destruct t. unfold with_inputs. cbn.
  rewrite !app_nil_r, <- !app_assoc. reflexivity.
Qed.

Lemma run_put_inserts fault receipt_id items c t sq :
  run_in_txn fault
    (for_of items (fun item =>
       line_item_id <- pool_query fault
                         (INSERT_line_item receipt_id (in_price item));;
       put_insert_specific fault line_item_id item))
    c t sq (forallb input_well_formed items) tt
    (with_inputs receipt_id (numbered items (line_item_id_seq sq)) t)
    {| receipt_id_seq := receipt_id_seq sq;
       line_item_id_seq := line_item_id_seq sq + Z.of_nat (length items) |}.
Proof.
  revert t sq. induction items as [|item rest IH]; intros t sq.
  - cbn [for_of forallb]. eapply run_equal; [apply run_ret | reflexivity |].
    intros _. unfold numbered. cbn. rewrite with_inputs_nil.
    destruct sq; cbn. rewrite Z.add_0_r. auto.
  - cbn [for_of forallb]. eapply run_equal.
    + eapply run_bind.
      * eapply run_bind; [apply run_pool_query | apply run_put_insert_specific].
      * apply IH.
    + reflexivity.
    + intros _. cbn [INSERT_line_item fst snd line_item_id_seq receipt_id_seq].
      split; [reflexivity|]. split.
      * unfold numbered. cbn [length ids_from combine].
        rewrite <- with_inputs_cons. f_equal.
        destruct t. unfold with_inputs. cbn. rewrite !app_nil_r. reflexivity.
      * f_equal. cbn [length]. lia.
Qed.

Lemma run_put_replace_line_items fault receipt_id items c t sq :
  run_in_txn fault (put_replace_line_items fault receipt_id items) c t sq
    (forallb input_well_formed items) tt
    (line_items_replaced receipt_id items t sq)
    {| receipt_id_seq := receipt_id_seq sq;
       line_item_id_seq := line_item_id_seq sq + Z.of_nat (length items) |}.
Proof.
  unfold put_replace_line_items. eapply run_equal.
  - eapply run_bind; [apply run_pool_query|].
    eapply run_bind; [apply run_pool_query|].
    eapply run_bind; [apply run_pool_query|].
    eapply run_bind; [apply run_pool_query|].
    eapply run_bind; [apply run_pool_query|].
    apply run_put_inserts.
  - reflexivity.
  - intros _. unfold line_items_replaced. destruct t. cbn. auto.
Qed.

Lemma run_put_receipt_statements fault receipt_id status line_items c t sq :
  run_in_txn fault (put_receipt_statements fault receipt_id status line_items)
    c t sq
    (match line_items with
     | Some items => forallb input_well_formed items
     | None => true
     end) tt
    (match line_items with
     | Some items => line_items_replaced receipt_id items t sq
     | None => t
     end)
    (match line_items with
     | Some items =>
         {| receipt_id_seq := receipt_id_seq sq;
            line_item_id_seq := line_item_id_seq sq + Z.of_nat (length items) |}
     | None => sq
     end).
Proof.
  unfold put_receipt_statements. destruct line_items as [items|].
  - eapply run_equal.
    + eapply run_bind; [apply run_pool_query|].
      apply run_put_replace_line_items.
    + reflexivity.
    + intros _. cbn. auto.
  - eapply run_equal.
    + eapply run_bind; [apply run_pool_query | apply run_ret].
    + reflexivity.
    + intros _. cbn. auto.
Qed.

Lemma put_receipt_cases fault receipt_id status line_items s :
  txn s = None ->
  match put_receipt fault receipt_id status line_items s with
  | (Json _, s') =>
      committed s' =
        match line_items with
        | Some items =>
            line_items_replaced receipt_id items (committed s) (seqs s)
        | None => committed s
        end /\
      seqs s' =
        match line_items with
        | Some items =>
            {| receipt_id_seq := receipt_id_seq (seqs s);
               line_item_id_seq :=
                 line_item_id_seq (seqs s) + Z.of_nat (length items) |}
        | None => seqs s
        end /\
      txn s' = None /\
      match line_items with
      | Some items => forallb input_well_formed items
      | None => true
      end = true /\
      quiet fault (clock s) (clock s')
  | (ErrorJson status _, s') =>
      status = 500 /\ committed s' = committed s /\ txn s' = None /\
      (quiet_from fault (clock s) ->
       match line_items with
       | Some items => forallb input_well_formed items
       | None => true
       end = false)
  | (Unhandled _, s') =>
      committed s' = committed s /\ fault (Nat.pred (clock s')) <> None /\
      ~ quiet_from fault (clock s)
  end.
Proof.
  intros Hnone. unfold put_receipt.
  apply transaction_cases; [exact Hnone|].
  apply run_put_receipt_statements.
Qed.

(** Looking up the rows of one line item among rows inserted for a
    numbered list of items. *)
Lemma filter_flat_map_numbered {R X} (key : R -> Z) (f : X -> Z -> list R)
  (xs : list (Z * X)) id x :
  (forall x' i r, In r (f x' i) -> key r = i) ->
  NoDup (map fst xs) ->
  In (id, x) xs ->
  filter (fun r => key r =? id) (flat_map (fun p => f (snd p) (fst p)) xs)
  = f x id.
Proof.
  intros Hkey. induction xs as [|[i0 x0] xs IH]; intros Hnd Hin.
  - destruct Hin.
  - cbn [flat_map fst snd map] in *. rewrite filter_app.
    inversion Hnd as [|? ? Hnotin Hnd']; subst.
    destruct Hin as [Heq|Hin].
    + injection Heq as -> ->.
      rewrite filter_key_same by (intros r Hr; eapply Hkey; eauto).
      rewrite filter_key_other; [apply app_nil_r|].
      intros r Hr Heq. apply in_flat_map in Hr.
      destruct Hr as ([i1 x1] & Hin1 & Hr). cbn in Hr.
      apply Hkey in Hr. apply Hnotin.
      apply in_map_iff. exists (i1, x1). split; [cbn; congruence | exact Hin1].
    + assert (Hne : i0 <> id).
      { intros ->. apply Hnotin. apply in_map_iff. exists (id, x). auto. }
      rewrite filter_key_other
        by (intros r Hr Heq; apply Hkey in Hr; congruence).
      cbn. apply IH; assumption.
Qed.

Lemma numbered_fst {X} (items : list X) start :
  map fst (numbered items start) = ids_from start (length items).
Proof.
  unfold numbered. revert start.
  induction items as [|x items IH]; intros start; cbn; [reflexivity|].
  rewrite IH. reflexivity.
Qed.

Lemma numbered_In {X} (items : list X) start id x :
  In (id, x) (numbered items start) -> start <= id.
Proof.
  intros Hin. apply (in_map fst) in Hin. rewrite numbered_fst in Hin.
  apply ids_from_In in Hin. cbn in Hin. lia.
Qed.

Lemma forallb_filter {A} (f g : A -> bool) (l : list A) :
  forallb f l = true -> forallb f (filter g l) = true.
Proof.
  rewrite !forallb_forall. intros H x Hx. apply filter_In in Hx. apply H, Hx.
Qed.

Lemma input_meal_rows_key x i r :
  In r (input_meal_rows x i) -> mi_line_item_id r = i.
Proof.
  unfold input_meal_rows.
  destruct (in_type x) as [type|]; [|intros []].
  destruct (in_meats x); [|intros []].
  destruct (String.eqb type "Meal"); [|intros []].
  intros [<-|[]]. reflexivity.
Qed.

Lemma input_drink_rows_key x i r :
  In r (input_drink_rows x i) -> di_line_item_id r = i.
Proof.
  unfold input_drink_rows.
  destruct (in_type x) as [type|]; [|intros []].
  destruct (String.eqb type "Meal"); [intros []|].
  destruct (String.eqb type "Drink"); [|intros []].
  intros [<-|[]]. reflexivity.
Qed.

Lemma input_appetizer_rows_key x i r :
  In r (input_appetizer_rows x i) -> ai_line_item_id r = i.
Proof.
  unfold input_appetizer_rows.
  destruct (in_type x) as [type|]; [|intros []].
  destruct (String.eqb type "Meal"); [intros []|].
  destruct (String.eqb type "Drink"); [intros []|].
  destruct (String.eqb type "Appetizer"); [|intros []].
  intros [<-|[]]. reflexivity.
Qed.

Lemma item_json_expected_input t receipt_id item id :
  input_well_formed item = true ->
  filter (fun mi => mi_line_item_id mi =? id) (meal_item t)
  = input_meal_rows item id ->
  filter (fun ai => ai_line_item_id ai =? id) (appetizer_item t)
  = input_appetizer_rows item id ->
  filter (fun di => di_line_item_id di =? id) (drink_item t)
  = input_drink_rows item id ->
  item_json t (input_line_item receipt_id item id) = expected_input_json item id.
Proof.
  intros Hwf Hm Ha Hd. unfold item_json.
  cbn [input_line_item li_line_item_id li_price]. rewrite Hm, Ha, Hd.
  revert Hwf.
  unfold input_well_formed, input_meal_rows, input_appetizer_rows,
    input_drink_rows, expected_input_json.
  destruct (in_type item) as [type|]; [|reflexivity].
  destruct (String.eqb type "Meal").
  - destruct (in_meats item) as [meats|]; [|discriminate].
    intros _. cbn [mi_size mi_meat1 mi_meat2 mi_meat3 mi_side].
    rewrite filter_Boolean_entrees. reflexivity.
  - intros _. destruct (in_meats item);
      (destruct (String.eqb type "Drink"); [reflexivity|]);
      destruct (String.eqb type "Appetizer"); reflexivity.
Qed.

(** Fetching a receipt whose line items were just replaced. *)
Lemma fetch_replaced receipt_id items t sq s r rest :
  view s = line_items_replaced receipt_id items t sq ->
  fresh t sq = true ->
  forallb input_well_formed items = true ->
  filter (fun r => r_receipt_id r =? receipt_id) (receipt t) = r :: rest ->
  exists s2,
    get_receipt no_faults receipt_id s
    = (Json {| rj_receipt_id := r_receipt_id r;
               rj_totalamount := r_totalamount r;
               rj_line_items :=
                 map (fun p => expected_input_json (snd p) (fst p))
                     (numbered items (line_item_id_seq sq)) |},
       s2).
Proof.
  intros Hview Hfresh Hwf Hr.
  destruct (get_receipt_quiet receipt_id s) as (s2 & Hget).
  exists s2. rewrite Hget, Hview. clear Hget.
  unfold fresh in Hfresh. rewrite !andb_true_iff in Hfresh.
  destruct Hfresh as ((((Fr & Fli) & Fmi) & Fdi) & Fai).
  set (t' := line_items_replaced receipt_id items t sq).
  assert (I1 : receipt t' = receipt t) by reflexivity.
  assert (I2 : line_item t' =
               filter (fun li => negb (li_receipt_id li =? receipt_id))
                      (line_item t)
               ++ map (fun p => input_line_item receipt_id (snd p) (fst p))
                      (numbered items (line_item_id_seq sq))) by reflexivity.
  assert (I3 : exists old,
               meal_item t' = old
                 ++ flat_map (fun p => input_meal_rows (snd p) (fst p))
                             (numbered items (line_item_id_seq sq)) /\
               forallb (fun mi => mi_line_item_id mi <? line_item_id_seq sq) old
               = true).
  { eexists. split; [reflexivity|]. apply forallb_filter. exact Fmi. }
  assert (I4 : exists old,
               drink_item t' = old
                 ++ flat_map (fun p => input_drink_rows (snd p) (fst p))
                             (numbered items (line_item_id_seq sq)) /\
               forallb (fun di => di_line_item_id di <? line_item_id_seq sq) old
               = true).
  { eexists. split; [reflexivity|]. apply forallb_filter. exact Fdi. }
  assert (I5 : exists old,
               appetizer_item t' = old
                 ++ flat_map (fun p => input_appetizer_rows (snd p) (fst p))
                             (numbered items (line_item_id_seq sq)) /\
               forallb (fun ai => ai_line_item_id ai <? line_item_id_seq sq) old
               = true).
  { eexists. split; [reflexivity|]. apply forallb_filter. exact Fai. }
  destruct I3 as (oldm & I3 & Om), I4 as (oldd & I4 & Od),
    I5 as (olda & I5 & Oa).
  clearbody t'. rewrite I1, Hr, I2, filter_app.
  rewrite (filter_drops (fun li => li_receipt_id li =? receipt_id)
             (filter _ (line_item t))).
  2:{ intros li Hli. apply filter_other_key_In in Hli.
      apply Z.eqb_neq. tauto. }
  rewrite (filter_key_same li_receipt_id).
  2:{ intros li Hli. apply in_map_iff in Hli.
      destruct Hli as (p & <- & _). reflexivity. }
  cbn [app]. do 3 f_equal. rewrite map_map. apply map_ext_in.
  intros [id item] Hin. cbn [fst snd].
  pose proof (numbered_In _ _ _ _ Hin) as Hle.
  assert (Hnd : NoDup (map fst (numbered items (line_item_id_seq sq)))).
  { rewrite numbered_fst. apply NoDup_ids_from. }
  apply item_json_expected_input.
  - rewrite forallb_forall in Hwf. apply Hwf.
    unfold numbered in Hin. apply in_combine_r in Hin. exact Hin.
  - rewrite I3, filter_app, (filter_key_below mi_line_item_id _ _ _ Om Hle).
    apply (filter_flat_map_numbered mi_line_item_id input_meal_rows);
      [exact input_meal_rows_key | exact Hnd | exact Hin].
  - rewrite I5, filter_app, (filter_key_below ai_line_item_id _ _ _ Oa Hle).
    apply (filter_flat_map_numbered ai_line_item_id input_appetizer_rows);
      [exact input_appetizer_rows_key | exact Hnd | exact Hin].
  - rewrite I4, filter_app, (filter_key_below di_line_item_id _ _ _ Od Hle).
    apply (filter_flat_map_numbered di_line_item_id input_drink_rows);
      [exact input_drink_rows_key | exact Hnd | exact Hin].
Qed.

(** ** The fetch route only reads *)

Lemma same_database_refl s : same_database s s.
Proof. repeat split. Qed.

Lemma same_database_trans s1 s2 s3 :
  same_database s1 s2 -> same_database s2 s3 -> same_database s1 s3.
Proof.
  unfold same_database. intros (H1 & H2 & H3) (H4 & H5 & H6).
  repeat split; congruence.
Qed.

Lemma bind_same {A B} (m : M A) (f : A -> M B) :
  (forall s, same_database s (snd (m s))) ->
  (forall a s, same_database s (snd (f a s))) ->
  forall s, same_database s (snd (bind m f s)).
Proof.
  intros Hm Hf s. unfold bind. specialize (Hm s).
  destruct (m s) as [[a|e] s1]; cbn [snd] in *.
  - eapply same_database_trans; [exact Hm | apply Hf].
  - exact Hm.
Qed.

Lemma pool_query_read_same fault {A} (rows : tables -> A) s :
  same_database s (snd (pool_query fault (fun t sq => (rows t, t, sq)) s)).
Proof.
  rewrite pool_query_read. destruct (fault (clock s)); repeat split.
Qed.

Lemma item_details_same fault li s :
  same_database s (snd (item_details fault li s)).
Proof.
  unfold item_details. revert s. apply bind_same.
  - intros s. apply pool_query_read_same.
  - intros [|mi ?] s; [|apply same_database_refl].
    revert s. apply bind_same.
    + intros s. apply pool_query_read_same.
    + intros [|ai ?] s; [|apply same_database_refl].
      revert s. apply bind_same.
      * intros s. apply pool_query_read_same.
      * intros [|di ?] s; apply same_database_refl.
Qed.

Lemma for_lineItems_same fault lineItems items s :
  same_database s (snd (for_lineItems fault lineItems items s)).
Proof.
  revert items s. induction lineItems as [|li rest IH]; intros items s.
  - apply same_database_refl.
  - cbn [for_lineItems]. revert s. apply bind_same.
    + intros s. apply item_details_same.
    + intros j s. apply IH.
Qed.

Lemma get_receipt_never_writes_lemma fault receipt_id s :
  committed (snd (get_receipt fault receipt_id s)) = committed s /\
  txn (snd (get_receipt fault receipt_id s)) = txn s /\
  seqs (snd (get_receipt fault receipt_id s)) = seqs s.
Proof.
  assert (H : same_database s (snd (get_receipt_try fault receipt_id s))).
  { unfold get_receipt_try. revert s. apply bind_same.
    - intros s. apply pool_query_read_same.
    - intros [|r ?] s; [apply same_database_refl|].
      revert s. apply bind_same.
      + intros s. apply pool_query_read_same.
      + intros lineItems s. revert s. apply bind_same.
        * intros s. apply for_lineItems_same.
        * intros items s. apply same_database_refl. }
  unfold get_receipt.
  destruct (get_receipt_try fault receipt_id s) as [[[body|]|e] s']; exact H.
Qed.

(** X6.  The fetch route never writes: whatever calls are rejected and
    whatever it answers (200, 404 or 500), the committed tables, the open
    transaction and the sequences are those before the request, so a
    second fetch with no rejected call gives the answer a first one
    would. *)
Theorem get_receipt_never_writes fault receipt_id s :
  committed (snd (get_receipt fault receipt_id s)) = committed s /\
  txn (snd (get_receipt fault receipt_id s)) = txn s /\
  seqs (snd (get_receipt fault receipt_id s)) = seqs s /\
  fst (get_receipt no_faults receipt_id (snd (get_receipt fault receipt_id s)))
  = fst (get_receipt no_faults receipt_id s).
Proof.
  destruct (get_receipt_never_writes_lemma fault receipt_id s) as (Hc & Ht & Hs).
  repeat split; try assumption.
  destruct (get_receipt_quiet receipt_id s) as (s1 & H1).
  destruct (get_receipt_quiet receipt_id (snd (get_receipt fault receipt_id s)))
    as (s2 & H2).
  rewrite H1, H2. cbn [fst]. unfold view. rewrite Hc, Ht. reflexivity.
Qed.

(** X7.  Fetching an id that no receipt row carries answers 404 after a
    single query, when that query is not rejected. *)
Theorem get_receipt_absent fault receipt_id s :
  fault (clock s) = None ->
  (forall r, In r (receipt (view s)) -> r_receipt_id r <> receipt_id) ->
  get_receipt fault receipt_id s
  = (ErrorJson 404 "Receipt not found", tick s).
Proof.
  intros Hf Habsent. unfold get_receipt, get_receipt_try, bind, SELECT_receipt.
  rewrite pool_query_read, Hf.
  rewrite (filter_drops (fun r => r_receipt_id r =? receipt_id)).
  - reflexivity.
  - intros r Hr. apply Z.eqb_neq. auto.
Qed.

Lemma get_receipt_absent_witness :
  get_receipt no_faults 7 demo_server
  = (ErrorJson 404 "Receipt not found", tick demo_server).
Proof.
  assert (Hr : forall r, In r (receipt (view demo_server)) ->
                         r_receipt_id r <> 7).
  { intros r [<-|[]]. cbn. lia. }
  exact (get_receipt_absent no_faults 7 demo_server eq_refl Hr).
Defined.

(** ** The update route *)

(** Without a [line_items] array the route issues three calls: [BEGIN],
    the status update and [COMMIT]. *)
Lemma put_receipt_status_only fault receipt_id status s message s' :
  put_receipt fault receipt_id status None s = (Json message, s') ->
  clock s' = S (S (S (clock s))).
Proof.
  unfold put_receipt, put_receipt_statements, bind, pool_query_tx, pool_query,
    UPDATE_receipt_status, ret.
  destruct (fault (clock s)); cbn.
  { destruct (fault (S (clock s))); discriminate. }
  destruct (fault (S (clock s))); cbn.
  { destruct (fault (S (S (clock s)))); discriminate. }
  destruct (fault (S (S (clock s)))); cbn.
  { destruct (fault (S (S (S (clock s))))); discriminate. }
  intros [= _ <-]. reflexivity.
Qed.

(** X8.  The update route is atomic and replaces all line items of the
    receipt.  It answers 200 only if no call was rejected and no Meal item
    has a [meats] that is absent or [null], and then the line items and
    variant rows of the receipt are exactly those of the submitted items,
    inserted in order under fresh consecutive ids, while the rows of other
    receipts stay.  Without a [line_items] array the route still issues
    its status update between [BEGIN] and [COMMIT], which writes the status
    of the receipt only, a column the tables here do not carry: no receipt
    id or total, line item, variant row or stock row changes.
    When the route does not answer 200, the committed tables are those
    before the request and the answer is 500 (no answer when the rollback
    itself is rejected). *)
Theorem put_receipt_atomic fault receipt_id status line_items s :
  txn s = None ->
  match put_receipt fault receipt_id status line_items s with
  | (Json _, s') =>
      committed s' =
        match line_items with
        | Some items =>
            line_items_replaced receipt_id items (committed s) (seqs s)
        | None => committed s
        end /\
      (forall items, line_items = Some items ->
         forallb input_well_formed items = true /\
         line_item (committed s') =
           filter (fun li => negb (li_receipt_id li =? receipt_id))
                  (line_item (committed s))
           ++ map (fun p => input_line_item receipt_id (snd p) (fst p))
                  (numbered items (line_item_id_seq (seqs s)))) /\
      (line_items = None -> clock s' = S (S (S (clock s)))) /\
      txn s' = None /\ quiet fault (clock s) (clock s')
  | (ErrorJson status _, s') =>
      status = 500 /\ committed s' = committed s /\ txn s' = None
  | (Unhandled _, s') =>
      committed s' = committed s /\ fault (Nat.pred (clock s')) <> None
  end.
Proof.
  intros Hnone.
  pose proof (put_receipt_cases fault receipt_id status line_items s Hnone) as H.
  destruct (put_receipt fault receipt_id status line_items s)
    as [[message|st e|e] s'] eqn:Hrun.
  - destruct H as (Hc & _ & Ht & Hwf & Hq).
    split; [exact Hc|]. split; [|split; [|auto]].
    + intros items ->. split; [exact Hwf|]. rewrite Hc. reflexivity.
    + intros ->. eapply put_receipt_status_only. exact Hrun.
  - destruct H as (Hs & Hc & Ht & _). auto.
  - destruct H as (Hc & Hf & _). auto.
Qed.

Lemma put_receipt_atomic_witness :
  match put_receipt no_faults 1 (Some "Cancelled"%string)
          (Some [json_input (AppetizerJson 1 (Some "Egg Roll"%string) 200)])
          demo_server with
  | (Json _, s') =>
      committed s' =
        line_items_replaced 1
          [json_input (AppetizerJson 1 (Some "Egg Roll"%string) 200)]
          (committed demo_server) (seqs demo_server) /\
      (forall items,
         Some [json_input (AppetizerJson 1 (Some "Egg Roll"%string) 200)]
         = Some items ->
         forallb input_well_formed items = true /\
         line_item (committed s') =
           filter (fun li => negb (li_receipt_id li =? 1))
                  (line_item (committed demo_server))
           ++ map (fun p => input_line_item 1 (snd p) (fst p))
                  (numbered items (line_item_id_seq (seqs demo_server)))) /\
      (Some [json_input (AppetizerJson 1 (Some "Egg Roll"%string) 200)] = None ->
       clock s' = S (S (S (clock demo_server)))) /\
      txn s' = None /\ quiet no_faults (clock demo_server) (clock s')
  | (ErrorJson status _, s') =>
      status = 500 /\ committed s' = committed demo_server /\ txn s' = None
  | (Unhandled _, s') =>
      committed s' = committed demo_server /\
      no_faults (Nat.pred (clock s')) <> None
  end.
Proof.
  exact (put_receipt_atomic no_faults 1 (Some "Cancelled"%string)
           (Some [json_input (AppetizerJson 1 (Some "Egg Roll"%string) 200)])
           demo_server eq_refl).
Defined.

(** X9.  Editing a receipt never touches the stock or the totals: whatever
    the outcome of the update route, the inventory, the menu, the recipes
    and the receipt rows (ids and total amounts) are those before the
    request, whatever the prices of the submitted items. *)
Theorem put_receipt_keeps_inventory_and_totals
  fault receipt_id status line_items s :
  txn s = None ->
  inventory (committed (snd (put_receipt fault receipt_id status line_items s)))
  = inventory (committed s) /\
  receipt (committed (snd (put_receipt fault receipt_id status line_items s)))
  = receipt (committed s) /\
  menu (committed (snd (put_receipt fault receipt_id status line_items s)))
  = menu (committed s) /\
  recipe_ingredient
    (committed (snd (put_receipt fault receipt_id status line_items s)))
  = recipe_ingredient (committed s) /\
  ingredient (committed (snd (put_receipt fault receipt_id status line_items s)))
  = ingredient (committed s).
Proof.
  intros Hnone.
  pose proof (put_receipt_cases fault receipt_id status line_items s Hnone) as H.
  destruct (put_receipt fault receipt_id status line_items s)
    as [[message|st e|e] s']; cbn [snd].
  - destruct H as (Hc & _). rewrite Hc.
    destruct line_items; repeat split; reflexivity.
  - destruct H as (_ & Hc & _). rewrite Hc. repeat split; reflexivity.
  - destruct H as (Hc & _). rewrite Hc. repeat split; reflexivity.
Qed.

Lemma put_receipt_keeps_inventory_and_totals_witness :
  inventory (committed (snd (put_receipt no_faults 1 None
               (Some [json_input (AppetizerJson 1 (Some "Egg Roll"%string) 200)])
               demo_server)))
  = inventory (committed demo_server).
Proof.
  exact (proj1 (put_receipt_keeps_inventory_and_totals no_faults 1 None
                  (Some [json_input
                           (AppetizerJson 1 (Some "Egg Roll"%string) 200)])
                  demo_server eq_refl)).
Defined.

(** X10.  A Meal item whose [meats] is absent or [null] makes the update
    route fail even when the database rejects nothing: the answer is never
    200 and nothing is committed.  These are the only values of [meats]
    that do so: an array, a string, a number or a boolean is indexed
    without an error, and without a rejected call a list of such items is
    accepted. *)
Theorem put_receipt_meal_without_meats fault receipt_id status items s :
  txn s = None ->
  (forall item v, in_meats item = indices v ->
     (input_well_formed item = false <->
      in_type item = Some "Meal"%string /\ (v = VUndefined \/ v = VNull))) /\
  (forallb input_well_formed items = false ->
   committed (snd (put_receipt fault receipt_id status (Some items) s))
   = committed s /\
   forall message,
     fst (put_receipt fault receipt_id status (Some items) s) <> Json message) /\
  (forallb input_well_formed items = true ->
   quiet_from fault (clock s) ->
   exists message s',
     put_receipt fault receipt_id status (Some items) s = (Json message, s')).
Proof.
  intros Hnone. split; [|split].
  - intros item v Hv. unfold input_well_formed. rewrite Hv.
    destruct (in_type item) as [type|].
    2:{ split; [discriminate | intros [H _]; discriminate]. }
    destruct (String.eqb_spec type "Meal") as [->|Hne].
    + destruct v; cbn; split; intros H; try discriminate; auto;
        destruct H as (_ & [H | H]); discriminate.
    + split; [discriminate | intros [H _]; congruence].
  - intros Hbad.
    pose proof (put_receipt_cases fault receipt_id status (Some items) s Hnone)
      as H.
    destruct (put_receipt fault receipt_id status (Some items) s)
      as [[message|st e|e] s']; cbn [fst snd].
    + destruct H as (_ & _ & _ & Hwf & _). congruence.
    + destruct H as (_ & Hc & _). split; [exact Hc | discriminate].
    + destruct H as (Hc & _). split; [exact Hc | discriminate].
  - intros Hwf Hq.
    pose proof (put_receipt_cases fault receipt_id status (Some items) s Hnone)
      as H.
    destruct (put_receipt fault receipt_id status (Some items) s)
      as [[message|st e|e] s'].
    + eauto.
    + destruct H as (_ & _ & _ & Hbad). rewrite (Hbad Hq) in Hwf. discriminate.
    + destruct H as (_ & _ & Hnq). contradiction.
Qed.

(** A meal with [meats: null] is refused; a meal whose [meats] is the text
    "Orange Chicken" is accepted, its first three characters being stored
    as the meats. *)
Lemma put_receipt_meal_without_meats_witness :
  committed (snd (put_receipt no_faults 1 None
               (Some [{| in_type := Some "Meal"%string; in_name := None;
                         in_size := None; in_price := 849;
                         in_meats := indices VNull;
                         in_side := Some "Fried Rice"%string |}])
               demo_server))
  = committed demo_server /\
  (exists message s',
     put_receipt no_faults 1 None
       (Some [{| in_type := Some "Meal"%string; in_name := None;
                 in_size := None; in_price := 849;
                 in_meats := indices (VString "Orange Chicken");
                 in_side := Some "Fried Rice"%string |}])
       demo_server = (Json message, s')) /\
  In {| mi_line_item_id := 2; mi_size := None; mi_price := 849;
        mi_meat1 := Some "O"%string; mi_meat2 := Some "r"%string;
        mi_meat3 := Some "a"%string; mi_side := Some "Fried Rice"%string |}
     (meal_item (committed (snd (put_receipt no_faults 1 None
        (Some [{| in_type := Some "Meal"%string; in_name := None;
                  in_size := None; in_price := 849;
                  in_meats := indices (VString "Orange Chicken");
                  in_side := Some "Fried Rice"%string |}])
        demo_server)))).
Proof.
  split; [|split].
  - exact (proj1 (proj1 (proj2 (put_receipt_meal_without_meats no_faults 1 None
                    [{| in_type := Some "Meal"%string; in_name := None;
                        in_size := None; in_price := 849;
                        in_meats := indices VNull;
                        in_side := Some "Fried Rice"%string |}]
                    demo_server eq_refl)) eq_refl)).
  - exact (proj2 (proj2 (put_receipt_meal_without_meats no_faults 1 None
                    [{| in_type := Some "Meal"%string; in_name := None;
                        in_size := None; in_price := 849;
                        in_meats := indices (VString "Orange Chicken");
                        in_side := Some "Fried Rice"%string |}]
                    demo_server eq_refl)) eq_refl (quiet_from_no_faults _)).
  - vm_compute. tauto.
Defined.

(** ** Update, then fetch *)

(** X11.  After the update route answered 200 for an existing receipt, on
    tables whose serial ids are below the sequences, fetching the receipt
    shows its old total and, in order, one line item per submitted item
    under fresh consecutive ids: a Meal with the item's size, side and
    price and the non-empty names among its first three meats, a Drink
    with its name and its size or "Regular", an Appetizer with its name,
    and "Unknown" for every other type. *)
Theorem put_then_fetch fault receipt_id status items s r rest message s1 :
  txn s = None ->
  fresh (committed s) (seqs s) = true ->
  filter (fun r => r_receipt_id r =? receipt_id) (receipt (committed s))
  = r :: rest ->
  put_receipt fault receipt_id status (Some items) s = (Json message, s1) ->
  exists s2,
    get_receipt no_faults receipt_id s1
    = (Json {| rj_receipt_id := r_receipt_id r;
               rj_totalamount := r_totalamount r;
               rj_line_items :=
                 map (fun p => expected_input_json (snd p) (fst p))
                     (numbered items (line_item_id_seq (seqs s))) |},
       s2).
Proof.
  intros Hnone Hfresh Hr Hrun.
  pose proof (put_receipt_cases fault receipt_id status (Some items) s Hnone)
    as H.
  rewrite Hrun in H. destruct H as (Hc & _ & Ht & Hwf & _).
  apply (fetch_replaced receipt_id items (committed s) (seqs s) s1 r rest);
    try assumption.
  unfold view. rewrite Ht. exact Hc.
Qed.

Lemma put_then_fetch_witness :
  exists s2,
    get_receipt no_faults 1
      (snd (put_receipt no_faults 1 None
              (Some [json_input (AppetizerJson 1 (Some "Egg Roll"%string) 200);
                     json_input (UnknownJson 1 5)])
              demo_server))
    = (Json {| rj_receipt_id := 1;
               rj_totalamount := 500;
               rj_line_items :=
                 map (fun p => expected_input_json (snd p) (fst p))
                     (numbered
                        [json_input (AppetizerJson 1 (Some "Egg Roll"%string) 200);
                         json_input (UnknownJson 1 5)]
                        (line_item_id_seq (seqs demo_server))) |},
       s2).
Proof.
  assert (Hrun : put_receipt no_faults 1 None
                   (Some [json_input
                            (AppetizerJson 1 (Some "Egg Roll"%string) 200);
                          json_input (UnknownJson 1 5)])
                   demo_server
                 = (Json "Receipt updated successfully!"%string,
                    snd (put_receipt no_faults 1 None
                           (Some [json_input
                                    (AppetizerJson 1 (Some "Egg Roll"%string) 200);
                                  json_input (UnknownJson 1 5)])
                           demo_server)))
    by (vm_compute; reflexivity).
  assert (Hfresh : fresh (committed demo_server) (seqs demo_server) = true)
    by (vm_compute; reflexivity).
  exact (put_then_fetch no_faults 1 None _ demo_server
           {| r_receipt_id := 1; r_totalamount := 500 |} [] _ _
           eq_refl Hfresh eq_refl Hrun).
Defined.

(** ** Fetch, update with the fetched items, fetch again *)

Lemma for_lineItems_return fault lineItems items s out s' :
  for_lineItems fault lineItems items s = (Return out, s') ->
  out = items ++ map (item_json (view s)) lineItems.
Proof.
  revert items s. induction lineItems as [|li rest IH]; intros items s Hrun.
  - cbn in Hrun. injection Hrun as <- _. rewrite app_nil_r. reflexivity.
  - cbn [for_lineItems] in Hrun. unfold bind in Hrun.
    pose proof (item_details_cases fault li s) as H.
    pose proof (item_details_same fault li s) as Hsame.
    destruct (item_details fault li s) as [[j|e] s1]; [|discriminate].
    destruct H as (-> & _). cbn [snd] in Hsame.
    destruct Hsame as (Hc & Ht & _).
    apply IH in Hrun. rewrite Hrun, <- app_assoc. cbn [map app].
    unfold view. rewrite Hc, Ht. reflexivity.
Qed.

(** What a 200 answer of the fetch route carries, for any oracle. *)
Lemma get_receipt_json fault receipt_id s body s' :
  get_receipt fault receipt_id s = (Json body, s') ->
  exists r rest,
    filter (fun r => r_receipt_id r =? receipt_id) (receipt (view s))
    = r :: rest /\
    body = {| rj_receipt_id := r_receipt_id r;
              rj_totalamount := r_totalamount r;
              rj_line_items :=
                map (item_json (view s))
                    (filter (fun li => li_receipt_id li =? receipt_id)
                            (line_item (view s))) |}.
Proof.
  unfold get_receipt, get_receipt_try, bind, SELECT_receipt, SELECT_line_items.
  rewrite pool_query_read.
  destruct (fault (clock s)); [discriminate|].
  destruct (filter _ (receipt (view s))) as [|r rest]; [discriminate|].
  rewrite pool_query_read.
  destruct (fault (clock (tick s))); [discriminate|].
  change (view (tick s)) with (view s).
  destruct (for_lineItems fault _ [] (tick (tick s))) as [[items|e] s1] eqn:Hloop;
    [|discriminate].
  apply for_lineItems_return in Hloop.
  change (view (tick (tick s))) with (view s) in Hloop.
  intros Heq. injection Heq as <- _. exists r, rest. split; [reflexivity|].
  rewrite Hloop. reflexivity.
Qed.

Lemma filter_Boolean_idempotent l :
  filter_Boolean (map Some (filter_Boolean l)) = filter_Boolean l.
Proof.
  induction l as [|[x|] l IH]; cbn; [reflexivity| |exact IH].
  destruct (String.eqb x "") eqn:Hx; [exact IH|].
  cbn. rewrite Hx, IH. reflexivity.
Qed.

Lemma filter_Boolean_length l :
  (length (filter_Boolean l) <= length l)%nat.
Proof.
  induction l as [|[x|] l IH]; cbn; [lia| |lia].
  destruct (String.eqb x ""); cbn; lia.
Qed.

Lemma filter_Boolean_again a b c :
  filter_Boolean (firstn 3 (map Some (filter_Boolean [a; b; c])))
  = filter_Boolean [a; b; c].
Proof.
  rewrite firstn_all2.
  - apply filter_Boolean_idempotent.
  - rewrite length_map.
    pose proof (filter_Boolean_length [a; b; c]) as H. cbn in H. exact H.
Qed.

(** A fetched item sent back to the update route is shown again as it
    was, under its new id. *)
Lemma expected_input_json_fetched t li id :
  input_well_formed (json_input (item_json t li)) = true /\
  expected_input_json (json_input (item_json t li)) id
  = renumbered (item_json t li) id.
Proof.
  unfold item_json.
  destruct (filter _ (meal_item t)) as [|mi ?].
  - destruct (filter _ (appetizer_item t)) as [|ai ?].
    + destruct (filter _ (drink_item t)) as [|di ?]; split; reflexivity.
    + split; reflexivity.
  - split; [reflexivity|].
    unfold expected_input_json, json_input, renumbered.
    cbn [in_type in_meats in_size in_side in_price String.eqb].
    change (String.eqb "Meal" "Meal") with true. cbn iota.
    rewrite filter_Boolean_again. reflexivity.
Qed.

Lemma numbered_map {X Y} (f : X -> Y) (items : list X) start :
  numbered (map f items) start
  = map (fun p => (fst p, f (snd p))) (numbered items start).
Proof.
  unfold numbered. rewrite length_map. revert start.
  induction items as [|x items IH]; intros start; cbn; [reflexivity|].
  rewrite IH. reflexivity.
Qed.

(** X12.  Round trip of a receipt through its editor.  Fetch a receipt,
    send its line items back unchanged through the update route, and fetch
    again: when both fetches and the update answer 200, on tables whose
    serial ids are below the sequences, the second fetch shows the same
    receipt id and total and the same line items in the same order, each
    with the same type, names, meats, side and price, under fresh
    consecutive ids, a missing or empty drink size being shown as
    "Regular". *)
Theorem fetch_update_fetch_round_trip
  fault0 fault receipt_id status s body s0 message s1 :
  txn s = None ->
  fresh (committed s) (seqs s) = true ->
  get_receipt fault0 receipt_id s = (Json body, s0) ->
  put_receipt fault receipt_id status
    (Some (map json_input (rj_line_items body))) s0 = (Json message, s1) ->
  exists s2,
    get_receipt no_faults receipt_id s1
    = (Json {| rj_receipt_id := rj_receipt_id body;
               rj_totalamount := rj_totalamount body;
               rj_line_items :=
                 map (fun p => renumbered (snd p) (fst p))
                     (numbered (rj_line_items body)
                               (line_item_id_seq (seqs s))) |},
       s2).
Proof.
  intros Hnone Hfresh Hget Hput.
  destruct (get_receipt_never_writes_lemma fault0 receipt_id s) as (Hc0 & Ht0 & Hs0).
  rewrite Hget in Hc0, Ht0, Hs0. cbn [snd] in Hc0, Ht0, Hs0.
  apply get_receipt_json in Hget. destruct Hget as (r & rest & Hr & Hbody).
  assert (Hview : view s = committed s) by (unfold view; rewrite Hnone; reflexivity).
  rewrite Hview in Hr, Hbody.
  assert (Hnone0 : txn s0 = None) by congruence.
  pose proof (put_receipt_cases fault receipt_id status
                (Some (map json_input (rj_line_items body))) s0 Hnone0) as H.
  rewrite Hput in H. destruct H as (Hc & _ & Ht & Hwf & _).
  rewrite Hc0, Hs0 in Hc.
  destruct (fetch_replaced receipt_id (map json_input (rj_line_items body))
              (committed s) (seqs s) s1 r rest) as (s2 & Hfetch);
    try assumption.
  { unfold view. rewrite Ht. exact Hc. }
  exists s2. rewrite Hfetch. do 2 f_equal.
  rewrite Hbody. cbn [rj_receipt_id rj_totalamount rj_line_items]. f_equal.
  rewrite numbered_map, map_map. apply map_ext_in.
  intros [id j] Hin. cbn [fst snd].
  unfold numbered in Hin. apply in_combine_r in Hin.
  apply in_map_iff in Hin. destruct Hin as (li & <- & _).
  apply expected_input_json_fetched.
Qed.

Lemma fetch_update_fetch_round_trip_witness :
  exists s2,
    get_receipt no_faults 1
      (snd (put_receipt no_faults 1 (Some "Fulfilled"%string)
              (Some (map json_input
                       [DrinkJson 1 (Some "Small Drink"%string)
                          (Some "Regular"%string) 500]))
              (tick (tick (tick (tick (tick demo_server)))))))
    = (Json {| rj_receipt_id := 1;
               rj_totalamount := 500;
               rj_line_items :=
                 map (fun p => renumbered (snd p) (fst p))
                     (numbered
                        [DrinkJson 1 (Some "Small Drink"%string)
                           (Some "Regular"%string) 500]
                        (line_item_id_seq (seqs demo_server))) |},
       s2).
Proof.
  assert (Hget : get_receipt no_faults 1 demo_server
                 = (Json {| rj_receipt_id := 1; rj_totalamount := 500;
                            rj_line_items :=
                              [DrinkJson 1 (Some "Small Drink"%string)
                                 (Some "Regular"%string) 500] |},
                    tick (tick (tick (tick (tick demo_server))))))
    by (vm_compute; reflexivity).
  assert (Hput : put_receipt no_faults 1 (Some "Fulfilled"%string)
                   (Some (map json_input
                            [DrinkJson 1 (Some "Small Drink"%string)
                               (Some "Regular"%string) 500]))
                   (tick (tick (tick (tick (tick demo_server)))))
                 = (Json "Receipt updated successfully!"%string,
                    snd (put_receipt no_faults 1 (Some "Fulfilled"%string)
                           (Some (map json_input
                                    [DrinkJson 1 (Some "Small Drink"%string)
                                       (Some "Regular"%string) 500]))
                           (tick (tick (tick (tick (tick demo_server))))))))
    by (vm_compute; reflexivity).
  assert (Hfresh : fresh (committed demo_server) (seqs demo_server) = true)
    by (vm_compute; reflexivity).
  exact (fetch_update_fetch_round_trip no_faults no_faults 1
           (Some "Fulfilled"%string) demo_server
           {| rj_receipt_id := 1; rj_totalamount := 500;
              rj_line_items :=
                [DrinkJson 1 (Some "Small Drink"%string)
                   (Some "Regular"%string) 500] |}
           _ _ _ eq_refl Hfresh Hget Hput).
Defined.

(** ** The inventory after a whole order *)

Lemma flat_map_inventory_ids (a q : Z) (rows : list inventory_row) :
  flat_map (fun inv =>
              if a =? inv_inventory_id inv
              then [(inv_inventory_id inv, q)]
              else [])
           rows
  = flat_map (fun id => if a =? id then [(id, q)] else [])
             (map inv_inventory_id rows).
Proof.
  rewrite flat_map_map. reflexivity.
Qed.

(** The ingredient query reads the inventory ids only, not the
    quantities. *)
Lemma ingredient_join_same_ids p t t' :
  menu t' = menu t ->
  recipe_ingredient t' = recipe_ingredient t ->
  ingredient t' = ingredient t ->
  map inv_inventory_id (inventory t') = map inv_inventory_id (inventory t) ->
  ingredient_join p t' = ingredient_join p t.
Proof.
  intros Hm Hri Hi Hinv. unfold ingredient_join. rewrite Hm, Hri, Hi.
  apply flat_map_ext. intros m. destruct (p (m_name m)); [|reflexivity].
  apply flat_map_ext. intros ri.
  destruct (m_menu_id m =? ri_recipe_id ri); [|reflexivity].
  apply flat_map_ext. intros i.
  destruct (ri_ingredient_id ri =? i_ingredient_id i); [|reflexivity].
  rewrite !flat_map_inventory_ids, Hinv. reflexivity.
Qed.

Lemma ingredientList_of_same_ids e t t' :
  menu t' = menu t ->
  recipe_ingredient t' = recipe_ingredient t ->
  ingredient t' = ingredient t ->
  map inv_inventory_id (inventory t') = map inv_inventory_id (inventory t) ->
  ingredientList_of e t' = ingredientList_of e t.
Proof.
  intros Hm Hri Hi Hinv. unfold ingredientList_of.
  destruct (type_is e "Meal").
  - destruct (oi_entrees e); [|reflexivity].
    apply ingredient_join_same_ids; assumption.
  - apply ingredient_join_same_ids; assumption.
Qed.

Lemma order_required_cons e rest t id :
  order_required (e :: rest) t id
  = required (ingredientList_of e t) id * quantity_or_1 (oi_quantity e)
    + order_required rest t id.
Proof. reflexivity. Qed.

Lemma order_required_same_ids orderList t t' id :
  menu t' = menu t ->
  recipe_ingredient t' = recipe_ingredient t ->
  ingredient t' = ingredient t ->
  map inv_inventory_id (inventory t') = map inv_inventory_id (inventory t) ->
  order_required orderList t' id = order_required orderList t id.
Proof.
  intros Hm Hri Hi Hinv. induction orderList as [|e rest IH].
  - reflexivity.
  - rewrite !order_required_cons, IH, (ingredientList_of_same_ids e t t'); auto.
Qed.

Lemma with_decrements_static ingredientList quantity t :
  menu (with_decrements ingredientList quantity t) = menu t /\
  recipe_ingredient (with_decrements ingredientList quantity t)
  = recipe_ingredient t /\
  ingredient (with_decrements ingredientList quantity t) = ingredient t.
Proof.
  unfold with_decrements. revert t.
  induction ingredientList as [|row rows IH]; intros t; cbn [fold_left].
  - auto.
  - destruct (IH (set_inventory t
                    (decrement (snd row * quantity) (fst row) (inventory t))))
      as (H1 & H2 & H3).
    rewrite H1, H2, H3. cbn. auto.
Qed.

(** The inventory and the static tables after the loop over the order
    list. *)
Lemma order_processed_inventory receiptId orderList t sq :
  menu (fst (order_processed receiptId orderList t sq)) = menu t /\
  recipe_ingredient (fst (order_processed receiptId orderList t sq))
  = recipe_ingredient t /\
  ingredient (fst (order_processed receiptId orderList t sq)) = ingredient t /\
  inventory (fst (order_processed receiptId orderList t sq))
  = map (fun inv =>
           {| inv_inventory_id := inv_inventory_id inv;
              inv_quantity :=
                inv_quantity inv
                - order_required orderList t (inv_inventory_id inv) |})
        (inventory t).
Proof.
  revert t sq. induction orderList as [|e rest IH]; intros t sq.
  - cbn. repeat split.
    rewrite <- (map_id (inventory t)) at 1. apply map_ext.
    intros [id qty]. cbn. f_equal. lia.
  - cbn [order_processed].
    destruct (item_processed receiptId e t sq) as [t1 sq1] eqn:Hitem.
    unfold item_processed in Hitem. injection Hitem as Ht1 Hsq1.
    destruct (IH t1 sq1) as (I1 & I2 & I3 & I4).
    assert (Hstatic : menu t1 = menu t /\
                      recipe_ingredient t1 = recipe_ingredient t /\
                      ingredient t1 = ingredient t).
    { subst t1.
      match goal with
      | |- context [with_decrements ?r ?q ?t2] =>
          destruct (with_decrements_static r q t2) as (H1 & H2 & H3)
      end.
      rewrite H1, H2, H3. repeat split. }
    assert (Hinv : inventory t1 =
                   map (fun inv =>
                          {| inv_inventory_id := inv_inventory_id inv;
                             inv_quantity := inv_quantity inv
                               - required (ingredientList_of e t)
                                          (inv_inventory_id inv)
                                 * quantity_or_1 (oi_quantity e) |})
                       (inventory t)).
    { subst t1. rewrite with_decrements_inventory, decrements_required.
      reflexivity. }
    destruct Hstatic as (S1 & S2 & S3).
    rewrite I1, I2, I3, I4, S1, S2, S3. repeat split.
    rewrite Hinv, map_map. apply map_ext. intros [id qty].
    cbn [inv_inventory_id inv_quantity]. rewrite order_required_cons.
    rewrite (order_required_same_ids rest t t1); auto.
    + f_equal. lia.
    + rewrite Hinv, map_map. reflexivity.
Qed.




(** ** Edge cases of the checkout *)

(** X14.  A Meal order item whose [entrees] is absent or [null] makes the
    checkout fail even when the database rejects nothing: the answer is
    never 200 and nothing is committed, also for the other items of the
    cart.  These are the only values of [entrees] that do so: an array, a
    string, a number or a boolean is indexed without an error, and without
    a rejected call an order of such items is accepted. *)
Theorem checkout_meal_without_entrees fault orderList totalPrice s :
  txn s = None ->
  (forall item v, oi_entrees item = indices v ->
     (well_formed item = false <->
      type_is item "Meal" = true /\ (v = VUndefined \/ v = VNull))) /\
  (forallb well_formed orderList = false ->
   committed (snd (processOrder fault orderList totalPrice s)) = committed s /\
   forall receiptId,
     fst (processOrder fault orderList totalPrice s) <> Json receiptId) /\
  (forallb well_formed orderList = true ->
   quiet_from fault (clock s) ->
   exists receiptId s',
     processOrder fault orderList totalPrice s = (Json receiptId, s')).
Proof.
  intros Hnone. split; [|split].
  - intros item v Hv. unfold well_formed. rewrite Hv.
    destruct (type_is item "Meal").
    + destruct v; cbn; split; intros H; try discriminate; auto;
        destruct H as (_ & [H | H]); discriminate.
    + split; [discriminate | intros [H _]; discriminate].
  - intros Hbad.
    pose proof (processOrder_cases fault orderList totalPrice s Hnone) as H.
    destruct (processOrder fault orderList totalPrice s)
      as [[receiptId|st e|e] s']; cbn [fst snd].
    + destruct H as (_ & _ & _ & _ & Hwf & _). congruence.
    + destruct H as (_ & Hc & _). split; [exact Hc | discriminate].
    + destruct H as (Hc & _). split; [exact Hc | discriminate].
  - intros Hwf Hq.
    pose proof (processOrder_cases fault orderList totalPrice s Hnone) as H.
    destruct (processOrder fault orderList totalPrice s)
      as [[receiptId|st e|e] s'].
    + eauto.
    + destruct H as (_ & _ & _ & Hbad). rewrite (Hbad Hq) in Hwf. discriminate.
    + destruct H as (_ & _ & Hnq). contradiction.
Qed.

(** A meal with [entrees: null] fails the whole order; a meal whose
    [entrees] is the text "Orange Chicken" is accepted, its first three
    characters being stored as the meats. *)
Lemma checkout_meal_without_entrees_witness :
  committed (snd (processOrder no_faults
               [demo_drink "Drink" (JNumber 1);
                {| oi_type := Some "Meal"%string; oi_name := None;
                   oi_size := None; oi_price := 849; oi_quantity := JNumber 1;
                   oi_entrees := indices VNull;
                   oi_side := Some "Fried Rice"%string |}]
               1048 demo_server))
  = committed demo_server /\
  (exists receiptId s',
     processOrder no_faults
       [{| oi_type := Some "Meal"%string; oi_name := None;
           oi_size := None; oi_price := 849; oi_quantity := JNumber 1;
           oi_entrees := indices (VString "Orange Chicken");
           oi_side := Some "Fried Rice"%string |}]
       849 demo_server = (Json receiptId, s')) /\
  In {| mi_line_item_id := 2; mi_size := None; mi_price := 849;
        mi_meat1 := Some "O"%string; mi_meat2 := Some "r"%string;
        mi_meat3 := Some "a"%string; mi_side := Some "Fried Rice"%string |}
     (meal_item (committed (snd (processOrder no_faults
        [{| oi_type := Some "Meal"%string; oi_name := None;
            oi_size := None; oi_price := 849; oi_quantity := JNumber 1;
            oi_entrees := indices (VString "Orange Chicken");
            oi_side := Some "Fried Rice"%string |}]
        849 demo_server)))).
Proof.
  split; [|split].
  - exact (proj1 (proj1 (proj2 (checkout_meal_without_entrees no_faults
                    [demo_drink "Drink" (JNumber 1);
                     {| oi_type := Some "Meal"%string; oi_name := None;
                        oi_size := None; oi_price := 849;
                        oi_quantity := JNumber 1;
                        oi_entrees := indices VNull;
                        oi_side := Some "Fried Rice"%string |}]
                    1048 demo_server eq_refl)) eq_refl)).
  - exact (proj2 (proj2 (checkout_meal_without_entrees no_faults
                    [{| oi_type := Some "Meal"%string; oi_name := None;
                        oi_size := None; oi_price := 849;
                        oi_quantity := JNumber 1;
                        oi_entrees := indices (VString "Orange Chicken");
                        oi_side := Some "Fried Rice"%string |}]
                    849 demo_server eq_refl)) eq_refl (quiet_from_no_faults _)).
  - vm_compute. tauto.
Defined.

(** X15.  An empty order list is accepted: without a rejected call the
    checkout answers 200 and commits a receipt with the submitted total
    and no line item; no other table changes. *)
Theorem checkout_empty_order fault totalPrice s :
  txn s = None ->
  quiet_from fault (clock s) ->
  exists s',
    processOrder fault [] totalPrice s = (Json (receipt_id_seq (seqs s)), s') /\
    committed s' =
      set_receipt (committed s)
        (receipt (committed s) ++
         [{| r_receipt_id := receipt_id_seq (seqs s);
             r_totalamount := totalPrice |}]).
Proof.
  intros Hnone Hq.
  pose proof (processOrder_cases fault [] totalPrice s Hnone) as H.
  destruct (processOrder fault [] totalPrice s) as [[receiptId|st e|e] s'].
  - destruct H as (-> & Hc & _). exists s'. split; [reflexivity|].
    rewrite Hc. reflexivity.
  - destruct H as (_ & _ & _ & Hok). specialize (Hok Hq). discriminate.
  - destruct H as (_ & _ & Hnq). contradiction.
Qed.

Lemma checkout_empty_order_witness :
  exists s',
    processOrder no_faults [] 0 demo_server
    = (Json (receipt_id_seq (seqs demo_server)), s') /\
    committed s' =
      set_receipt (committed demo_server)
        (receipt (committed demo_server) ++
         [{| r_receipt_id := receipt_id_seq (seqs demo_server);
             r_totalamount := 0 |}]).
Proof.
  exact (checkout_empty_order no_faults 0 demo_server eq_refl
           (quiet_from_no_faults (clock demo_server))).
Defined.



Example minus_three_drinks_add_six_units :
  map (fun inv =>
         {| inv_inventory_id := inv_inventory_id inv;
            inv_quantity := inv_quantity inv
              + required (ingredientList_of
                            (demo_drink "Drink" (JNumber (-3))) demo_tables)
                         (inv_inventory_id inv) * (- (-3)) |})
      (inventory demo_tables)
  = [{| inv_inventory_id := 10; inv_quantity := 100 |};
     {| inv_inventory_id := 11; inv_quantity := 100 |};
     {| inv_inventory_id := 12; inv_quantity := 106 |};
     {| inv_inventory_id := 13; inv_quantity := 100 |};
     {| inv_inventory_id := 14; inv_quantity := 100 |}].
Proof. vm_compute. reflexivity. Qed.

(** ** Submitting the same cart twice *)

Lemma expand_length_shift orderList start start' :
  length (expand orderList start) = length (expand orderList start').
Proof.
  revert start start'. induction orderList as [|e rest IH]; intros start start'.
  - reflexivity.
  - cbn [expand]. rewrite !length_app, !length_map, !ids_from_length.
    f_equal. apply IH.
Qed.

Lemma order_processed_seqs receiptId orderList t sq :
  snd (order_processed receiptId orderList t sq)
  = {| receipt_id_seq := receipt_id_seq sq;
       line_item_id_seq :=
         line_item_id_seq sq
         + Z.of_nat (length (expand orderList (line_item_id_seq sq))) |}.
Proof.
  revert t sq. induction orderList as [|e rest IH]; intros t sq.
  - destruct sq. cbn. rewrite Z.add_0_r. reflexivity.
  - cbn [order_processed expand].
    destruct (item_processed receiptId e t sq) as [t1 sq1] eqn:Hitem.
    unfold item_processed in Hitem. injection Hitem as _ Hsq1.
    rewrite IH. subst sq1. cbn [receipt_id_seq line_item_id_seq].
    rewrite length_app, length_map, ids_from_length. f_equal. lia.
Qed.

(** X17.  The checkout has no protection against a repeated submission:
    when the same order list and total are submitted twice and both
    requests answer 200, there are two receipts with consecutive ids and
    the same total, each with its own full set of line items. *)
Theorem checkout_twice_two_receipts
  fault1 fault2 orderList totalPrice s r1 s1 r2 s2 :
  txn s = None ->
  processOrder fault1 orderList totalPrice s = (Json r1, s1) ->
  processOrder fault2 orderList totalPrice s1 = (Json r2, s2) ->
  r2 = r1 + 1 /\
  receipt (committed s2) =
    receipt (committed s) ++
    [{| r_receipt_id := r1; r_totalamount := totalPrice |};
     {| r_receipt_id := r2; r_totalamount := totalPrice |}] /\
  line_item (committed s2) =
    line_item (committed s) ++
    map (fun p => line_item_of r1 (snd p) (fst p))
        (expand orderList (line_item_id_seq (seqs s))) ++
    map (fun p => line_item_of r2 (snd p) (fst p))
        (expand orderList (line_item_id_seq (seqs s1))) /\
  length (expand orderList (line_item_id_seq (seqs s1)))
  = length (expand orderList (line_item_id_seq (seqs s))).
Proof.
  intros Hnone Hrun1 Hrun2.
  pose proof (processOrder_cases fault1 orderList totalPrice s Hnone) as H1.
  rewrite Hrun1 in H1. destruct H1 as (-> & Hc1 & Hs1 & Ht1 & _).
  pose proof (processOrder_cases fault2 orderList totalPrice s1 Ht1) as H2.
  rewrite Hrun2 in H2. destruct H2 as (-> & Hc2 & _).
  unfold checked_out in Hc1, Hs1, Hc2. cbn [INSERT_receipt] in Hc1, Hs1, Hc2.
  rewrite order_processed_seqs in Hs1.
  cbn [receipt_id_seq line_item_id_seq] in Hs1.
  match type of Hc1 with
  | context [order_processed ?r orderList ?t2 ?sq2] =>
      destruct (order_processed_tables r orderList t2 sq2) as (A1 & A2 & _)
  end.
  match type of Hc2 with
  | context [order_processed ?r orderList ?t2 ?sq2] =>
      destruct (order_processed_tables r orderList t2 sq2) as (B1 & B2 & _)
  end.
  rewrite <- Hc1 in A1, A2. rewrite <- Hc2 in B1, B2.
  cbn [set_receipt receipt line_item line_item_id_seq] in A1, A2, B1, B2.
  split; [rewrite Hs1; reflexivity|].
  split; [rewrite B1, A1, <- app_assoc; reflexivity|].
  split; [rewrite B2, A2, <- app_assoc; reflexivity|].
  apply expand_length_shift.
Qed.

Lemma checkout_twice_two_receipts_witness :
  3 = 2 + 1 /\
  receipt (committed (snd (processOrder no_faults [demo_drink "Drink" (JNumber 3)]
                             597
                             (snd (processOrder no_faults
                                     [demo_drink "Drink" (JNumber 3)] 597
                                     demo_server))))) =
    receipt (committed demo_server) ++
    [{| r_receipt_id := 2; r_totalamount := 597 |};
     {| r_receipt_id := 3; r_totalamount := 597 |}].
Proof.
  assert (Hrun1 : processOrder no_faults [demo_drink "Drink" (JNumber 3)] 597
                    demo_server
                  = (Json 2,
                     snd (processOrder no_faults [demo_drink "Drink" (JNumber 3)]
                            597 demo_server)))
    by (vm_compute; reflexivity).
  assert (Hrun2 : processOrder no_faults [demo_drink "Drink" (JNumber 3)] 597
                    (snd (processOrder no_faults [demo_drink "Drink" (JNumber 3)]
                            597 demo_server))
                  = (Json 3,
                     snd (processOrder no_faults [demo_drink "Drink" (JNumber 3)]
                            597
                            (snd (processOrder no_faults
                                    [demo_drink "Drink" (JNumber 3)] 597
                                    demo_server)))))
    by (vm_compute; reflexivity).
  pose proof (checkout_twice_two_receipts no_faults no_faults _ 597 demo_server
                2 _ 3 _ eq_refl Hrun1 Hrun2) as H.
  exact (conj (proj1 H) (proj1 (proj2 H))).
Defined.

(** ** The id invariant *)

Lemma seqs_le_refl sq : seqs_le sq sq.
Proof. unfold seqs_le. lia. Qed.

Lemma seqs_le_trans a b c : seqs_le a b -> seqs_le b c -> seqs_le a c.
Proof. unfold seqs_le. lia. Qed.

Lemma bind_grows {A B} (m : M A) (f : A -> M B) :
  (forall s, seqs_le (seqs s) (seqs (snd (m s)))) ->
  (forall a s, seqs_le (seqs s) (seqs (snd (f a s)))) ->
  forall s, seqs_le (seqs s) (seqs (snd (bind m f s))).
Proof.
  intros Hm Hf s. unfold bind. specialize (Hm s).
  destruct (m s) as [[a|e] s1]; cbn [snd] in *.
  - eapply seqs_le_trans; [exact Hm | apply Hf].
  - exact Hm.
Qed.

Lemma pool_query_grows fault {A} (q : statement A) :
  (forall t sq, seqs_le sq (snd (q t sq))) ->
  forall s, seqs_le (seqs s) (seqs (snd (pool_query fault q s))).
Proof.
  intros Hq s. unfold pool_query.
  destruct (fault (clock s)); [apply seqs_le_refl|].
  specialize (Hq (view s) (seqs s)).
  destruct (q (view s) (seqs s)) as [[a t'] sq']. cbn [snd] in *.
  destruct (txn s); exact Hq.
Qed.

Lemma pool_query_tx_grows fault c s :
  seqs_le (seqs s) (seqs (snd (pool_query_tx fault c s))).
Proof.
  unfold pool_query_tx.
  destruct (fault (clock s)); [apply seqs_le_refl|].
  destruct c; apply seqs_le_refl.
Qed.

Lemma for_of_grows {A} (l : list A) (body : A -> M unit) :
  (forall x s, seqs_le (seqs s) (seqs (snd (body x s)))) ->
  forall s, seqs_le (seqs s) (seqs (snd (for_of l body s))).
Proof.
  intros Hbody. induction l as [|x l IH]; intros s.
  - apply seqs_le_refl.
  - cbn [for_of]. revert s. apply bind_grows; [apply Hbody | intros _; exact IH].
Qed.

Lemma for_q_grows n (body : M unit) :
  (forall s, seqs_le (seqs s) (seqs (snd (body s)))) ->
  forall s, seqs_le (seqs s) (seqs (snd (for_q n body s))).
Proof.
  intros Hbody. induction n as [|n IH]; intros s.
  - apply seqs_le_refl.
  - cbn [for_q]. revert s. apply bind_grows; [exact Hbody | intros _; exact IH].
Qed.

Ltac statement_grows :=
  intros; apply pool_query_grows; intros ? [? ?]; unfold seqs_le; cbn; lia.

Lemma insert_specific_grows fault id e s :
  seqs_le (seqs s) (seqs (snd (insert_specific fault id e s))).
Proof.
  unfold insert_specific.
  destruct (type_is e "Meal").
  - destruct (oi_entrees e); [revert s; statement_grows | apply seqs_le_refl].
  - destruct (type_is e "drink" || type_is e "Drink");
      [revert s; statement_grows|].
    destruct (type_is e "appetizer");
      [revert s; statement_grows | apply seqs_le_refl].
Qed.

Lemma process_orderItem_grows fault receiptId e s :
  seqs_le (seqs s) (seqs (snd (process_orderItem fault receiptId e s))).
Proof.
  unfold process_orderItem. revert s. apply bind_grows.
  - apply for_q_grows. apply bind_grows.
    + statement_grows.
    + intros id s. apply insert_specific_grows.
  - intros _. apply bind_grows.
    + unfold select_ingredientList. intros s.
      destruct (type_is e "Meal").
      * destruct (oi_entrees e); [revert s; statement_grows | apply seqs_le_refl].
      * revert s. statement_grows.
    + intros rows. apply for_of_grows. statement_grows.
Qed.

Lemma catch_rollback_grows fault {A B} (m : M A) (body : A -> B) s :
  (forall s, seqs_le (seqs s) (seqs (snd (m s)))) ->
  seqs_le (seqs s)
    (seqs (snd (match m s with
                | (Return a, s') => (Json (body a), s')
                | (Throw message, s') =>
                    match pool_query_tx fault ROLLBACK s' with
                    | (Return _, s'') => (ErrorJson 500 message, s'')
                    | (Throw message', s'') => (Unhandled message', s'')
                    end
                end))).
Proof.
  intros Hm. specialize (Hm s). destruct (m s) as [[a|e] s1]; cbn [snd] in *.
  - exact Hm.
  - pose proof (pool_query_tx_grows fault ROLLBACK s1) as Hrb.
    destruct (pool_query_tx fault ROLLBACK s1) as [[[]|e'] s2]; cbn [snd] in *;
      eapply seqs_le_trans; eauto.
Qed.

Lemma processOrder_grows fault orderList totalPrice s :
  seqs_le (seqs s) (seqs (snd (processOrder fault orderList totalPrice s))).
Proof.
  unfold processOrder.
  apply (catch_rollback_grows fault
           (processOrder_try fault orderList totalPrice) (fun r => r)).
  unfold processOrder_try. apply bind_grows.
  - intros s0. apply pool_query_tx_grows.
  - intros _. apply bind_grows; [statement_grows|].
    intros r. apply bind_grows.
    + apply for_of_grows. intros e s0. apply process_orderItem_grows.
    + intros _. apply bind_grows.
      * intros s0. apply pool_query_tx_grows.
      * intros _ s0. apply seqs_le_refl.
Qed.

Lemma delete_receipt_grows fault receipt_id s :
  seqs_le (seqs s) (seqs (snd (delete_receipt fault receipt_id s))).
Proof.
  unfold delete_receipt.
  apply (catch_rollback_grows fault
           (pool_query_tx fault BEGIN ;;;
            delete_receipt_statements fault receipt_id ;;;
            pool_query_tx fault COMMIT)
           (fun _ => "Receipt deleted successfully!"%string)).
  apply bind_grows; [intros s0; apply pool_query_tx_grows|].
  intros _. apply bind_grows; [|intros _ s0; apply pool_query_tx_grows].
  unfold delete_receipt_statements. apply bind_grows; [statement_grows|].
  intros rows. apply bind_grows.
  - intros s0. destruct (map li_line_item_id rows); [apply seqs_le_refl|].
    revert s0. apply bind_grows; [statement_grows|].
    intros _. apply bind_grows; [statement_grows|]. intros _. statement_grows.
  - intros _. apply bind_grows; [statement_grows|]. intros _. statement_grows.
Qed.

Lemma put_insert_specific_grows fault id item s :
  seqs_le (seqs s) (seqs (snd (put_insert_specific fault id item s))).
Proof.
  unfold put_insert_specific.
  destruct (in_type item) as [type|]; [|apply seqs_le_refl].
  destruct (String.eqb type "Meal").
  - destruct (in_meats item); [revert s; statement_grows | apply seqs_le_refl].
  - destruct (String.eqb type "Drink"); [revert s; statement_grows|].
    destruct (String.eqb type "Appetizer");
      [revert s; statement_grows | apply seqs_le_refl].
Qed.

Lemma put_receipt_grows fault receipt_id status line_items s :
  seqs_le (seqs s)
          (seqs (snd (put_receipt fault receipt_id status line_items s))).
Proof.
  unfold put_receipt.
  apply (catch_rollback_grows fault
           (pool_query_tx fault BEGIN ;;;
            put_receipt_statements fault receipt_id status line_items ;;;
            pool_query_tx fault COMMIT)
           (fun _ => "Receipt updated successfully!"%string)).
  apply bind_grows; [intros s0; apply pool_query_tx_grows|].
  intros _. apply bind_grows; [|intros _ s0; apply pool_query_tx_grows].
  unfold put_receipt_statements. apply bind_grows; [statement_grows|].
  intros _ s0. destruct line_items as [items|]; [|apply seqs_le_refl].
  revert s0. unfold put_replace_line_items.
  apply bind_grows; [statement_grows|]. intros rows.
  apply bind_grows; [statement_grows|]. intros _.
  apply bind_grows; [statement_grows|]. intros _.
  apply bind_grows; [statement_grows|]. intros _.
  apply bind_grows; [statement_grows|]. intros _.
  apply for_of_grows. intros item. apply bind_grows; [statement_grows|].
  intros id s1. apply put_insert_specific_grows.
Qed.

Lemma forallb_below_mono {A} (key : A -> Z) a b (l : list A) :
  a <= b ->
  forallb (fun x => key x <? a) l = true ->
  forallb (fun x => key x <? b) l = true.
Proof.
  intros Hle. rewrite !forallb_forall. intros H x Hx.
  apply H, Z.ltb_lt in Hx. apply Z.ltb_lt. lia.
Qed.

Lemma fresh_mono t sq sq' :
  seqs_le sq sq' -> fresh t sq = true -> fresh t sq' = true.
Proof.
  intros [Hr Hl]. unfold fresh. rewrite !andb_true_iff.
  intros ((((Fr & Fli) & Fmi) & Fdi) & Fai).
  repeat split; eapply forallb_below_mono; eauto.
Qed.

Lemma forallb_flat_map {A B} (f : B -> bool) (g : A -> list B) (l : list A) :
  (forall x y, In x l -> In y (g x) -> f y = true) ->
  forallb f (flat_map g l) = true.
Proof.
  intros H. apply forallb_forall. intros y Hy. apply in_flat_map in Hy.
  destruct Hy as (x & Hx & Hy). eapply H; eauto.
Qed.

Lemma fresh_checked_out orderList totalPrice t sq :
  fresh t sq = true ->
  fresh (fst (checked_out orderList totalPrice t sq))
        (snd (checked_out orderList totalPrice t sq)) = true.
Proof.
  unfold fresh. rewrite !andb_true_iff.
  intros ((((Fr & Fli) & Fmi) & Fdi) & Fai).
  unfold checked_out. cbn [INSERT_receipt].
  match goal with
  | |- context [order_processed ?r orderList ?t2 ?sq2] =>
      destruct (order_processed_tables r orderList t2 sq2)
        as (I1 & I2 & I3 & I4 & I5);
      rewrite (order_processed_seqs r orderList t2 sq2)
  end.
  rewrite I1, I2, I3, I4, I5.
  cbn [set_receipt receipt line_item meal_item drink_item appetizer_item
       receipt_id_seq line_item_id_seq].
  rewrite !forallb_app.
  assert (Hids : forall id e,
            In (id, e) (expand orderList (line_item_id_seq sq)) ->
            id < line_item_id_seq sq
                 + Z.of_nat (length (expand orderList (line_item_id_seq sq)))).
  { intros id e Hin. apply (in_map fst) in Hin. rewrite expand_fst in Hin.
    apply ids_from_In in Hin. cbn in Hin. lia. }
  repeat split; rewrite ?andb_true_iff; repeat split.
  - eapply forallb_below_mono; [|exact Fr]. lia.
  - cbn. rewrite andb_true_r. apply Z.ltb_lt. lia.
  - eapply forallb_below_mono; [|exact Fli]. lia.
  - apply forallb_forall. intros li Hli. apply in_map_iff in Hli.
    destruct Hli as (p & <- & _). cbn. apply Z.ltb_lt. lia.
  - eapply forallb_below_mono; [|exact Fmi]. lia.
  - apply forallb_flat_map. intros [id e] r Hin Hr. cbn [fst snd] in Hr.
    apply meal_rows_key in Hr. rewrite Hr. apply Z.ltb_lt. eauto.
  - eapply forallb_below_mono; [|exact Fdi]. lia.
  - apply forallb_flat_map. intros [id e] r Hin Hr. cbn [fst snd] in Hr.
    apply drink_rows_key in Hr. rewrite Hr. apply Z.ltb_lt. eauto.
  - eapply forallb_below_mono; [|exact Fai]. lia.
  - apply forallb_flat_map. intros [id e] r Hin Hr. cbn [fst snd] in Hr.
    apply appetizer_rows_key in Hr. rewrite Hr. apply Z.ltb_lt. eauto.
Qed.

Lemma fresh_receipt_deleted receipt_id t sq :
  fresh t sq = true -> fresh (receipt_deleted receipt_id t) sq = true.
Proof.
  unfold fresh. rewrite !andb_true_iff.
  intros ((((Fr & Fli) & Fmi) & Fdi) & Fai).
  unfold receipt_deleted.
  cbn [receipt line_item meal_item drink_item appetizer_item].
  repeat split; apply forallb_filter; assumption.
Qed.

Lemma fresh_line_items_replaced receipt_id items t sq :
  receipt_id < receipt_id_seq sq ->
  fresh t sq = true ->
  fresh (line_items_replaced receipt_id items t sq)
        {| receipt_id_seq := receipt_id_seq sq;
           line_item_id_seq := line_item_id_seq sq + Z.of_nat (length items) |}
  = true.
Proof.
  intros Hrid. unfold fresh. rewrite !andb_true_iff.
  intros ((((Fr & Fli) & Fmi) & Fdi) & Fai).
  unfold line_items_replaced, with_inputs, receipt_deleted.
  cbn [set_receipt receipt line_item meal_item drink_item appetizer_item
       receipt_id_seq line_item_id_seq].
  rewrite !forallb_app.
  assert (Hids : forall id x,
            In (id, x) (numbered items (line_item_id_seq sq)) ->
            id < line_item_id_seq sq + Z.of_nat (length items)).
  { intros id x Hin. apply (in_map fst) in Hin. rewrite numbered_fst in Hin.
    apply ids_from_In in Hin. cbn in Hin. lia. }
  repeat split; rewrite ?andb_true_iff; repeat split.
  - exact Fr.
  - apply forallb_filter. exact Fli.
  - apply forallb_forall. intros li Hli. apply in_map_iff in Hli.
    destruct Hli as (p & <- & _). cbn. apply Z.ltb_lt. exact Hrid.
  - apply forallb_filter. eapply forallb_below_mono; [|exact Fmi]. lia.
  - apply forallb_flat_map. intros [id x] r Hin Hr. cbn [fst snd] in Hr.
    apply input_meal_rows_key in Hr. rewrite Hr. apply Z.ltb_lt. eauto.
  - apply forallb_filter. eapply forallb_below_mono; [|exact Fdi]. lia.
  - apply forallb_flat_map. intros [id x] r Hin Hr. cbn [fst snd] in Hr.
    apply input_drink_rows_key in Hr. rewrite Hr. apply Z.ltb_lt. eauto.
  - apply forallb_filter. eapply forallb_below_mono; [|exact Fai]. lia.
  - apply forallb_flat_map. intros [id x] r Hin Hr. cbn [fst snd] in Hr.
    apply input_appetizer_rows_key in Hr. rewrite Hr. apply Z.ltb_lt. eauto.
Qed.

Lemma NoDup_map_filter {A B} (key : A -> B) (p : A -> bool) (l : list A) :
  NoDup (map key l) -> NoDup (map key (filter p l)).
Proof.
  induction l as [|x l IH]; cbn; [auto|].
  intros Hnd. inversion Hnd as [|? ? Hnotin Hnd']; subst.
  destruct (p x); cbn; [|auto].
  constructor; [|auto].
  intros Hin. apply Hnotin. apply in_map_iff in Hin.
  destruct Hin as (y & Hy & Hin). apply filter_In in Hin.
  rewrite <- Hy. apply in_map. tauto.
Qed.

Lemma NoDup_app_above (l1 l2 : list Z) (b : Z) :
  NoDup l1 -> NoDup l2 ->
  (forall x, In x l1 -> x < b) -> (forall y, In y l2 -> b <= y) ->
  NoDup (l1 ++ l2).
Proof.
  intros H1 H2 Hlt Hge. induction H1 as [|x l1 Hx H1 IH]; [exact H2|].
  cbn [app]. constructor.
  - rewrite in_app_iff. intros [H | H]; [auto|].
    specialize (Hlt x (or_introl eq_refl)). specialize (Hge x H). lia.
  - apply IH. intros y Hy. apply Hlt. right. exact Hy.
Qed.

Lemma forallb_below_In {A} (key : A -> Z) b (l : list A) :
  forallb (fun x => key x <? b) l = true ->
  forall y, In y (map key l) -> y < b.
Proof.
  rewrite forallb_forall. intros H y Hy. apply in_map_iff in Hy.
  destruct Hy as (x & <- & Hx). apply Z.ltb_lt. auto.
Qed.

Lemma keys_ok_mono t sq sq' :
  seqs_le sq sq' -> keys_ok t sq -> keys_ok t sq'.
Proof.
  intros Hle (Hf & Hli & Hr & Hl). repeat split; auto.
  - eapply fresh_mono; eauto.
  - destruct Hle as [_ Hle]. eapply forallb_below_mono; eauto.
Qed.

Lemma keys_ok_checked_out orderList totalPrice t sq :
  keys_ok t sq ->
  keys_ok (fst (checked_out orderList totalPrice t sq))
          (snd (checked_out orderList totalPrice t sq)).
Proof.
  intros (Hf & Hli & Hr & Hl).
  split; [apply fresh_checked_out; exact Hf|].
  assert (Frec : forallb (fun r => r_receipt_id r <? receipt_id_seq sq)
                         (receipt t) = true).
  { unfold fresh in Hf. rewrite !andb_true_iff in Hf. tauto. }
  unfold checked_out. cbn [INSERT_receipt].
  match goal with
  | |- context [order_processed ?r orderList ?t2 ?sq2] =>
      destruct (order_processed_tables r orderList t2 sq2) as (I1 & I2 & _);
      rewrite (order_processed_seqs r orderList t2 sq2)
  end.
  rewrite I1, I2.
  cbn [set_receipt receipt line_item receipt_id_seq line_item_id_seq].
  assert (Hids : map li_line_item_id
                   (map (fun p => line_item_of (receipt_id_seq sq) (snd p) (fst p))
                        (expand orderList (line_item_id_seq sq)))
                 = ids_from (line_item_id_seq sq)
                            (length (expand orderList (line_item_id_seq sq)))).
  { rewrite map_map. cbn [line_item_of li_line_item_id]. apply expand_fst. }
  split; [|split].
  - rewrite forallb_app. apply andb_true_iff. split.
    + eapply forallb_below_mono; [|exact Hli]. lia.
    + apply forallb_forall. intros li Hin. apply Z.ltb_lt.
      apply (in_map li_line_item_id) in Hin. rewrite Hids in Hin.
      apply ids_from_In in Hin. lia.
  - rewrite map_app. cbn [map r_receipt_id].
    apply (NoDup_app_above _ _ (receipt_id_seq sq)); auto.
    + repeat constructor. intros [].
    + apply forallb_below_In. exact Frec.
    + intros y [<- | []]. lia.
  - rewrite map_app, Hids.
    apply (NoDup_app_above _ _ (line_item_id_seq sq)); auto.
    + apply NoDup_ids_from.
    + apply forallb_below_In. exact Hli.
    + intros y Hy. apply ids_from_In in Hy. lia.
Qed.

Lemma keys_ok_receipt_deleted receipt_id t sq :
  keys_ok t sq -> keys_ok (receipt_deleted receipt_id t) sq.
Proof.
  intros (Hf & Hli & Hr & Hl).
  split; [apply fresh_receipt_deleted; exact Hf|].
  unfold receipt_deleted. cbn [receipt line_item].
  split; [apply forallb_filter; exact Hli|].
  split; apply NoDup_map_filter; assumption.
Qed.

Lemma keys_ok_line_items_replaced receipt_id items t sq :
  receipt_id < receipt_id_seq sq ->
  keys_ok t sq ->
  keys_ok (line_items_replaced receipt_id items t sq)
          {| receipt_id_seq := receipt_id_seq sq;
             line_item_id_seq := line_item_id_seq sq + Z.of_nat (length items) |}.
Proof.
  intros Hrid (Hf & Hli & Hr & Hl).
  split; [apply fresh_line_items_replaced; assumption|].
  unfold line_items_replaced, with_inputs, receipt_deleted.
  cbn [set_receipt receipt line_item receipt_id_seq line_item_id_seq].
  assert (Hids : map li_line_item_id
                   (map (fun p => input_line_item receipt_id (snd p) (fst p))
                        (numbered items (line_item_id_seq sq)))
                 = ids_from (line_item_id_seq sq) (length items)).
  { rewrite map_map. cbn [input_line_item li_line_item_id]. apply numbered_fst. }
  split; [|split].
  - rewrite forallb_app. apply andb_true_iff. split.
    + apply forallb_filter. eapply forallb_below_mono; [|exact Hli]. lia.
    + apply forallb_forall. intros li Hin. apply Z.ltb_lt.
      apply (in_map li_line_item_id) in Hin. rewrite Hids in Hin.
      apply ids_from_In in Hin. lia.
  - exact Hr.
  - rewrite map_app, Hids.
    apply (NoDup_app_above _ _ (line_item_id_seq sq)).
    + apply NoDup_map_filter. exact Hl.
    + apply NoDup_ids_from.
    + apply forallb_below_In. apply forallb_filter. exact Hli.
    + intros y Hy. apply ids_from_In in Hy. lia.
Qed.

(** X18.  The key invariant of the tables is kept by the checkout, by the
    delete route and, for a receipt id below the receipt sequence, by the
    update route, whatever calls the database rejects and whatever the
    routes answer.  The invariant says that every serial id in a table is
    below its sequence (the ids of the receipts and of the line items, and
    the receipt id and line item id that line items and variant rows
    name), and that no two receipts and no two line items have the same
    id; so a route never gives a new row the id of an existing one. *)
Theorem routes_keep_ids_fresh fault s :
  txn s = None ->
  keys_ok (committed s) (seqs s) ->
  (forall orderList totalPrice,
     keys_ok (committed (snd (processOrder fault orderList totalPrice s)))
             (seqs (snd (processOrder fault orderList totalPrice s)))) /\
  (forall receipt_id,
     keys_ok (committed (snd (delete_receipt fault receipt_id s)))
             (seqs (snd (delete_receipt fault receipt_id s)))) /\
  (forall receipt_id status line_items,
     receipt_id < receipt_id_seq (seqs s) ->
     keys_ok (committed (snd (put_receipt fault receipt_id status line_items s)))
             (seqs (snd (put_receipt fault receipt_id status line_items s)))).
Proof.
  intros Hnone Hkeys. split; [|split].
  - intros orderList totalPrice.
    pose proof (processOrder_cases fault orderList totalPrice s Hnone) as H.
    pose proof (processOrder_grows fault orderList totalPrice s) as Hg.
    destruct (processOrder fault orderList totalPrice s)
      as [[r|st e|e] s']; cbn [snd] in *.
    + destruct H as (_ & Hc & Hs & _). rewrite Hc, Hs.
      apply keys_ok_checked_out. exact Hkeys.
    + destruct H as (_ & Hc & _). rewrite Hc. eapply keys_ok_mono; eauto.
    + destruct H as (Hc & _). rewrite Hc. eapply keys_ok_mono; eauto.
  - intros receipt_id.
    pose proof (delete_receipt_cases fault receipt_id s Hnone) as H.
    pose proof (delete_receipt_grows fault receipt_id s) as Hg.
    destruct (delete_receipt fault receipt_id s)
      as [[m|st e|e] s']; cbn [snd] in *.
    + destruct H as (Hc & Hs & _). rewrite Hc, Hs.
      apply keys_ok_receipt_deleted. exact Hkeys.
    + destruct H as (_ & Hc & _). rewrite Hc. eapply keys_ok_mono; eauto.
    + destruct H as (Hc & _). rewrite Hc. eapply keys_ok_mono; eauto.
  - intros receipt_id status line_items Hrid.
    pose proof (put_receipt_cases fault receipt_id status line_items s Hnone)
      as H.
    pose proof (put_receipt_grows fault receipt_id status line_items s) as Hg.
    destruct (put_receipt fault receipt_id status line_items s)
      as [[m|st e|e] s']; cbn [snd] in *.
    + destruct H as (Hc & Hs & _). rewrite Hc, Hs.
      destruct line_items as [items|]; [|exact Hkeys].
      apply keys_ok_line_items_replaced; assumption.
    + destruct H as (_ & Hc & _). rewrite Hc. eapply keys_ok_mono; eauto.
    + destruct H as (Hc & _). rewrite Hc. eapply keys_ok_mono; eauto.
Qed.

(** Three drinks on the demo tables: the new line items get the ids 2, 3
    and 4, none of which an earlier line item has. *)
Lemma routes_keep_ids_fresh_witness :
  keys_ok (committed demo_server) (seqs demo_server) /\
  keys_ok (committed (snd (processOrder no_faults
                             [demo_drink "Drink" (JNumber 3)] 597 demo_server)))
          (seqs (snd (processOrder no_faults
                        [demo_drink "Drink" (JNumber 3)] 597 demo_server))) /\
  map li_line_item_id
      (line_item (committed (snd (processOrder no_faults
                    [demo_drink "Drink" (JNumber 3)] 597 demo_server))))
  = map li_line_item_id (line_item (committed demo_server)) ++ [2; 3; 4].
Proof.
  assert (Hkeys : keys_ok (committed demo_server) (seqs demo_server)).
  { split; [vm_compute; reflexivity|]. split; [vm_compute; reflexivity|].
    split; cbn; repeat constructor; cbn; intuition discriminate. }
  split; [exact Hkeys|]. split.
  - exact (proj1 (routes_keep_ids_fresh no_faults demo_server eq_refl Hkeys)
             [demo_drink "Drink" (JNumber 3)] 597).
  - vm_compute. reflexivity.
Defined.

(** ** The shopping cart *)

Lemma same_product_true item x :
  same_product item x = true <-> product x = product item.
Proof.
  unfold same_product, product.
  destruct (name_eq_dec (ci_name x) (ci_name item)) as [Hn|Hn],
    (stringify_eq_dec (ci_entrees x) (ci_entrees item)) as [He|He],
    (stringify_eq_dec (ci_sides x) (ci_sides item)) as [Hs|Hs]; cbn;
    split; intros H; try discriminate; try reflexivity;
    try (rewrite Hn, He, Hs; reflexivity);
    injection H as H1 H2 H3; contradiction.
Qed.

Lemma findIndex_None {A} (p : A -> bool) (l : list A) :
  findIndex p l = None -> forall x, In x l -> p x = false.
Proof.
  induction l as [|y l IH]; cbn; [intros _ x []|].
  destruct (p y) eqn:Hy; [discriminate|].
  destruct (findIndex p l); [discriminate|].
  intros _ x [<-|Hx]; [exact Hy | apply IH; auto].
Qed.

Lemma findIndex_Some {A} (p : A -> bool) (l : list A) i :
  findIndex p l = Some i ->
  exists x, nth_error l i = Some x /\ p x = true.
Proof.
  revert i. induction l as [|y l IH]; cbn; [discriminate|].
  intros i. destruct (p y) eqn:Hy.
  - intros [= <-]. exists y. auto.
  - destruct (findIndex p l) as [k|]; [|discriminate].
    intros [= <-]. destruct (IH k eq_refl) as (x & Hx & Hp). exists x. auto.
Qed.

Lemma update_at_map {A B} (g : A -> B) i (f : A -> A) (l : list A) :
  (forall x, g (f x) = g x) ->
  map g (update_at i f l) = map g l.
Proof.
  intros Hg. revert i. induction l as [|x l IH]; intros [|i]; cbn;
    try reflexivity.
  - rewrite Hg. reflexivity.
  - rewrite IH. reflexivity.
Qed.

Lemma update_at_In {A} i (f : A -> A) (l : list A) y :
  In y (update_at i f l) -> In y l \/ exists x, In x l /\ y = f x.
Proof.
  revert i. induction l as [|x l IH]; intros [|i]; cbn; try tauto.
  - intros [<-|H]; [right; exists x; auto | auto].
  - intros [<-|H]; [auto|].
    destruct (IH i H) as [H'|(z & Hz & ->)]; [auto|].
    right. exists z. auto.
Qed.

Lemma filter_lines_In g (l : list cartItem) y :
  In y (filter_lines (map g l)) -> exists x, In x l /\ g x = Some y.
Proof.
  induction l as [|x l IH]; cbn; [intros []|].
  destruct (g x) as [z|] eqn:Hg.
  - intros [<-|H]; [exists x; auto|].
    destruct (IH H) as (x' & Hx' & Hg'). exists x'. auto.
  - intros H. destruct (IH H) as (x' & Hx' & Hg'). exists x'. auto.
Qed.

Lemma NoDup_map_filter_lines {B} (key : cartItem -> B) g (l : list cartItem) :
  (forall x y, g x = Some y -> key y = key x) ->
  NoDup (map key l) -> NoDup (map key (filter_lines (map g l))).
Proof.
  intros Hkey. induction l as [|x l IH]; cbn; [auto|].
  intros Hnd. inversion Hnd as [|? ? Hnotin Hnd']; subst.
  destruct (g x) as [z|] eqn:Hg; cbn; [|auto].
  constructor; [|auto].
  intros Hin. apply Hnotin. apply in_map_iff in Hin.
  destruct Hin as (y & Hy & Hin). apply filter_lines_In in Hin.
  destruct Hin as (x' & Hx' & Hg'). apply Hkey in Hg'. apply Hkey in Hg.
  apply in_map_iff. exists x'. split; [congruence | exact Hx'].
Qed.

Lemma quantity_or_1_positive n : 1 <= n -> quantity_or_1 (JNumber n) = n.
Proof.
  intros Hn. cbn. destruct (Z.eqb_spec n 0); [lia | reflexivity].
Qed.

Lemma NoDup_middle_ids before (line : cartItem) after :
  NoDup (map ci_id (before ++ line :: after)) ->
  forall x, In x (before ++ after) -> ci_id x <> ci_id line.
Proof.
  rewrite map_app. cbn [map]. intros Hnd x Hx Heq.
  apply NoDup_remove_2 in Hnd. apply Hnd. rewrite <- map_app, <- Heq.
  apply in_map. exact Hx.
Qed.

Lemma filter_lines_app l l' :
  filter_lines (l ++ l') = filter_lines l ++ filter_lines l'.
Proof.
  induction l as [|[x|] l IH]; cbn; [reflexivity | rewrite IH | exact IH];
    reflexivity.
Qed.

Lemma filter_lines_untouched (g : cartItem -> option cartItem) l :
  (forall x, In x l -> g x = Some x) -> filter_lines (map g l) = l.
Proof.
  intros H. induction l as [|x l IH]; [reflexivity|].
  cbn [map]. rewrite (H x (or_introl eq_refl)). cbn [filter_lines].
  rewrite IH; [reflexivity|]. intros y Hy. apply H. right. exact Hy.
Qed.

Lemma filter_untouched {A} (p : A -> bool) l :
  (forall x, In x l -> p x = true) -> filter p l = l.
Proof.
  intros H. induction l as [|x l IH]; [reflexivity|].
  cbn [filter]. rewrite (H x (or_introl eq_refl)), IH; [reflexivity|].
  intros y Hy. apply H. right. exact Hy.
Qed.

(** X19.  The cart keeps its lines well numbered and counted: the empty
    cart is well formed, and [addItemToCart], [removeItemFromCart],
    [updateItemQuantity] (with any change) and [clearCart] keep the ids of
    the lines distinct and below [nextId] and every quantity a number from
    1 on.  In a well-formed cart [updateItemQuantity] changes the line with
    the given id only: it sets its quantity to the old one plus the
    change, and removes the line when that is 0 or below; with an id no
    line has it changes nothing.  [removeItemFromCart] removes the line
    with the given id and no other. *)
Theorem cart_operations_keep_cart_ok :
  cart_ok initial_cart /\
  forall c, cart_ok c ->
    (forall item d, cart_ok (addItemToCart item d c)) /\
    (forall itemId, cart_ok (removeItemFromCart itemId c)) /\
    (forall itemId quantityChange,
       cart_ok (updateItemQuantity itemId quantityChange c)) /\
    cart_ok (clearCart c) /\
    (forall before line after quantityChange,
       fst c = before ++ line :: after ->
       updateItemQuantity (ci_id line) quantityChange c
       = (if 0 <? quantity_or_1 (ci_quantity line) + quantityChange
          then before
               ++ set_quantity line
                    (quantity_or_1 (ci_quantity line) + quantityChange)
               :: after
          else before ++ after,
          snd c)) /\
    (forall itemId quantityChange,
       (forall line, In line (fst c) -> ci_id line <> itemId) ->
       updateItemQuantity itemId quantityChange c = c) /\
    (forall before line after,
       fst c = before ++ line :: after ->
       removeItemFromCart (ci_id line) c = (before ++ after, snd c)).
Proof.
  split.
  { split; [constructor | intros item []]. }
  intros [cartItems nextId] [Hnd Hall]. cbn [fst snd] in *.
  split; [|split; [|split; [|split; [|split; [|split]]]]].
  - intros item d. unfold addItemToCart.
    destruct (findIndex (same_product item) cartItems) as [i|] eqn:Hfind.
    + split; cbn [fst snd].
      * rewrite update_at_map; [exact Hnd | reflexivity].
      * intros y Hy. apply update_at_In in Hy.
        destruct Hy as [Hy|(x & Hx & ->)]; [apply Hall; exact Hy|].
        destruct (Hall x Hx) as (Hid & n & Hq & Hn).
        split; [exact Hid|]. exists (n + 1). split; [|lia].
        cbn. rewrite Hq, quantity_or_1_positive by exact Hn. reflexivity.
    + split; cbn [fst snd].
      * rewrite map_app. cbn. apply NoDup_app; [exact Hnd | | ].
        -- constructor; [intros [] | constructor].
        -- intros id Hin [<-|[]]. apply in_map_iff in Hin.
           destruct Hin as (x & Hid & Hx). destruct (Hall x Hx) as (Hlt & _).
           lia.
      * intros y Hy. apply in_app_or in Hy. destruct Hy as [Hy|[<-|[]]].
        -- destruct (Hall y Hy) as (Hid & Hq). split; [lia | exact Hq].
        -- cbn. split; [lia|]. exists 1. split; [reflexivity | lia].
  - intros itemId. split; cbn [fst snd].
    + apply NoDup_map_filter. exact Hnd.
    + intros y Hy. apply filter_In in Hy. apply Hall. tauto.
  - intros itemId quantityChange. split; cbn [fst snd].
    + apply NoDup_map_filter_lines; [|exact Hnd].
      intros x y. cbv beta zeta. destruct (ci_id x =? itemId).
      * destruct (0 <? quantity_or_1 (ci_quantity x) + quantityChange);
          [intros [= <-]; reflexivity | discriminate].
      * intros [= <-]. reflexivity.
    + intros y Hy. apply filter_lines_In in Hy.
      destruct Hy as (x & Hx & Hg). destruct (Hall x Hx) as (Hid & Hq).
      cbv beta zeta in Hg. destruct (ci_id x =? itemId).
      * destruct (Z.ltb_spec 0 (quantity_or_1 (ci_quantity x) + quantityChange))
          as [Hpos|Hneg]; [|discriminate].
        injection Hg as <-. split; [exact Hid|].
        eexists. split; [reflexivity | lia].
      * injection Hg as <-. auto.
  - split; [constructor | intros item []].
  - intros before line after quantityChange ->.
    pose proof (NoDup_middle_ids before line after Hnd) as Hother.
    unfold updateItemQuantity. f_equal.
    rewrite map_app, filter_lines_app. cbn [map]. rewrite Z.eqb_refl.
    cbv zeta.
    assert (Hsame : forall l, (forall x, In x l -> In x (before ++ after)) ->
              filter_lines
                (map (fun item =>
                        if ci_id item =? ci_id line
                        then if 0 <? quantity_or_1 (ci_quantity item)
                                     + quantityChange
                             then Some (set_quantity item
                                          (quantity_or_1 (ci_quantity item)
                                           + quantityChange))
                             else None
                        else Some item) l) = l).
    { intros l Hl. apply filter_lines_untouched. intros x Hx.
      destruct (Z.eqb_spec (ci_id x) (ci_id line)) as [E|E]; [|reflexivity].
      destruct (Hother x (Hl x Hx) E). }
    rewrite (Hsame before) by (intros x Hx; apply in_or_app; left; exact Hx).
    destruct (0 <? quantity_or_1 (ci_quantity line) + quantityChange);
      cbn [filter_lines];
      rewrite (Hsame after) by (intros x Hx; apply in_or_app; right; exact Hx);
      reflexivity.
  - intros itemId quantityChange Habsent. unfold updateItemQuantity. f_equal.
    apply filter_lines_untouched. intros x Hx.
    destruct (Z.eqb_spec (ci_id x) itemId) as [E|E]; [|reflexivity].
    destruct (Habsent x Hx E).
  - intros before line after ->.
    pose proof (NoDup_middle_ids before line after Hnd) as Hother.
    unfold removeItemFromCart. f_equal.
    rewrite filter_app. cbn [filter]. rewrite Z.eqb_refl. cbn [negb].
    rewrite (filter_untouched _ before), (filter_untouched _ after).
    + reflexivity.
    + intros x Hx. apply negb_true_iff, Z.eqb_neq.
      apply Hother, in_or_app. right. exact Hx.
    + intros x Hx. apply negb_true_iff, Z.eqb_neq.
      apply Hother, in_or_app. left. exact Hx.
Qed.

Lemma units_app l l' : units (l ++ l') = units l + units l'.
Proof.
  induction l as [|x l IH]; cbn; [reflexivity|].
  fold (units (l ++ l')). fold (units l). rewrite IH. lia.
Qed.

Lemma units_update_at i l x :
  nth_error l i = Some x ->
  1 <= quantity_or_1 (ci_quantity x) ->
  units (update_at i
           (fun old => set_quantity old (quantity_or_1 (ci_quantity old) + 1)) l)
  = units l + 1.
Proof.
  revert i. induction l as [|y l IH]; intros [|i]; cbn [nth_error update_at];
    try discriminate.
  - intros [= ->] Hq. cbn [units fold_right set_quantity ci_quantity].
    rewrite quantity_or_1_positive by lia. lia.
  - intros Hnth Hq. cbn [units fold_right].
    fold (units l).
    fold (units (update_at i
                   (fun old => set_quantity old
                                 (quantity_or_1 (ci_quantity old) + 1)) l)).
    rewrite (IH i Hnth Hq). lia.
Qed.

Lemma findIndex_first {A} (p : A -> bool) before x after :
  p x = true -> (forall y, In y before -> p y = false) ->
  findIndex p (before ++ x :: after) = Some (length before).
Proof.
  intros Hx Hb. induction before as [|y before IH]; cbn.
  - rewrite Hx. reflexivity.
  - rewrite (Hb y (or_introl eq_refl)), IH; [reflexivity|].
    intros z Hz. apply Hb. right. exact Hz.
Qed.

Lemma findIndex_absent {A} (p : A -> bool) l :
  (forall y, In y l -> p y = false) -> findIndex p l = None.
Proof.
  intros H. induction l as [|y l IH]; [reflexivity|]. cbn.
  rewrite (H y (or_introl eq_refl)), IH; [reflexivity|].
  intros z Hz. apply H. right. exact Hz.
Qed.

Lemma update_at_middle {A} (f : A -> A) before x after :
  update_at (length before) f (before ++ x :: after) = before ++ f x :: after.
Proof.
  induction before as [|y before IH]; cbn; [reflexivity|].
  rewrite IH. reflexivity.
Qed.

(** X20.  Adding a product to a well-formed cart adds exactly one unit.
    When a line with the same name, entrees and sides exists, the first
    such line gets one more, and no other line, no id and no new line is
    touched or added; when there is none, one line with quantity 1 and the
    id [nextId] is appended and [nextId] grows by one.  Without details, a
    cart in which no two lines are the same product stays so. *)
Theorem addItemToCart_adds_one_unit item d c :
  cart_ok c ->
  units (fst (addItemToCart item d c)) = units (fst c) + 1 /\
  (forall before line after,
     fst c = before ++ line :: after ->
     same_product item line = true ->
     (forall x, In x before -> same_product item x = false) ->
     addItemToCart item d c
     = (before
        ++ set_quantity line (quantity_or_1 (ci_quantity line) + 1) :: after,
        snd c)) /\
  ((forall x, In x (fst c) -> same_product item x = false) ->
   addItemToCart item d c
   = (fst c ++ [new_cart_item item (snd c) d], snd c + 1)) /\
  (distinct_products (fst c) ->
   distinct_products (fst (addItemToCart item no_details c))).
Proof.
  destruct c as [cartItems nextId]. intros [Hnd Hall]. cbn [fst snd] in *.
  split; [|split; [|split]].
  - unfold addItemToCart.
    destruct (findIndex (same_product item) cartItems) as [i|] eqn:Hfind;
      cbn [fst].
    + destruct (findIndex_Some _ _ _ Hfind) as (x & Hx & _).
      apply (units_update_at i cartItems x Hx).
      destruct (Hall x (nth_error_In _ _ Hx)) as (_ & n & Hq & Hn).
      rewrite Hq, quantity_or_1_positive; assumption.
    + rewrite units_app. cbn. lia.
  - intros before line after -> Hline Hbefore. unfold addItemToCart.
    rewrite (findIndex_first _ before line after Hline Hbefore).
    rewrite update_at_middle. reflexivity.
  - intros Hnone. unfold addItemToCart.
    rewrite (findIndex_absent _ cartItems Hnone). reflexivity.
  - unfold distinct_products, addItemToCart. intros Hdist.
    destruct (findIndex (same_product item) cartItems) as [i|] eqn:Hfind;
      cbn [fst].
    + rewrite update_at_map; [exact Hdist | reflexivity].
    + rewrite map_app. cbn. apply NoDup_app; [exact Hdist | | ].
      * constructor; [intros [] | constructor].
      * intros k Hin [<-|[]]. apply in_map_iff in Hin.
        destruct Hin as (x & Hk & Hx).
        pose proof (findIndex_None _ _ Hfind x Hx) as Hfalse.
        assert (Htrue : same_product item x = true)
          by (apply same_product_true; exact Hk).
        congruence.
Qed.

(** A cart with a meal line and a drink line: adding the drink again
    gives the drink line, the second one, the quantity 2 and leaves the
    meal line and [nextId] as they are. *)
Lemma addItemToCart_adds_one_unit_witness :
  addItemToCart demo_cart_drink no_details
    ([new_cart_item demo_cart_meal 1 no_details;
      new_cart_item demo_cart_drink 2 no_details], 3)
  = ([new_cart_item demo_cart_meal 1 no_details;
      set_quantity (new_cart_item demo_cart_drink 2 no_details) 2], 3) /\
  units (fst (addItemToCart demo_cart_drink no_details
                ([new_cart_item demo_cart_meal 1 no_details;
                  new_cart_item demo_cart_drink 2 no_details], 3)))
  = 3.
Proof.
  assert (Hok : cart_ok ([new_cart_item demo_cart_meal 1 no_details;
                          new_cart_item demo_cart_drink 2 no_details], 3)).
  { split; cbn.
    - repeat constructor; cbn; intuition discriminate.
    - intros item [<-|[<-|[]]]; cbn; (split; [lia|]);
        exists 1; (split; [reflexivity | lia]). }
  assert (Hline : same_product demo_cart_drink
                    (new_cart_item demo_cart_drink 2 no_details) = true)
    by (vm_compute; reflexivity).
  assert (Hbefore : forall x,
            In x [new_cart_item demo_cart_meal 1 no_details] ->
            same_product demo_cart_drink x = false).
  { intros x [<-|[]]. vm_compute. reflexivity. }
  pose proof (addItemToCart_adds_one_unit demo_cart_drink no_details
                ([new_cart_item demo_cart_meal 1 no_details;
                  new_cart_item demo_cart_drink 2 no_details], 3) Hok)
    as (Hunits & Hfirst & _).
  split.
  - exact (Hfirst [new_cart_item demo_cart_meal 1 no_details]
             (new_cart_item demo_cart_drink 2 no_details) []
             eq_refl Hline Hbefore).
  - rewrite Hunits. vm_compute. reflexivity.
Defined.

(** ** From the cart to the checkout *)

Lemma checkoutDetail_well_formed cartItems :
  forallb well_formed (map checkoutDetail cartItems) = true.
Proof.
  apply forallb_forall. intros e He. apply in_map_iff in He.
  destruct He as (item & <- & _). unfold well_formed, checkoutDetail.
  cbn [oi_entrees]. destruct (type_is _ "Meal"); reflexivity.
Qed.

Lemma expand_checkout_units cartItems start :
  (forall item, In item cartItems ->
     exists n, ci_quantity item = JNumber n /\ 1 <= n) ->
  Z.of_nat (length (expand (map checkoutDetail cartItems) start))
  = units cartItems.
Proof.
  revert start. induction cartItems as [|item rest IH]; intros start Hall.
  - reflexivity.
  - cbn [map expand units fold_right]. fold (units rest).
    rewrite length_app, length_map, ids_from_length, Nat2Z.inj_add.
    rewrite IH by (intros x Hx; apply Hall; right; exact Hx).
    destruct (Hall item (or_introl eq_refl)) as (n & Hq & Hn).
    cbn [checkoutDetail oi_quantity]. rewrite Hq.
    rewrite !(quantity_or_1_positive n Hn). lia.
Qed.

(** X21.  What the cart page sends is always accepted.  For every
    well-formed cart, each order item built by [handleCheckout] has an
    [entrees] array and a quantity from 1 on, so when the database rejects
    no call the checkout answers 200, and it has inserted exactly one line
    item per unit in the cart. *)
Theorem cart_checkout_accepted fault cartItems nextId totalPrice s :
  txn s = None ->
  quiet_from fault (clock s) ->
  cart_ok (cartItems, nextId) ->
  forallb well_formed (map checkoutDetail cartItems) = true /\
  exists s',
    processOrder fault (map checkoutDetail cartItems) totalPrice s
    = (Json (receipt_id_seq (seqs s)), s') /\
    Z.of_nat (length (line_item (committed s')))
    = Z.of_nat (length (line_item (committed s))) + units cartItems.
Proof.
  intros Hnone Hq [_ Hall]. cbn [fst snd] in Hall.
  split; [apply checkoutDetail_well_formed|].
  pose proof (processOrder_cases fault (map checkoutDetail cartItems)
                totalPrice s Hnone) as H.
  destruct (processOrder fault (map checkoutDetail cartItems) totalPrice s)
    as [[receiptId|st e|e] s'].
  - destruct H as (-> & Hc & _). exists s'. split; [reflexivity|].
    rewrite Hc. unfold checked_out. cbn [INSERT_receipt].
    match goal with
    | |- context [order_processed ?r ?l ?t2 ?sq2] =>
        destruct (order_processed_tables r l t2 sq2) as (_ & I2 & _)
    end.
    rewrite I2. cbn [set_receipt line_item line_item_id_seq].
    rewrite length_app, length_map, Nat2Z.inj_add.
    rewrite expand_checkout_units; [reflexivity|].
    intros item Hitem. apply Hall. exact Hitem.
  - destruct H as (_ & _ & _ & Hok).
    pose proof (checkoutDetail_well_formed cartItems) as Hwf.
    rewrite (Hok Hq) in Hwf. discriminate.
  - destruct H as (_ & _ & Hnq). contradiction.
Qed.

Lemma cart_checkout_accepted_witness :
  forallb well_formed
    (map checkoutDetail
       (fst (addItemToCart demo_cart_meal no_details
               (addItemToCart demo_cart_drink no_details initial_cart))))
  = true.
Proof.
  assert (Hok : cart_ok
                  (fst (addItemToCart demo_cart_meal no_details
                          (addItemToCart demo_cart_drink no_details
                             initial_cart)),
                   3)).
  { split; cbn.
    - repeat constructor; cbn; intuition lia.
    - intros item [<-|[<-|[]]]; cbn; (split; [lia|]); exists 1; split;
        (reflexivity || lia). }
  exact (proj1 (cart_checkout_accepted no_faults _ 3 1048 demo_server eq_refl
                  (quiet_from_no_faults (clock demo_server)) Hok)).
Defined.

(** ** The menu routes *)

Lemma fold_left_max_ge l : forall a,
  a <= fold_left Z.max l a /\
  (forall x, In x l -> x <= fold_left Z.max l a).
Proof.
  induction l as [|y l IH]; intros a; cbn [fold_left].
  - split; [lia | intros x []].
  - destruct (IH (Z.max a y)) as (H1 & H2). split; [lia|].
    intros x [<- | Hin]; [lia | auto].
Qed.

Lemma NoDup_snoc_above (l : list Z) (x : Z) :
  NoDup l -> (forall y, In y l -> y < x) -> NoDup (l ++ [x]).
Proof.
  intros Hnd Hlt. induction Hnd as [|y l Hy Hnd IH]; cbn.
  - constructor; [intros [] | constructor].
  - constructor.
    + rewrite in_app_iff. intros [H | [H | []]]; [auto|].
      specialize (Hlt y (or_introl eq_refl)). lia.
    + apply IH. intros z Hz. apply Hlt. right. exact Hz.
Qed.

Lemma view_tick s : view (tick s) = view s.
Proof. reflexivity. Qed.

Lemma runQuery_cases {A} fault (q : statement A) s :
  match fault (clock s) with
  | Some message => runQuery fault q s = (Failure message, tick s)
  | None =>
      exists s', runQuery fault q s = (Success (fst (fst (q (view s) (seqs s)))), s') /\
                 view s' = snd (fst (q (view s) (seqs s))) /\
                 seqs s' = snd (q (view s) (seqs s)) /\
                 txn s' = match txn s with
                          | Some _ => Some (view s')
                          | None => None
                          end /\
                 clock s' = S (clock s)
  end.
Proof.
  unfold runQuery, pool_query.
  destruct (fault (clock s)) as [message|]; [reflexivity|].
  destruct (q (view s) (seqs s)) as [[a t'] sq'] eqn:Hq.
  destruct (txn s) as [w|] eqn:Ht; eexists; (split; [reflexivity|]);
    unfold view; cbn; auto.
Qed.

(** X22.  [addItem] that answers 200 has appended one menu row whose id is
    above every id of the menu (1 on an empty menu), so distinct menu ids
    stay distinct; when the [MAX] query is rejected the handler's promise
    rejects with a [TypeError], when the insert is rejected it answers 500;
    in both cases the tables are as before. *)
Theorem addItem_fresh_menu_id fault name s :
  NoDup (map m_menu_id (menu (view s))) ->
  match addItem fault name s with
  | (Json _, s') =>
      exists menu_id,
        menu (view s')
        = menu (view s) ++ [{| m_menu_id := menu_id; m_name := name |}] /\
        (forall m, In m (menu (view s)) -> m_menu_id m < menu_id) /\
        (menu (view s) = [] -> menu_id = 1) /\
        NoDup (map m_menu_id (menu (view s'))) /\
        recipe_ingredient (view s') = recipe_ingredient (view s) /\
        fault (clock s) = None /\ fault (S (clock s)) = None
  | (ErrorJson status _, s') =>
      status = 500 /\ view s' = view s /\ fault (S (clock s)) <> None
  | (Unhandled message, s') =>
      message = TypeError /\ view s' = view s /\ fault (clock s) <> None
  end.
Proof.
  intros Hnd. unfold addItem.
  pose proof (runQuery_cases fault SELECT_MAX_menu_id s) as H1.
  destruct (fault (clock s)) as [e|] eqn:Hf1.
  { rewrite H1. repeat split. congruence. }
  destruct H1 as (s1 & -> & Hv1 & Hs1 & Ht1 & Hc1).
  cbn [SELECT_MAX_menu_id fst snd] in Hv1, Hs1 |- *.
  set (menu_id := match match menu (view s) with
                        | [] => None
                        | m :: rest =>
                            Some (fold_left Z.max (map m_menu_id rest) (m_menu_id m))
                        end with
                  | Some m => m + 1
                  | None => 1
                  end).
  cbv zeta.
  pose proof (runQuery_cases fault (INSERT_menu menu_id name) s1) as H2.
  rewrite Hc1 in H2.
  destruct (fault (S (clock s))) as [e|] eqn:Hf2.
  { rewrite H2. rewrite view_tick, Hv1. repeat split. congruence. }
  destruct H2 as (s2 & -> & Hv2 & Hs2 & Ht2 & Hc2).
  cbn [INSERT_menu fst snd] in Hv2.
  assert (Habove : forall m, In m (menu (view s)) -> m_menu_id m < menu_id).
  { intros m Hin. subst menu_id.
    destruct (menu (view s)) as [|m0 rest]; [destruct Hin|].
    destruct (fold_left_max_ge (map m_menu_id rest) (m_menu_id m0)) as (Ha & Hb).
    destruct Hin as [<- | Hin]; [lia|].
    specialize (Hb (m_menu_id m) (in_map _ _ _ Hin)). lia. }
  exists menu_id. rewrite Hv2, Hv1. cbn [set_menu menu recipe_ingredient].
  repeat split; auto.
  - intros Hnil. subst menu_id. rewrite Hnil. reflexivity.
  - rewrite map_app. cbn [map m_menu_id]. apply NoDup_snoc_above; [exact Hnd|].
    intros y Hy. apply in_map_iff in Hy. destruct Hy as (m & <- & Hin). auto.
Qed.

Lemma addItem_fresh_menu_id_witness :
  NoDup (map m_menu_id (menu (view demo_server))) /\
  match addItem no_faults (Some "Spring Roll"%string) demo_server with
  | (Json _, s') =>
      exists menu_id,
        menu (view s')
        = menu (view demo_server)
          ++ [{| m_menu_id := menu_id; m_name := Some "Spring Roll"%string |}] /\
        (forall m, In m (menu (view demo_server)) -> m_menu_id m < menu_id) /\
        (menu (view demo_server) = [] -> menu_id = 1) /\
        NoDup (map m_menu_id (menu (view s'))) /\
        recipe_ingredient (view s') = recipe_ingredient (view demo_server) /\
        no_faults (clock demo_server) = None /\
        no_faults (S (clock demo_server)) = None
  | (ErrorJson status _, s') =>
      status = 500 /\ view s' = view demo_server /\
      no_faults (S (clock demo_server)) <> None
  | (Unhandled message, s') =>
      message = TypeError /\ view s' = view demo_server /\
      no_faults (clock demo_server) <> None
  end.
Proof.
  assert (H : NoDup (map m_menu_id (menu (view demo_server)))).
  { cbn. repeat constructor; cbn; intuition discriminate. }
  split; [exact H|].
  exact (addItem_fresh_menu_id no_faults (Some "Spring Roll"%string) demo_server H).
Defined.

Lemma UPDATE_menu_permutation name menu_id l :
  Permutation
    (filter (fun m => negb (m_menu_id m =? menu_id)) l
     ++ map (fun m => {| m_menu_id := m_menu_id m; m_name := name |})
            (filter (fun m => m_menu_id m =? menu_id) l))
    (map (renamed name menu_id) l).
Proof.
  induction l as [|m l IH]; [constructor|].
  cbn [filter map].
  destruct (m_menu_id m =? menu_id) eqn:E; cbn [negb map app].
  - replace (renamed name menu_id m)
      with {| m_menu_id := m_menu_id m; m_name := name |}
      by (unfold renamed; rewrite E; reflexivity).
    apply Permutation_sym, Permutation_cons_app, Permutation_sym. exact IH.
  - replace (renamed name menu_id m) with m
      by (unfold renamed; rewrite E; reflexivity).
    constructor. exact IH.
Qed.

Lemma UPDATE_menu_absent name menu_id l :
  (forall m, In m l -> m_menu_id m <> menu_id) ->
  filter (fun m => negb (m_menu_id m =? menu_id)) l
  ++ map (fun m => {| m_menu_id := m_menu_id m; m_name := name |})
         (filter (fun m => m_menu_id m =? menu_id) l)
  = l.
Proof.
  intros H. induction l as [|m l IH]; [reflexivity|].
  cbn [filter]. destruct (Z.eqb_spec (m_menu_id m) menu_id) as [E|E].
  - destruct (H m (or_introl eq_refl) E).
  - cbn [negb app]. rewrite IH; [reflexivity|].
    intros m' Hm'. apply H. right. exact Hm'.
Qed.

Lemma set_menu_same t : set_menu t (menu t) = t.
Proof. destruct t. reflexivity. Qed.

(** X23.  [editItem] never fails with an unhandled rejection.  When it
    answers 200 the menu holds, in some order, the rows it held before,
    each row with the given id now carrying the new name and every other
    row unchanged; so the ids of the menu are the same, as often as
    before.  With an id no row has it still answers 200 and the tables are
    as before.  When the update is rejected it answers 500 and nothing
    changed. *)
Theorem editItem_renames_rows fault menu_id name s :
  match editItem fault menu_id name s with
  | (Json _, s') =>
      Permutation (menu (view s'))
                  (map (renamed name menu_id) (menu (view s))) /\
      Permutation (map m_menu_id (menu (view s')))
                  (map m_menu_id (menu (view s))) /\
      (forall m, In m (menu (view s')) -> m_menu_id m = menu_id ->
                 m_name m = name) /\
      (forall m, m_menu_id m <> menu_id ->
                 (In m (menu (view s')) <-> In m (menu (view s)))) /\
      ((forall m, In m (menu (view s)) -> m_menu_id m <> menu_id) ->
       view s' = view s) /\
      recipe_ingredient (view s') = recipe_ingredient (view s) /\
      inventory (view s') = inventory (view s) /\
      fault (clock s) = None
  | (ErrorJson status _, s') =>
      status = 500 /\ view s' = view s /\ fault (clock s) <> None
  | (Unhandled _, _) => False
  end.
Proof.
  unfold editItem.
  pose proof (runQuery_cases fault (UPDATE_menu name menu_id) s) as H1.
  destruct (fault (clock s)) as [e|] eqn:Hf1.
  { rewrite H1. repeat split. congruence. }
  destruct H1 as (s1 & -> & Hv1 & _).
  cbn [UPDATE_menu fst snd] in Hv1.
  rewrite Hv1. cbn [set_menu menu recipe_ingredient inventory].
  pose proof (UPDATE_menu_permutation name menu_id (menu (view s))) as Hperm.
  assert (Hin : forall m,
            In m (filter (fun m => negb (m_menu_id m =? menu_id)) (menu (view s))
                  ++ map (fun m => {| m_menu_id := m_menu_id m; m_name := name |})
                         (filter (fun m => m_menu_id m =? menu_id)
                                 (menu (view s))))
            <-> In m (filter (fun m => negb (m_menu_id m =? menu_id))
                             (menu (view s)))
                \/ (m_menu_id m = menu_id /\ m_name m = name /\
                    exists m0, In m0 (menu (view s)) /\ m_menu_id m0 = menu_id)).
  { intros m. rewrite in_app_iff, in_map_iff. split.
    - intros [H | (m0 & <- & H0)]; [left; exact H | right].
      apply filter_In in H0. destruct H0 as (H0 & E). apply Z.eqb_eq in E.
      cbn. repeat split; auto. exists m0. auto.
    - intros [H | (E1 & E2 & m0 & H0 & E0)]; [left; exact H | right].
      exists m0. split.
      + destruct m as [id nm]. cbn in *. subst. reflexivity.
      + apply filter_In. split; [exact H0 | apply Z.eqb_eq; exact E0]. }
  split; [exact Hperm|].
  split.
  { etransitivity; [apply Permutation_map; exact Hperm|].
    rewrite map_map.
    replace (map (fun x => m_menu_id (renamed name menu_id x)) (menu (view s)))
      with (map m_menu_id (menu (view s))); [reflexivity|].
    apply map_ext. intros m. unfold renamed.
    destruct (m_menu_id m =? menu_id); reflexivity. }
  split.
  { intros m Hm Hid. apply Hin in Hm. destruct Hm as [Hm | (_ & Hn & _)].
    - apply filter_In in Hm. destruct Hm as (_ & Hne).
      apply negb_true_iff, Z.eqb_neq in Hne. contradiction.
    - exact Hn. }
  split.
  { intros m Hne. rewrite Hin, filter_In. split.
    - intros [[H _] | (E & _)]; [exact H | contradiction].
    - intros H. left. split; [exact H|].
      apply negb_true_iff, Z.eqb_neq. exact Hne. }
  split.
  { intros Habs. rewrite UPDATE_menu_absent by exact Habs. apply set_menu_same. }
  repeat split.
Qed.

Lemma set_recipe_ingredient_tables t v :
  receipt (set_recipe_ingredient t v) = receipt t /\
  line_item (set_recipe_ingredient t v) = line_item t /\
  ingredient (set_recipe_ingredient t v) = ingredient t /\
  inventory (set_recipe_ingredient t v) = inventory t /\
  menu (set_recipe_ingredient t v) = menu t.
Proof. repeat split. Qed.

(** X24.  [removeItem] issues both deletes whatever the first one gave and
    never fails with an unhandled rejection: the recipe rows of the id are
    gone exactly when the first delete was not rejected, the menu rows of
    the id exactly when the second was not, independently of each other;
    it answers 200 only when neither was rejected and 500 otherwise, so a
    500 can leave either half of the removal done.  Receipts, line items,
    ingredients and inventory are never touched. *)
Theorem removeItem_two_independent_deletes fault menu_id s :
  let '(r, s') := removeItem fault menu_id s in
  recipe_ingredient (view s')
  = match fault (clock s) with
    | None => filter (fun ri => negb (ri_recipe_id ri =? menu_id))
                     (recipe_ingredient (view s))
    | Some _ => recipe_ingredient (view s)
    end /\
  menu (view s')
  = match fault (S (clock s)) with
    | None => filter (fun m => negb (m_menu_id m =? menu_id)) (menu (view s))
    | Some _ => menu (view s)
    end /\
  receipt (view s') = receipt (view s) /\
  line_item (view s') = line_item (view s) /\
  ingredient (view s') = ingredient (view s) /\
  inventory (view s') = inventory (view s) /\
  clock s' = S (S (clock s)) /\
  match r with
  | Json _ => fault (clock s) = None /\ fault (S (clock s)) = None
  | ErrorJson status _ =>
      status = 500 /\
      (fault (clock s) <> None \/ fault (S (clock s)) <> None)
  | Unhandled _ => False
  end.
Proof.
  unfold removeItem.
  pose proof (runQuery_cases fault (DELETE_recipe_ingredient menu_id) s) as H1.
  destruct (fault (clock s)) as [e1|] eqn:Hf1.
  - rewrite H1.
    pose proof (runQuery_cases fault (DELETE_menu menu_id) (tick s)) as H2.
    cbn [tick clock] in H2.
    destruct (fault (S (clock s))) as [e2|] eqn:Hf2.
    + rewrite H2. cbn. repeat split; auto. left. congruence.
    + destruct H2 as (s2 & -> & Hv2 & _ & _ & Hc2).
      rewrite view_tick in Hv2. cbn [DELETE_menu fst snd] in Hv2.
      rewrite Hv2. cbn. repeat split; auto. left. congruence.
  - destruct H1 as (s1 & -> & Hv1 & _ & _ & Hc1).
    cbn [DELETE_recipe_ingredient fst snd] in Hv1.
    pose proof (runQuery_cases fault (DELETE_menu menu_id) s1) as H2.
    rewrite Hc1 in H2.
    destruct (fault (S (clock s))) as [e2|] eqn:Hf2.
    + rewrite H2. rewrite view_tick, Hv1. cbn. rewrite Hc1.
      repeat split; auto. right. congruence.
    + destruct H2 as (s2 & -> & Hv2 & _ & _ & Hc2).
      cbn [DELETE_menu fst snd] in Hv2. rewrite Hv2, Hv1. cbn.
      repeat split; auto; lia.
Qed.

Lemma order_required_nothing orderList t inventory_id :
  (forall orderItem, In orderItem orderList ->
                     ingredientList_of orderItem t = []) ->
  order_required orderList t inventory_id = 0.
Proof.
  intros H. induction orderList as [|e rest IH]; [reflexivity|].
  rewrite order_required_cons, (H e (or_introl eq_refl)), IH.
  - reflexivity.
  - intros e' He'. apply H. right. exact He'.
Qed.

(** X25.  Once the first delete of [removeItem] went through, whether or
    not the second did and whatever the route answered, a checkout whose
    items select only menu rows of the removed id answers as usual and
    takes nothing from the inventory: the item is sold without any stock
    movement. *)
Theorem removed_item_sells_without_stock
  fault menu_id s r s1 fault' orderList totalPrice receiptId s2 :
  txn s = None ->
  fault (clock s) = None ->
  removeItem fault menu_id s = (r, s1) ->
  (forall orderItem m,
     In orderItem orderList -> In m (menu (committed s)) ->
     where_name orderItem (m_name m) = true -> m_menu_id m = menu_id) ->
  processOrder fault' orderList totalPrice s1 = (Json receiptId, s2) ->
  inventory (committed s2) = inventory (committed s) /\
  length (receipt (committed s2)) = S (length (receipt (committed s))).
Proof.
  intros Hnone Hf1 Hrem Hsel Hrun.
  assert (H1 : txn s1 = None /\
               recipe_ingredient (committed s1)
               = filter (fun ri => negb (ri_recipe_id ri =? menu_id))
                        (recipe_ingredient (committed s)) /\
               (forall m, In m (menu (committed s1)) -> In m (menu (committed s))) /\
               inventory (committed s1) = inventory (committed s) /\
               receipt (committed s1) = receipt (committed s)).
  { revert Hrem. unfold removeItem, runQuery, pool_query, view.
    rewrite Hf1, Hnone. cbn.
    destruct (fault (S (clock s))); cbn; intros Hrem; inversion Hrem; subst;
      cbn; repeat split; auto.
    intros m Hm. apply filter_In in Hm. tauto. }
  destruct H1 as (Hnone1 & Hri & Hmenu & Hinv & Hrec).
  pose proof (processOrder_cases fault' orderList totalPrice s1 Hnone1) as H.
  rewrite Hrun in H. destruct H as (_ & Hc & _).
  rewrite Hc. unfold checked_out. cbn [INSERT_receipt].
  match goal with
  | |- context [order_processed ?r' orderList ?t2 ?sq2] =>
      destruct (order_processed_inventory r' orderList t2 sq2) as (_ & _ & _ & I4);
      pose proof (order_processed_tables r' orderList t2 sq2) as Htab
  end.
  split.
  - rewrite I4. cbn [set_receipt inventory]. rewrite Hinv.
    rewrite <- (map_id (inventory (committed s))) at 2.
    apply map_ext. intros [id qty]. cbn [inv_inventory_id inv_quantity].
    rewrite order_required_nothing; [f_equal; lia|].
    intros orderItem Hin. rewrite ingredientList_of_where_name.
    apply ingredient_join_without_recipe.
    cbn [set_receipt menu recipe_ingredient]. intros m ri Hm Hp Hr.
    rewrite Hri in Hr. apply filter_In in Hr. destruct Hr as (_ & Hr).
    rewrite (Hsel orderItem m Hin (Hmenu m Hm) Hp).
    apply negb_true_iff in Hr. apply Z.eqb_neq in Hr. congruence.
  - destruct Htab as (T1 & _). rewrite T1. cbn [set_receipt receipt].
    rewrite Hrec, length_app. cbn [length]. lia.
Qed.

Lemma removed_item_sells_without_stock_witness :
  inventory (committed (snd (processOrder no_faults
               [demo_drink "Drink" (JNumber 3)] 597
               (snd (removeItem second_call_rejected 3 demo_server)))))
  = inventory (committed demo_server) /\
  length (receipt (committed (snd (processOrder no_faults
               [demo_drink "Drink" (JNumber 3)] 597
               (snd (removeItem second_call_rejected 3 demo_server))))))
  = S (length (receipt (committed demo_server))).
Proof.
  assert (Hrem : removeItem second_call_rejected 3 demo_server
                 = (ErrorJson 500
                      "Failed to remove menu item or associated recipe ingredients.",
                    snd (removeItem second_call_rejected 3 demo_server)))
    by (vm_compute; reflexivity).
  assert (Hrun : processOrder no_faults [demo_drink "Drink" (JNumber 3)] 597
                   (snd (removeItem second_call_rejected 3 demo_server))
                 = (Json 2,
                    snd (processOrder no_faults [demo_drink "Drink" (JNumber 3)] 597
                           (snd (removeItem second_call_rejected 3 demo_server)))))
    by (vm_compute; reflexivity).
  assert (Hsel : forall orderItem m,
             In orderItem [demo_drink "Drink" (JNumber 3)] ->
             In m (menu (committed demo_server)) ->
             where_name orderItem (m_name m) = true -> m_menu_id m = 3).
  { intros orderItem m [<- | []] Hm.
    cbn in Hm. decompose [or] Hm; subst; try contradiction;
      vm_compute; intros H; (reflexivity || discriminate H). }
  exact (removed_item_sells_without_stock second_call_rejected 3 demo_server _ _
           no_faults _ 597 2 _ eq_refl eq_refl Hrem Hsel Hrun).
Defined.
